(** * GIE 2.0 core: a shallow embedding of the ledger, hive, sensor and
      guardian code, with the properties the specification states about it.

    Conventions used throughout.

    - Python [int] values are [Z]; Python [float] values are exact rationals
      [Q] (NaN and the infinities are outside the model, and rounding error of
      binary64 arithmetic is not represented).  Where the source compares
      floats whose rounding matters, the comparison is a parameter of the
      section.
    - A Python exception is a value of [exn]; a call that may raise returns
      [result].  A method that mutates [self] and then raises returns the
      mutated state together with the exception.
    - A [dict] whose iteration order is observable is an association list in
      insertion order; a [dict] used as a plain table is a [gmap].
    - Logging, printing, pickling and wall-clock reads leave no trace in the
      modelled state and are left out. *)

From Stdlib Require Import ZArith QArith Qabs Qround Qfield Lia Lqa List Bool.
From stdpp Require Import gmap strings list fin_maps sorting.

Local Open Scope Z_scope.

(** ** Python runtime notions shared by the modules *)

Inductive exn : Type :=
| KeyError
| ZeroDivisionError
| ValueError
| IndexError
| AttributeError
| AttributeOrTypeError.

Inductive result (A : Type) : Type :=
| Ok (a : A)
| Raise (e : exn).
Arguments Ok {A} a.
Arguments Raise {A} e.

Definition bind {A B : Type} (r : result A) (k : A -> result B) : result B :=
  match r with
  | Ok a => k a
  | Raise e => Raise e
  end.


(** [a / b] on Python ints: true division, [ZeroDivisionError] on [b = 0]. *)
Definition py_truediv (a b : Z) : result Q :=
  if b =? 0 then Raise ZeroDivisionError
  else Ok (inject_Z a / inject_Z b)%Q.

(** Truthiness of a Python int. *)
Definition truthy (n : Z) : bool := negb (n =? 0).

(** [{"win": w, "trials": t}] *)
Record Stat : Type := mkStat { win : Z; trials : Z }.

#[global] Instance Stat_eq_dec : EqDecision Stat.
Proof. solve_decision. Defined.

(** ** core/gie_mind.py, class GieMind: the per-engine stats table *)

Module GieMind.

(** [self.stats = {name: {"win": 0, "trials": 1} for e in self.engines}] *)
Definition init_stats (engines : list string) : gmap string Stat :=
  list_to_map (map (fun name => (name, mkStat 0 1)) engines).

(** [get_effectiveness], lines 126-128:
    [stat = self.stats[engine_name]]
    [return stat["win"] / stat["trials"] if stat["trials"] else 0.0] *)
Definition get_effectiveness (stats : gmap string Stat) (engine_name : string)
  : result Q :=
  match stats !! engine_name with
  | None => Raise KeyError
  | Some stat =>
      if truthy (trials stat) then py_truediv (win stat) (trials stat)
      else Ok 0%Q
  end.

(** The number [get_effectiveness] yields for an entry with [win = w] and
    [trials = t]. *)
Definition ratio (w t : Z) : Q :=
  (if t =? 0 then 0 else inject_Z w / inject_Z t)%Q.

(** [receive_feedback], lines 130-136.  Lines 133-134 add the reward to
    [win] and one to [trials].  Line 135 calls [update_internal_state],
    which only touches [satisfaction], [hunger] and [curiosity] and then
    evaluates [self.satisfaction > self.hunger_threshold or
    self.curiosity > self.curiosity_threshold]: the left disjunct leads to
    [self.evolver], which builds [StrategyEvolver()] without its required
    arguments, the right one reads [curiosity_threshold], which [__init__]
    never sets.  Either way the call raises, a [TypeError] or an
    [AttributeError] according to [satisfaction], after the counters were
    updated and before [save_stats]; the counters stay updated in memory.
    The function returns the table after the call and what was raised. *)
Definition receive_feedback (stats : gmap string Stat) (name : string)
    (success : bool) : gmap string Stat * option exn :=
  let reward := if success then 1 else 0 in
  match stats !! name with
  | None => (stats, Some KeyError)
  | Some stat =>
      (<[name := mkStat (win stat + reward) (trials stat + 1)]> stats,
       Some AttributeOrTypeError)
  end.

(** [n] consecutive calls [receive_feedback(engine, success)] by a caller
    that survives the exception. *)
Fixpoint record_n (n : nat) (stats : gmap string Stat) (name : string)
    (success : bool) : gmap string Stat :=
  match n with
  | O => stats
  | S n' => record_n n' (fst (receive_feedback stats name success)) name success
  end.

End GieMind.

(** ** core/strategy_evolver.py, class StrategyEvolver: registration of a
       new engine, lines 75-77 *)

Module StrategyEvolver.

(** [self.stats[new_key] = {'win': 0, 'trials': 0}] *)
Definition register (stats : gmap string Stat) (new_key : string)
  : gmap string Stat :=
  <[new_key := mkStat 0 0]> stats.

End StrategyEvolver.

(** ** core/meta_reflection.py, class MetaReflection: the contextual
       ledger [self.knowledge] *)

Module MetaReflection.

(** *** Insertion-ordered dictionaries

    [self.knowledge] is iterated by [suggest], and [max] returns the first
    maximal candidate it meets, so the order of the entries is observable.
    An assignment to an existing key keeps its position, a new key goes to
    the end. *)
Section Dict.
Context {K V : Type} `{EqDecision K}.

Fixpoint dict_get (k : K) (d : list (K * V)) : option V :=
  match d with
  | [] => None
  | (k', v) :: d' => if decide (k = k') then Some v else dict_get k d'
  end.

Fixpoint dict_set (k : K) (v : V) (d : list (K * V)) : list (K * V) :=
  match d with
  | [] => [(k, v)]
  | (k', v') :: d' =>
      if decide (k = k') then (k, v) :: d' else (k', v') :: dict_set k v d'
  end.
End Dict.

(** *** Quantisation: [round(x, 1)]

    Python rounds a float to the nearest multiple of 0.1 of its exact
    value, ties to the even multiple.  The rounded reading is represented
    by its number of tenths. *)
Definition round_half_even (n : Z) (d : positive) : Z :=
  let f := n / Zpos d in
  let r := n mod Zpos d in
  if 2 * r <? Zpos d then f
  else if Zpos d <? 2 * r then f + 1
  else if Z.even f then f else f + 1.

Definition round1 (x : Q) : Z := round_half_even (10 * Qnum x) (Qden x).

(** [env.get(name, 0)] *)
Definition env_get (env : gmap string Q) (name : string) : Q :=
  default 0%Q (env !! name).

(** The quantised reading triple [(noise, pressure, volume)]. *)
Definition Context : Type := Z * Z * Z.

(** Lines 59-61 of [update] and lines 84-86 of [suggest], the same three
    statements:
    [noise = round(env.get("noise", 0), 1)]
    [pressure = round(env.get("pressure", 0), 1)]
    [volume = round(env.get("volume", 0), 1)] *)
Definition fingerprint (env : gmap string Q) : Context :=
  (round1 (env_get env "noise"),
   round1 (env_get env "pressure"),
   round1 (env_get env "volume")).

(** An engine as it appears in a key; [None] is Python's [None], the
    default of [record.get("engine", None)]. *)
Definition Engine : Type := option string.

(** [(engine, noise, pressure, volume)] *)
Definition Key : Type := Engine * Context.

Definition Knowledge : Type := list (Key * Stat).

(** [int(x)] on a float: truncation toward zero. *)
Definition py_int (x : Q) : Z := Z.quot (Qnum x) (Zpos (Qden x)).

(** *** [update], lines 53-80 *)

(** One element of [history]: [record.get("env", {})],
    [record.get("engine", None)], and the truth value of
    [record.get("score", 0)]. *)
Record Record_ : Type := mkRecord {
  rec_env : gmap string Q;
  rec_engine : Engine;
  rec_score : bool
}.

(** [history[-100:]] *)
Definition last100 {A : Type} (l : list A) : list A :=
  skipn (length l - 100)%nat l.

(** The first loop: [correlations], keyed by [(engine, noise, pressure,
    volume)]. *)
Definition correlate (correlations : Knowledge) (record : Record_)
  : Knowledge :=
  let key : Key := (rec_engine record, fingerprint (rec_env record)) in
  let w := if rec_score record then 1 else 0 in
  let cur := default (mkStat 0 0) (dict_get key correlations) in
  dict_set key (mkStat (win cur + w) (trials cur + 1)) correlations.

(** The second loop: blending [correlations] into [self.knowledge] with
    [self.adaptivity]. *)
Definition blend_entry (adaptivity : Q) (knowledge : Knowledge)
    (kv : Key * Stat) : Knowledge :=
  let '(k, v) := kv in
  match dict_get k knowledge with
  | Some prev =>
      let prev_trials := trials prev + trials v in
      let prev_win := win prev + win v in
      dict_set k
        (mkStat
           (py_int (inject_Z prev_win * adaptivity
                    + inject_Z (win v) * (1 - adaptivity))%Q)
           (py_int (inject_Z prev_trials * adaptivity
                    + inject_Z (trials v) * (1 - adaptivity))%Q))
        knowledge
  | None => dict_set k v knowledge
  end.

Definition update (adaptivity : Q) (knowledge : Knowledge)
    (history : list Record_) : Knowledge :=
  let correlations := fold_left correlate (last100 history) [] in
  fold_left (blend_entry adaptivity) correlations knowledge.

(** *** [merge_knowledge], lines 178-191

    [win = prev["win"] + v["win"]] and then
    [int(win * 0.5 + prev["win"] * 0.5)], likewise for [trials].  The
    method has one parameter, [remote_knowledge]. *)
Definition merge_entry (knowledge : Knowledge) (kv : Key * Stat) : Knowledge :=
  let '(k, v) := kv in
  match dict_get k knowledge with
  | Some prev =>
      let trials_ := trials prev + trials v in
      let win_ := win prev + win v in
      dict_set k
        (mkStat
           (py_int (inject_Z win_ * (1 # 2) + inject_Z (win prev) * (1 # 2))%Q)
           (py_int (inject_Z trials_ * (1 # 2)
                    + inject_Z (trials prev) * (1 # 2))%Q))
        knowledge
  | None => dict_set k v knowledge
  end.

Definition merge_knowledge (knowledge remote_knowledge : Knowledge)
  : Knowledge :=
  fold_left merge_entry remote_knowledge knowledge.

(** What a merge stores for a key the local ledger already has: the local
    count plus half the remote count, truncated. *)
Definition merged (prev v : Stat) : Stat :=
  mkStat (Z.quot (2 * win prev + win v) 2)
         (Z.quot (2 * trials prev + trials v) 2).

(** *** [suggest], lines 82-99 *)
Section Suggest.
(** [abs(n - noise) <= 0.2] on two rounded readings, as binary64
    arithmetic decides it.  On readings two tenths apart the outcome
    depends on the operands (0.5 - 0.3 passes, 0.8 - 0.6 does not), so
    the comparison is a parameter. *)
Variable within_tolerance : Z -> Z -> bool.

Definition qualifies (ctx : Context) (entry : Key * Stat) : bool :=
  let '((_, (n, p, v)), stats) := entry in
  let '(noise, pressure, volume) := ctx in
  within_tolerance n noise && within_tolerance p pressure
  && within_tolerance v volume && (3 <? trials stats).

(** [eff = stats["win"] / max(1, stats["trials"])] *)
Definition eff (stats : Stat) : Q :=
  (inject_Z (win stats) / inject_Z (Z.max 1 (trials stats)))%Q.

Definition candidates (knowledge : Knowledge) (ctx : Context)
  : list (Q * Engine) :=
  map (fun entry => (eff (snd entry), fst (fst entry)))
      (filter (fun entry => qualifies ctx entry = true) knowledge).

(** [max(candidates, key=lambda x: x[0])] on a non-empty list: the first
    element whose key no later element exceeds strictly. *)
Fixpoint max_by_eff (best : Q * Engine) (rest : list (Q * Engine))
  : Q * Engine :=
  match rest with
  | [] => best
  | c :: rest' =>
      if Qle_bool (fst c) (fst best) then max_by_eff best rest'
      else max_by_eff c rest'
  end.

(** [u] is the value of [random.random()], in [0, 1); [pick] is the
    index [random.choice] draws. *)
Definition suggest (knowledge : Knowledge) (curiosity : Q)
    (env : gmap string Q) (u : Q) (pick : nat) : Engine :=
  match candidates knowledge (fingerprint env) with
  | [] => None
  | c :: cs =>
      if negb (Qle_bool curiosity u)
      then snd (nth pick (c :: cs) c)
      else snd (max_by_eff c cs)
  end.
End Suggest.

(** ** The spec's reading of the exploitation rule, for comparison *)

(** The spec's words: "the candidate with highest wins/trials, ties broken
    by most trials".  [better_spec a b] holds when [b] must be preferred
    to [a] under that rule. *)
Definition better_spec (a b : Stat) : bool :=
  let ea := (inject_Z (win a) / inject_Z (Z.max 1 (trials a)))%Q in
  let eb := (inject_Z (win b) / inject_Z (Z.max 1 (trials b)))%Q in
  negb (Qle_bool eb ea) || (Qeq_bool ea eb && (trials a <? trials b)).

End MetaReflection.

(** ** core/gie_hive.py, class GieHive: the population of agents *)

Module GieHive.

(** What the hive reads and writes on an agent: [hunger], the optional
    attribute [satisfaction], and the value [get_performance_metric()]
    returns for it. *)
Record Agent : Type := mkAgent {
  hunger : Q;
  satisfaction : option Q;
  performance : Q
}.

Definition Qsum (l : list Q) : Q := fold_left Qplus l 0%Q.

(** [max(xs)]: the first maximal element, [ValueError] on the empty list. *)
Definition py_max (xs : list Q) : result Q :=
  match xs with
  | [] => Raise ValueError
  | x :: xs' => Ok (fold_left (fun b y => if Qle_bool y b then b else y) xs' x)
  end.

(** [min(xs)]: the first minimal element, [ValueError] on the empty list. *)
Definition py_min (xs : list Q) : result Q :=
  match xs with
  | [] => Raise ValueError
  | x :: xs' => Ok (fold_left (fun b y => if Qle_bool b y then b else y) xs' x)
  end.

(** [xs.index(x)] *)
Fixpoint py_index (x : Q) (xs : list Q) : result nat :=
  match xs with
  | [] => Raise ValueError
  | y :: xs' =>
      if Qeq_bool y x then Ok O
      else bind (py_index x xs') (fun i => Ok (S i))
  end.

(** [sum(...) / len(self.agents)] *)
Definition average (xs : list Q) : result Q :=
  match xs with
  | [] => Raise ZeroDivisionError
  | _ => Ok (Qsum xs / inject_Z (Z.of_nat (length xs)))%Q
  end.

(** [remove_agent], lines 67-70: [del self.agents[idx]] when
    [0 <= idx < len(self.agents)], nothing otherwise. *)
Definition remove_agent (agents : list Agent) (idx : nat) : list Agent :=
  if (idx <? length agents)%nat then delete idx agents else agents.

(** [share_knowledge], lines 72-79 *)
Definition share_knowledge (agents : list Agent) : result (list Agent) :=
  bind (average (map hunger agents)) (fun base_hunger =>
  bind (average (map (fun a => default 0%Q (satisfaction a)) agents))
    (fun base_satisfaction =>
  Ok (map (fun a =>
            mkAgent ((hunger a + base_hunger) / 2)%Q
                    (option_map (fun s => ((s + base_satisfaction) / 2)%Q)
                                (satisfaction a))
                    (performance a))
          agents))).

Section Hive.
(** [agent.clone()], [agent.act()] and the agent [GieMind(...)] builds
    are supplied by the agent class. *)
Variable clone : Agent -> Agent.
Variable act : Agent -> Agent.
Variable fresh : nat -> Agent.

(** [__init__], lines 21-27: [n_agents] defaults to 3. *)
Definition init (n_agents : nat) : list Agent := map fresh (seq 0 n_agents).

Definition default_n_agents : nat := 3.

(** [add_agent], lines 60-65 *)
Definition add_agent (agents : list Agent) : list Agent :=
  agents ++ [fresh (length agents)].

(** [clone_agent], lines 94-98 *)
Definition clone_agent (agents : list Agent) (idx : nat)
  : result (list Agent) :=
  match agents !! idx with
  | None => Raise IndexError
  | Some agent => Ok (agents ++ [clone agent])
  end.

(** The populations a cycle of [meta_reflection] goes through: after
    the cloning statement, after the removal statement, after
    [share_knowledge]. *)
Record Stages : Type := mkStages {
  after_clone : list Agent;
  after_remove : list Agent;
  after_share : list Agent
}.

(** [meta_reflection], lines 82-92 *)
Definition meta_reflection_stages (agents : list Agent) : result Stages :=
  let performances := map performance agents in
  bind (py_max performances) (fun hi =>
  bind (py_index hi performances) (fun best_idx =>
  bind (py_min performances) (fun lo =>
  bind (py_index lo performances) (fun worst_idx =>
  bind (if (length agents <? 20)%nat then clone_agent agents best_idx
        else Ok agents) (fun agents1 =>
  let agents2 :=
    if (5 <? length agents1)%nat then remove_agent agents1 worst_idx
    else agents1 in
  bind (share_knowledge agents2) (fun agents3 =>
  Ok (mkStages agents1 agents2 agents3))))))).

Definition meta_reflection (agents : list Agent) : result (list Agent) :=
  bind (meta_reflection_stages agents) (fun st => Ok (after_share st)).

(** [run_all], lines 51-58.  The result lists the population at every
    point where it can be observed: at the start, and in each cycle
    after the cloning statement, after the removal statement and at the
    end of the cycle.  A cycle that raises ends the run. *)
Fixpoint run_all (n_cycles : nat) (agents : list Agent)
  : list (list Agent) :=
  match n_cycles with
  | O => [agents]
  | S n' =>
      match meta_reflection_stages (map act agents) with
      | Raise _ => [agents]
      | Ok st =>
          agents :: after_clone st :: after_remove st
            :: run_all n' (after_share st)
      end
  end.

(** How many cycles of [run_all] complete without raising. *)
Fixpoint cycles_completed (n_cycles : nat) (agents : list Agent) : nat :=
  match n_cycles with
  | O => O
  | S n' =>
      match meta_reflection_stages (map act agents) with
      | Raise _ => O
      | Ok st => S (cycles_completed n' (after_share st))
      end
  end.
End Hive.

(** The bounds the source hard-codes in [meta_reflection]. *)
Definition min_size : nat := 5.
Definition max_size : nat := 20.

End GieHive.

(** ** core/meta_guardian.py, class MetaGuardian *)

Module MetaGuardian.

(** The keys of [self.config] the checks read. *)
Record Config : Type := mkConfig {
  max_drawdown : Q;
  max_open_trades : Z;
  max_grid_size : Z;
  min_equity_margin : Q;
  meta_tune : bool
}.

(** The fallback of [load_config], lines 18-28. *)
Definition default_config : Config :=
  mkConfig (2 # 10) 20 7 (25 # 100) true.

(** [{'positions': [...]}] together with what [predict_trend] answers for
    the grid. *)
Record Grid : Type := mkGrid {
  positions : nat;
  risk_of_runaway : bool
}.

(** What the guardian reads from [gie_system]. *)
Record GieSystem : Type := mkGieSystem {
  get_total_capital : Q;
  get_equity : Q;
  get_open_trades : nat;
  get_open_grids : list Grid;
  get_margin_level : Q
}.

(** The adapters of GieMind, gie_mind.py lines 158-196: constants.
    [get_margin_level] is [equity / (equity / 5000)]. *)
Definition gie_mind_adapters : GieSystem :=
  mkGieSystem 100000 98765 0 []
    (98765 / (98765 / 5000))%Q.

(** The corrective calls the handlers make on [gie_system]; in GieMind
    each of them writes one log line and changes nothing else. *)
Inductive Action : Type :=
| ReduceExposure (target_dd : Q)
| LimitOpenTrades (max_trades : Z)
| CloseRiskiestGridPositions (keep : Z)
| EmergencyMarginAction
| AdaptGridOnTrendRisk.

Definition Qgt_bool (a b : Q) : bool := negb (Qle_bool a b).

(** [(capital - equity) / capital] *)
Definition drawdown (sys : GieSystem) : result Q :=
  if Qeq_bool (get_total_capital sys) 0 then Raise ZeroDivisionError
  else Ok ((get_total_capital sys - get_equity sys) / get_total_capital sys)%Q.

(** [auto_tune_parameters], lines 111-116 *)
Definition auto_tune_parameters (cfg : Config) (dd : Q) : Config :=
  if Qgt_bool dd (max_drawdown cfg * (8 # 10))%Q
  then mkConfig (max_drawdown cfg) (max_open_trades cfg)
                (Z.max 3 (max_grid_size cfg - 1))
                (min_equity_margin cfg) (meta_tune cfg)
  else cfg.

(** [monitor_all], lines 30-41, with the five checks and [meta_reflection]
    in the order of the source.  The only statement that can raise on
    these inputs is the division in [check_drawdown], the first check; the
    [except] clause then ends the pass. *)
Definition monitor_all (sys : GieSystem) (cfg : Config)
  : Config * list Action :=
  match drawdown sys with
  | Raise _ => (cfg, [])
  | Ok dd =>
      let a_drawdown :=
        if Qgt_bool dd (max_drawdown cfg)
        then [ReduceExposure (max_drawdown cfg)] else [] in
      let a_trades :=
        if Z.of_nat (get_open_trades sys) >? max_open_trades cfg
        then [LimitOpenTrades (max_open_trades cfg)] else [] in
      let a_grid :=
        flat_map (fun g =>
                    if Z.of_nat (positions g) >? max_grid_size cfg
                    then [CloseRiskiestGridPositions (max_grid_size cfg)]
                    else [])
                 (get_open_grids sys) in
      let a_margin :=
        if Qgt_bool (min_equity_margin cfg) (get_margin_level sys)
        then [EmergencyMarginAction] else [] in
      let a_trend :=
        flat_map (fun g => if risk_of_runaway g
                           then [AdaptGridOnTrendRisk] else [])
                 (get_open_grids sys) in
      (if meta_tune cfg then auto_tune_parameters cfg dd else cfg,
       a_drawdown ++ a_trades ++ a_grid ++ a_margin ++ a_trend)
  end.

End MetaGuardian.

(** ** core/gie_mind.py: [GieMind.run] and the loop under [__main__] *)

Module MainLoop.

Section Loop.
(** The state of a GieMind object and the body of the inner loop, lines
    147-152: environment read, engine chosen, feedback, reflection.  One
    execution of the body is one dispatch.  The body may raise; nothing
    in [run] catches it. *)
Variable State : Type.
Variable step : State -> State * option exn.

(** [for i in range(self_steps)]; [d] counts the executions of the body. *)
Fixpoint inner_loop (i : nat) (s : State) (d : nat)
  : State * nat * option exn :=
  match i with
  | O => (s, d, None)
  | S i' =>
      match step s with
      | (s', Some e) => (s', S d, Some e)
      | (s', None) => inner_loop i' s' (S d)
      end
  end.

(** [for run_nr in range(3)] *)
Fixpoint outer_loop (run_nr : nat) (self_steps : nat) (s : State) (d : nat)
  : State * nat * option exn :=
  match run_nr with
  | O => (s, d, None)
  | S r =>
      match inner_loop self_steps s d with
      | (s', d', Some e) => (s', d', Some e)
      | (s', d', None) => outer_loop r self_steps s' d'
      end
  end.

(** [run], lines 143-154: the state after the call, the number of
    dispatches made, and the exception that ended it, if any. *)
Definition run (self_steps : nat) (s : State) : State * nat * option exn :=
  outer_loop 3 self_steps s 0.

(** Everything the [__main__] block holds: the GieMind object, the
    guardian's configuration, the corrective calls of each monitoring
    pass (latest first), and the dispatches made so far. *)
Record World : Type := mkWorld {
  mind : State;
  config : MetaGuardian.Config;
  passes : list (list MetaGuardian.Action);
  dispatched : nat
}.

(** One turn of [while True], lines 204-207: [gie_mind.run(self_steps=10)]
    and then [meta_guardian.monitor_all()]. *)
Definition main_iteration (w : World) : World * option exn :=
  match run 10 (mind w) with
  | (s', d, Some e) =>
      (mkWorld s' (config w) (passes w) (dispatched w + d), Some e)
  | (s', d, None) =>
      let '(cfg', actions) :=
        MetaGuardian.monitor_all MetaGuardian.gie_mind_adapters (config w) in
      (mkWorld s' cfg' (actions :: passes w) (dispatched w + d), None)
  end.

Fixpoint main_loop (turns : nat) (w : World) : World * option exn :=
  match turns with
  | O => (w, None)
  | S t =>
      match main_iteration w with
      | (w', Some e) => (w', Some e)
      | (w', None) => main_loop t w'
      end
  end.

(** The spec's words: "when the Guardian reports emergency, the
    Population Controller must suspend new dispatch".  The source has no
    attribute of that name; the nearest observable is that the latest
    monitoring pass called [emergency_margin_action]. *)
Definition spec_suspended (w : World) : bool :=
  match passes w with
  | [] => false
  | latest :: _ =>
      existsb (fun a => match a with
                        | MetaGuardian.EmergencyMarginAction => true
                        | _ => false
                        end) latest
  end.
End Loop.

Arguments inner_loop {State} step i s d.
Arguments outer_loop {State} step run_nr self_steps s d.
Arguments run {State} step self_steps s.
Arguments mkWorld {State} mind config passes dispatched.
Arguments mind {State} w.
Arguments config {State} w.
Arguments passes {State} w.
Arguments dispatched {State} w.
Arguments main_iteration {State} step w.
Arguments main_loop {State} step turns w.
Arguments spec_suspended {State} w.

End MainLoop.

(** ** Observations handed to the sensors *)

(** [tick_data]: [None] or a dict of named numbers. *)
Definition Tick : Type := option (gmap string Q).

(** [not tick_data or field not in tick_data] *)
Definition tick_lacks (tick_data : Tick) (field : string) : bool :=
  match tick_data with
  | None => true
  | Some d => (size d =? 0)%nat || negb (bool_decide (is_Some (d !! field)))
  end.

(** ** core/base_sensor.py: NoiseSensor, PressureSensor, SuperVolumeSensor *)

Module BaseSensor.

Inductive Kind : Type := NoiseSensor | PressureSensor | SuperVolumeSensor.

(** The key each [read] looks for. *)
Definition field (k : Kind) : string :=
  match k with
  | NoiseSensor => "noise"
  | PressureSensor => "pressure"
  | SuperVolumeSensor => "volume"
  end.

(** [self.hunger += ...] on a quiet read. *)
Definition quiet_increment (k : Kind) : Q :=
  match k with
  | NoiseSensor => 1 # 10
  | PressureSensor => 14 # 100
  | SuperVolumeSensor => 11 # 100
  end.

(** [self.growth_signal = self.hunger > ...] *)
Definition growth_ceiling (k : Kind) : Q :=
  match k with
  | NoiseSensor => 4
  | PressureSensor => 42 # 10
  | SuperVolumeSensor => 55 # 10
  end.

(** [self.hunger = max(0, self.hunger - 1)] on an anomaly. *)
Definition anomaly_decrement : Q := 1.

(** The returned dict without [id], [name], [info] and [timestamp]. *)
Record Reading : Type := mkReading {
  value : Q;
  anomaly : bool;
  mean_value : Q;
  std_value : Q;
  r_hunger : Q;
  r_growth_signal : bool
}.

Record Sensor : Type := mkSensor {
  window : nat;
  base_level : Q;
  learning_rate : Q;
  adaptive_level : Q;
  buffer : list Q;
  history : list Reading;
  hunger : Q;
  growth_signal : bool
}.

(** [__init__] with the defaults [learning_rate=0.1], [base_level=1.0];
    [window] defaults to 120. *)
Definition new (window : nat) : Sensor :=
  mkSensor window 1 (1 # 10) 1 [] [] 0 false.

Definition Qgt_bool (a b : Q) : bool := negb (Qle_bool a b).

(** [np.mean] *)
Definition np_mean (xs : list Q) : Q :=
  (fold_left Qplus xs 0 / inject_Z (Z.of_nat (length xs)))%Q.

(** A square root to sixteen decimal places, standing for the binary64
    [sqrt]: exact whenever the argument is the square of such a number. *)
Definition Qsqrt (x : Q) : Q :=
  Z.sqrt (Qnum x * 10 ^ 32 / Zpos (Qden x)) # (10 ^ 16).

(** [np.std]: the square root of the mean squared deviation. *)
Definition np_std (xs : list Q) : Q :=
  let m := np_mean xs in
  Qsqrt (np_mean (map (fun x => ((x - m) * (x - m))%Q) xs)).

(** The anomaly rule of each kind. *)
Definition is_anomaly (k : Kind) (x mean adaptive : Q) : bool :=
  match k with
  | NoiseSensor | PressureSensor =>
      Qgt_bool (Qabs (x - mean)) (adaptive * 2)
  | SuperVolumeSensor =>
      Qgt_bool x (adaptive * 2) || Qgt_bool (adaptive * (1 # 2)) x
  end.

(** [max(0, h)] *)
Definition max0 (h : Q) : Q := if Qle_bool h 0 then 0%Q else h.

(** [read], lines 201-235 (NoiseSensor), 239-272, 276-309. *)
Definition read (k : Kind) (s : Sensor) (tick_data : Tick)
  : option Reading * Sensor :=
  if tick_lacks tick_data (field k) then (None, s)
  else
    match tick_data with
    | None => (None, s)
    | Some d =>
        let x := default 0%Q (d !! field k) in
        let appended := buffer s ++ [x] in
        let buf :=
          if (window s <? length appended)%nat then tail appended
          else appended in
        let std := np_std buf in
        let mean := np_mean buf in
        let adaptive :=
          (base_level s + learning_rate s * (std + hunger s))%Q in
        let anom := is_anomaly k x mean adaptive in
        let hunger' :=
          if anom then max0 (hunger s - anomaly_decrement)
          else (hunger s + quiet_increment k)%Q in
        let growth := Qgt_bool hunger' (growth_ceiling k) in
        let result := mkReading x anom mean std hunger' growth in
        (Some result,
         mkSensor (window s) (base_level s) (learning_rate s) adaptive buf
                  (history s ++ [result]) hunger' growth)
    end.

(** Feeding a sequence of [noise] values, one [read] each; the readings
    come back in order. *)
Fixpoint feed (k : Kind) (s : Sensor) (values : list Q)
  : list (option Reading) * Sensor :=
  match values with
  | [] => ([], s)
  | v :: values' =>
      let '(r, s1) := read k s (Some {[ field k := v ]}) in
      let '(rs, s2) := feed k s1 values' in
      (r :: rs, s2)
  end.

End BaseSensor.

(** ** core/sensors/noise_sensor.py, pressure_sensor.py, volume_sensor.py:
       SuperNoiseSensor, SuperPressureSensor, SuperVolumeSensor *)

Module SuperSensor.

Inductive Kind : Type :=
  SuperNoiseSensor | SuperPressureSensor | SuperVolumeSensor.

Definition field (k : Kind) : string :=
  match k with
  | SuperNoiseSensor => "price"
  | SuperPressureSensor => "pressure"
  | SuperVolumeSensor => "volume"
  end.

(** What [_result] builds, without [id] and [timestamp]: the numeric
    arguments in the order of the call, then [anomaly], [info], the
    sensor's [hunger] and [growth_signal], and [level]. *)
Record Reading : Type := mkReading {
  metrics : list Q;
  anomaly : bool;
  info : string;
  r_hunger : Q;
  r_growth_signal : bool;
  level : string
}.

Record Sensor : Type := mkSensor {
  window : nat;
  base_threshold : Q;
  adaptive_threshold : Q;
  learning_rate : Q;
  buffer : list (gmap string Q);
  history : list Reading;
  clone_count : nat;
  last_alert_time : Q;
  hunger : Q;
  growth_signal : bool;
  knowledge_bank : list string
}.

(** The values returned on the guard of [read]:
    [self._result(0, False, 0, 0, 0, 0, "Brak tick_data", level="low")] for
    SuperNoiseSensor, [self._result(0, False, 0, 0, "Brak tick_data",
    level="low")] for the other two. *)
Definition no_tick_result (k : Kind) (s : Sensor) : Reading :=
  mkReading
    (match k with
     | SuperNoiseSensor => [0; 0; 0; 0; 0]%Q
     | _ => [0; 0; 0]%Q
     end)
    false "Brak tick_data" (hunger s) (growth_signal s) "low".

Section Read.
(** The statistics, pattern bank and alert bookkeeping of a read that
    passed the guard. *)
Variable analyse : Kind -> Sensor -> gmap string Q -> Reading * Sensor.

(** [read]: noise_sensor.py lines 35-101, pressure_sensor.py lines
    35-101, volume_sensor.py lines 35-91.  Every path returns a dict;
    [None] is never returned. *)
Definition read (k : Kind) (s : Sensor) (tick_data : Tick)
  : option Reading * Sensor :=
  if tick_lacks tick_data (field k) then (Some (no_tick_result k s), s)
  else
    match tick_data with
    | None => (Some (no_tick_result k s), s)
    | Some d => let '(r, s') := analyse k s d in (Some r, s')
    end.
End Read.

End SuperSensor.

(** ** core/sensors/sag_sensor.py: SuperAggressiveSensor *)

Module SuperAggressiveSensor.

Record Sensor : Type := mkSensor {
  window : nat;
  hunger : Q;
  buffer : list (Q * Q * Q);
  anomaly_count : nat;
  high_pressure_events : nat;
  anomaly_id : nat
}.

Section Read.
Variable Analysis : Type.
(** [_analyze_tick] on the updated window. *)
Variable analyse : Sensor -> gmap string Q -> Analysis * Sensor.

(** [read], lines 29-63.  [tick_data.get] on [None] raises
    [AttributeError]; a dict without ['price'] gives the empty dict,
    here [None]. *)
Definition read (s : Sensor) (tick_data : Tick)
  : result (option Analysis) * Sensor :=
  match tick_data with
  | None => (Raise AttributeError, s)
  | Some d =>
      match d !! "price"%string with
      | None => (Ok None, s)
      | Some _ =>
          let '(a, s') := analyse s d in (Ok (Some a), s')
      end
  end.
End Read.

Arguments read {Analysis} analyse s tick_data.

End SuperAggressiveSensor.

(** ** Closed forms the statements below refer to *)

(** The size of the population at the end of a cycle of [meta_reflection]
    that started with [n] agents. *)
Definition size_after_cycle (n : nat) : nat :=
  if (n <? 5)%nat then S n else if (n <? 20)%nat then n else (n - 1)%nat.

(** ** core/gie_mind.py, class GieMind: motivational state, engine choice
       and the body of the loop in [run] *)

Module GieMindCycle.

(** [min(a, b)] and [max(a, b)] on two numbers. *)
Definition py_min2 (a b : Q) : Q := if Qle_bool a b then a else b.
Definition py_max2 (a b : Q) : Q := if Qle_bool b a then a else b.

(** The attributes [__init__] sets, lines 43-51, next to the stats table
    and the engines; an engine is represented by its class name, which is
    all the code reads of it. *)
Record Mind : Type := mkMind {
  stats : gmap string Stat;
  engines : list string;
  hunger : Q;
  satisfaction : Q;
  curiosity : Q;
  hunger_threshold : Q;
  hunger_increment : Q;
  curiosity_increment : Q;
  satisfaction_increment : Q
}.

(** [__init__] on a list of engines. *)
Definition new (engines : list string) : Mind :=
  mkMind (GieMind.init_stats engines) engines 1 (1 # 10) (8 # 10)
         (8 # 10) (1 # 10) (5 # 100) (1 # 10).

Definition with_stats (m : Mind) (stats' : gmap string Stat) : Mind :=
  mkMind stats' (engines m) (hunger m) (satisfaction m) (curiosity m)
         (hunger_threshold m) (hunger_increment m) (curiosity_increment m)
         (satisfaction_increment m).

Definition with_mood (m : Mind) (hunger' satisfaction' curiosity' : Q) : Mind :=
  mkMind (stats m) (engines m) hunger' satisfaction' curiosity'
         (hunger_threshold m) (hunger_increment m) (curiosity_increment m)
         (satisfaction_increment m).

(** [update_internal_state], lines 88-101.  The three branches update the
    mood; the condition on line 99 then either reaches [self.evolver], whose
    [StrategyEvolver()] lacks its required arguments, or reads
    [self.curiosity_threshold], which no statement of the class assigns:
    the call ends in an exception on every path. *)
Definition update_internal_state (m : Mind) (reward : Q) : Mind * exn :=
  let m' :=
    if negb (Qle_bool reward (1 # 2)) then
      with_mood m
        (py_max2 0 (hunger m - hunger_increment m))
        (py_min2 1 (satisfaction m + satisfaction_increment m))
        (curiosity m)
    else if negb (Qle_bool (2 # 10) reward) then
      with_mood m
        (py_min2 1 (hunger m + (2 # 100)))
        (satisfaction m)
        (py_min2 1 (curiosity m + curiosity_increment m))
    else
      with_mood m
        (hunger m)
        (py_max2 0 (satisfaction m - satisfaction_increment m))
        (py_min2 1 (curiosity m + (1 # 100))) in
  (m', AttributeOrTypeError).

(** [max(self.engines, key=lambda e: self.get_effectiveness(...))]: the key
    is computed for each engine in turn, the first engine whose key no later
    one exceeds is kept; [ValueError] on an empty list, and the exception
    of the first key that fails. *)
Fixpoint max_scan (stats : gmap string Stat) (best : string) (best_key : Q)
    (rest : list string) : result string :=
  match rest with
  | [] => Ok best
  | e :: rest' =>
      bind (GieMind.get_effectiveness stats e) (fun k =>
        if Qle_bool k best_key then max_scan stats best best_key rest'
        else max_scan stats e k rest')
  end.

Definition max_by_effectiveness (stats : gmap string Stat)
    (engines : list string) : result string :=
  match engines with
  | [] => Raise ValueError
  | e :: rest =>
      bind (GieMind.get_effectiveness stats e) (fun k =>
        max_scan stats e k rest)
  end.

(** [choose_engine], lines 119-124: [None] when [suggest] returned [None],
    otherwise the engine of highest effectiveness, whichever engine was
    suggested. *)
Definition choose_engine (m : Mind) (suggested : MetaReflection.Engine)
  : result (option string) :=
  match suggested with
  | None => Ok None
  | Some _ =>
      bind (max_by_effectiveness (stats m) (engines m)) (fun best =>
        Ok (Some best))
  end.

(** [engine.__class__.__name__] *)
Definition class_name (engine : option string) : string :=
  match engine with
  | None => "NoneType"
  | Some name => name
  end.

(** [receive_feedback], lines 130-136, on the whole object: the counters of
    [GieMind.receive_feedback], then [update_internal_state]. *)
Definition receive_feedback (m : Mind) (engine : option string)
    (success : bool) : Mind * option exn :=
  let name := class_name engine in
  match stats m !! name with
  | None => (m, Some KeyError)
  | Some _ =>
      let stats' := fst (GieMind.receive_feedback (stats m) name success) in
      let '(m', e) :=
        update_internal_state (with_stats m stats')
                              (if success then 1 else 0) in
      (m', Some e)
  end.

(** What one pass through the body of the loop draws from outside: the
    environment the sensors report, the two values of [random.random()]
    (in [suggest] and on line 150) and the index [random.choice] picks. *)
Record Draw : Type := mkDraw {
  environment : gmap string Q;
  u_suggest : Q;
  pick : nat;
  u_success : Q
}.

Section Step.
Variable within_tolerance : Z -> Z -> bool.
(** [self.meta_reflection.knowledge] and [self.meta_reflection.curiosity];
    [run] never changes them. *)
Variable knowledge : MetaReflection.Knowledge.
Variable mr_curiosity : Q.
Variable draw : Draw.

(** The body of the inner loop of [run], lines 147-152. *)
Definition step (m : Mind) : Mind * option exn :=
  let suggested :=
    MetaReflection.suggest within_tolerance knowledge mr_curiosity
      (environment draw) (u_suggest draw) (pick draw) in
  match choose_engine m suggested with
  | Raise e => (m, Some e)
  | Ok engine =>
      match GieMind.get_effectiveness (stats m) (class_name engine) with
      | Raise e => (m, Some e)
      | Ok effectiveness =>
          let success := negb (Qle_bool effectiveness (u_success draw)) in
          receive_feedback m engine success
      end
  end.
End Step.

End GieMindCycle.

(** ** Closed forms for the ledger of MetaReflection *)

(** The key [update] files a record under. *)
Definition key_of (record : MetaReflection.Record_) : MetaReflection.Key :=
  (MetaReflection.rec_engine record,
   MetaReflection.fingerprint (MetaReflection.rec_env record)).

(** The records filed under [key] among [records]: how many scored, how
    many there are. *)
Fixpoint tally (key : MetaReflection.Key)
    (records : list MetaReflection.Record_) : Stat :=
  match records with
  | [] => mkStat 0 0
  | r :: records' =>
      let t := tally key records' in
      if decide (key_of r = key)
      then mkStat (win t + (if MetaReflection.rec_score r then 1 else 0))
                  (trials t + 1)
      else t
  end.

(** What [update] stores for a key the ledger already has. *)
Definition update_blend (adaptivity : Q) (prev v : Stat) : Stat :=
  mkStat
    (MetaReflection.py_int
       (inject_Z (win prev + win v) * adaptivity
        + inject_Z (win v) * (1 - adaptivity))%Q)
    (MetaReflection.py_int
       (inject_Z (trials prev + trials v) * adaptivity
        + inject_Z (trials v) * (1 - adaptivity))%Q).

(** An entry whose wins lie between 0 and its trials. *)
Definition sane (s : Stat) : Prop := 0 <= win s <= trials s.

(** ** core/meta_reflection.py: [MetaReflection.reflect] and class
       MetaAnalytics *)

Module Reflection.

(** An element of [self.memory] as [reflect] reads it: the truth value of
    [e["result"]] and [e["emotions"].get("greed", 0)]. *)
Record Event : Type := mkEvent {
  ev_result : bool;
  ev_greed : Q
}.

Record Mood : Type := mkMood {
  memory : list Event;
  curiosity : Q;
  hunger : Q;
  meta_reward : Q
}.

(** The dict [reflect] returns. *)
Record Report : Type := mkReport {
  success_rate : Q;
  fail_rate : Q;
  avg_greed : Q;
  r_curiosity : Q;
  r_hunger : Q;
  r_meta_reward : Q
}.

(** [l[-last_n:]]: the last [last_n] elements for a positive [last_n] (all
    of them when there are fewer), and [l[k:]] for [last_n = -k <= 0]. *)
Definition last_slice {A : Type} (last_n : Z) (l : list A) : list A :=
  if 0 <? last_n then skipn (length l - Z.to_nat last_n)%nat l
  else skipn (Z.to_nat (- last_n)) l.

(** [reflect], lines 101-124. *)
Definition reflect (m : Mood) (last_n : Z) : result (option Report) * Mood :=
  if Z.of_nat (length (memory m)) <? last_n then (Ok None, m)
  else if last_n =? 0 then (Raise ZeroDivisionError, m)
  else
    let recent := last_slice last_n (memory m) in
    let successes :=
      Z.of_nat (length (filter (fun e => ev_result e = true) recent)) in
    let fails := last_n - successes in
    let greed :=
      (GieHive.Qsum (map ev_greed recent) / inject_Z last_n)%Q in
    let rate := (inject_Z successes / inject_Z last_n)%Q in
    let low := negb (Qle_bool (1 # 2) rate) in
    let curiosity' :=
      if low then GieMindCycle.py_min2 1 (curiosity m + (5 # 100))
      else GieMindCycle.py_max2 (1 # 10) (curiosity m - (5 # 100)) in
    let hunger' :=
      if low then GieMindCycle.py_min2 1 (hunger m + (5 # 100))
      else GieMindCycle.py_max2 (1 # 10) (hunger m - (5 # 100)) in
    let reward := (rate + greed)%Q in
    (Ok (Some (mkReport rate (inject_Z fails / inject_Z last_n)%Q greed
                        curiosity' hunger' reward)),
     mkMood (memory m) curiosity' hunger' reward).

(** [MetaAnalytics.calculate_success_rate], lines 213-218, on the [pnl] of
    the trades in [self.history]. *)
Definition calculate_success_rate (pnls : list Q) : result Q :=
  let gains := List.filter (fun x => negb (Qle_bool x 0)) pnls in
  let losses :=
    map Qabs (List.filter (fun x => negb (Qle_bool 0 x)) pnls) in
  match losses with
  | [] => Ok 1%Q
  | _ :: _ =>
      let denominator := (GieHive.Qsum losses + (1 # 1000000))%Q in
      if Qeq_bool denominator 0 then Raise ZeroDivisionError
      else Ok ((GieHive.Qsum gains - GieHive.Qsum losses) / denominator)%Q
  end.

End Reflection.

(** ** core/base_sensor.py, class BaseSensor: detection memory and
       sensitivity; class Hive *)

Module BaseSensorCore.

Record Sensor : Type := mkSensor {
  sensitivity : Q;
  memory_size : nat;
  memory : list (Q * Q);
  last_value : option Q;
  learning_rate : Q
}.

(** [detect], lines 113-120; [now] is the value of [time.time()].  For an
    empty [data] numpy yields nan, which is outside the model. *)
Definition detect (s : Sensor) (now : Q) (data : list Q) : Q * Sensor :=
  let detection := (sensitivity s * BaseSensor.np_mean data)%Q in
  let appended := memory s ++ [(now, detection)] in
  let memory' :=
    if (memory_size s <? length appended)%nat then tail appended
    else appended in
  (detection,
   mkSensor (sensitivity s) (memory_size s) memory' (Some detection)
            (learning_rate s)).

(** [adjust_sensitivity], lines 127-133. *)
Definition adjust_sensitivity (s : Sensor) (feedback : string) : Sensor :=
  let sensitivity' :=
    if String.eqb feedback "false_positive"
    then GieMindCycle.py_max2 (1 # 100) (sensitivity s - learning_rate s)
    else if String.eqb feedback "missed_event"
    then GieMindCycle.py_min2 10 (sensitivity s + learning_rate s)
    else sensitivity s in
  mkSensor sensitivity' (memory_size s) (memory s) (last_value s)
           (learning_rate s).

(** The state of a base sensor after [read] on each tick of a sequence. *)
Fixpoint read_all (k : BaseSensor.Kind) (s : BaseSensor.Sensor)
    (ticks : list Tick) : BaseSensor.Sensor :=
  match ticks with
  | [] => s
  | t :: ticks' => read_all k (snd (BaseSensor.read k s t)) ticks'
  end.

(** The ticks of a sequence that pass the guard of [read]. *)
Definition valid_ticks (k : BaseSensor.Kind) (ticks : list Tick) : list Tick :=
  List.filter (fun t => negb (tick_lacks t (BaseSensor.field k))) ticks.

(** *** class Hive, lines 13-33

    The members of a hive are sensor objects, each with its own
    [knowledge_bank]; a member is represented by its identity and the
    banks are kept in a store, so that a sensor added twice is one
    object. *)
Record Hive : Type := mkHive {
  members : list nat;
  knowledge_bank : gset string;
  banks : gmap nat (gset string)
}.

(** One turn of the loop of [share_knowledge], lines 25-27:
    [sensor.knowledge_bank.update(self.knowledge_bank)] and then
    [self.knowledge_bank.update(sensor.knowledge_bank)]. *)
Definition share_with (h : Hive) (sensor : nat) : Hive :=
  let bank := (banks h !!! sensor) ∪ knowledge_bank h in
  mkHive (members h) (knowledge_bank h ∪ bank) (<[sensor := bank]> (banks h)).

(** [Hive.share_knowledge], lines 23-28. *)
Definition share_knowledge (h : Hive) : Hive :=
  fold_left share_with (members h) h.

End BaseSensorCore.

(** ** core/sensors: [self_tune] of the three Super sensors *)

Module SelfTune.

(** The factors and the clipping range of each kind: noise_sensor.py lines
    133-140, pressure_sensor.py lines 130-136, volume_sensor.py lines
    119-124. *)
Definition shrink (k : SuperSensor.Kind) : Q :=
  match k with
  | SuperSensor.SuperNoiseSensor => 9 # 10
  | SuperSensor.SuperPressureSensor => 95 # 100
  | SuperSensor.SuperVolumeSensor => 93 # 100
  end.

Definition grow (k : SuperSensor.Kind) : Q :=
  match k with
  | SuperSensor.SuperNoiseSensor => 105 # 100
  | SuperSensor.SuperPressureSensor => 103 # 100
  | SuperSensor.SuperVolumeSensor => 105 # 100
  end.

Definition floor_of (k : SuperSensor.Kind) : Q :=
  match k with
  | SuperSensor.SuperNoiseSensor => 1 # 100
  | SuperSensor.SuperPressureSensor => 1 # 1000
  | SuperSensor.SuperVolumeSensor => 1 # 100
  end.

Definition ceiling_of (k : SuperSensor.Kind) : Q :=
  match k with
  | SuperSensor.SuperNoiseSensor => 100
  | SuperSensor.SuperPressureSensor => 1000
  | SuperSensor.SuperVolumeSensor => 10000
  end.

(** [np.clip(x, lo, hi)]: [minimum(maximum(x, lo), hi)]. *)
Definition np_clip (x lo hi : Q) : Q :=
  GieMindCycle.py_min2 (GieMindCycle.py_max2 x lo) hi.

(** [self_tune]: the new base threshold. *)
Definition self_tune (k : SuperSensor.Kind) (s : SuperSensor.Sensor)
  : SuperSensor.Sensor :=
  let scaled :=
    if negb (Qle_bool (SuperSensor.hunger s) 6)
    then (SuperSensor.base_threshold s * shrink k)%Q
    else if negb (Qle_bool 1 (SuperSensor.hunger s))
    then (SuperSensor.base_threshold s * grow k)%Q
    else SuperSensor.base_threshold s in
  SuperSensor.mkSensor
    (SuperSensor.window s) (np_clip scaled (floor_of k) (ceiling_of k))
    (SuperSensor.adaptive_threshold s) (SuperSensor.learning_rate s)
    (SuperSensor.buffer s) (SuperSensor.history s)
    (SuperSensor.clone_count s) (SuperSensor.last_alert_time s)
    (SuperSensor.hunger s) (SuperSensor.growth_signal s)
    (SuperSensor.knowledge_bank s).

End SelfTune.

(** ** Closed forms for the guardian *)

(** The configuration after [n] monitoring passes over the same readings. *)
Definition monitor_passes (n : nat) (sys : MetaGuardian.GieSystem)
    (cfg : MetaGuardian.Config) : MetaGuardian.Config :=
  Nat.iter n (fun c => fst (MetaGuardian.monitor_all sys c)) cfg.

(** The calls of [limit_open_trades] among the corrective calls of a pass. *)
Definition overtrading_calls (actions : list MetaGuardian.Action) : nat :=
  length (List.filter (fun a => match a with
                                | MetaGuardian.LimitOpenTrades _ => true
                                | _ => false
                                end) actions).

(** ** core/strategy_evolver.py, class StrategyEvolver: [get_weakest] and
       [cleanup] *)

Module StrategyEvolverCore.

(** [sorted(xs, key=...)]: the stable ascending sort.  An element goes in
    front of the first element of the sorted rest whose key is not smaller
    than its own, so elements of equal key keep their order. *)
Section Sorted.
Context {A : Type}.
Variable key : A -> Q.

Fixpoint insert_by (x : A) (l : list A) : list A :=
  match l with
  | [] => [x]
  | y :: l' =>
      if Qle_bool (key x) (key y) then x :: y :: l'
      else y :: insert_by x l'
  end.

Fixpoint sorted_by (l : list A) : list A :=
  match l with
  | [] => []
  | x :: l' => insert_by x (sorted_by l')
  end.
End Sorted.

(** [self.stats] and [self.engines] are iterated, so they are kept in
    insertion order. *)
Definition Stats : Type := list (string * Stat).

(** The score of line 37:
    [win / max(1, trials) - 0.1 * hunger]. *)
Definition score (hunger : Q) (entry : string * Stat) : Q :=
  (MetaReflection.eff (snd entry) - (1 # 10) * hunger)%Q.

(** [get_weakest], lines 33-41; [hunger] is [self.hunger_sensor()], or 1.0
    without a hunger sensor. *)
Definition get_weakest (stats : Stats) (hunger : Q) (n : nat) : list string :=
  take n (map fst (sorted_by (score hunger) stats)).

(** [del d[k]] *)
Fixpoint dict_del {V : Type} (k : string) (d : list (string * V))
  : result (list (string * V)) :=
  match d with
  | [] => Raise KeyError
  | (k', v) :: d' =>
      if decide (k = k') then Ok d'
      else bind (dict_del k d') (fun d'' => Ok ((k', v) :: d''))
  end.

Section Cleanup.
(** The engine objects. *)
Variable Engine : Type.

(** The loop of lines 121-124: [del self.engines[k]] and then
    [del self.stats[k]] for each key to remove; an exception leaves the
    dicts as they are at that point. *)
Fixpoint remove_all (to_remove : list string)
    (engines : list (string * Engine)) (stats : Stats)
  : list (string * Engine) * Stats * option exn :=
  match to_remove with
  | [] => (engines, stats, None)
  | k :: to_remove' =>
      match dict_del k engines with
      | Raise e => (engines, stats, Some e)
      | Ok engines' =>
          match dict_del k stats with
          | Raise e => (engines', stats, Some e)
          | Ok stats' => remove_all to_remove' engines' stats'
          end
      end
  end.

(** [cleanup], lines 113-124: the keys of [self.stats] by descending
    [win / max(1, trials)], stably ([reverse=True] keeps the order of equal
    keys), and the engines outside the first [keep_best_n] of them
    removed. *)
Definition cleanup (engines : list (string * Engine)) (stats : Stats)
    (keep_best_n : nat)
  : list (string * Engine) * Stats * option exn :=
  let sorted_keys :=
    map fst (sorted_by (fun entry => (- MetaReflection.eff (snd entry))%Q)
                       stats) in
  let best := take keep_best_n sorted_keys in
  let to_remove := filter (fun k => k ∉ best) (map fst engines) in
  remove_all to_remove engines stats.
End Cleanup.

Arguments remove_all {Engine} to_remove engines stats.
Arguments cleanup {Engine} engines stats keep_best_n.

End StrategyEvolverCore.

(** ** Concrete inputs of the scenarios and examples *)

(** The agent [GieMind(...)] builds in [__init__]: [hunger = 1.0],
    [satisfaction = 0.1]. *)
Definition fresh_mind (i : nat) : GieHive.Agent :=
  GieHive.mkAgent 1 (Some (1 # 10)%Q) 0.

(** A configuration file whose margin floor lies above the margin level
    GieMind reports. *)
Definition tight_config : MetaGuardian.Config :=
  MetaGuardian.mkConfig (2 # 10) 20 7 6000 true.

(** A loop body that never raises, on a GieMind without state of its own. *)
Definition quiet_step (s : unit) : unit * option exn := (s, None).

(** The context [(0.1, 0.2, 0.3)] and two one-entry ledgers for engine A. *)
Definition ctx_C : MetaReflection.Context := (1, 2, 3).

Definition key_A : MetaReflection.Key := (Some "A"%string, ctx_C).

Definition key_B : MetaReflection.Key := (Some "B"%string, ctx_C).

Definition ledger_8_10 : MetaReflection.Knowledge := [(key_A, mkStat 8 10)].

Definition ledger_2_10 : MetaReflection.Knowledge := [(key_A, mkStat 2 10)].

(** The comparison on tenths, exact away from the boundary of two tenths. *)
Definition tolerance_in_tenths (a b : Z) : bool := Z.abs (a - b) <=? 2.

(** An environment whose fingerprint is [ctx_C]. *)
Definition env_C : gmap string Q :=
  {[ "noise"%string := (1 # 10)%Q; "pressure"%string := (2 # 10)%Q;
     "volume"%string := (3 # 10)%Q ]}.

(** Two entries of equal ratio for the context C, the first with 4 trials,
    the second with 10. *)
Definition ledger_tie : MetaReflection.Knowledge :=
  [(key_A, mkStat 2 4); (key_B, mkStat 5 10)].

(** Three readings, the same three in another order, and a noisy copy. *)
Definition readings_C : list (string * Q) :=
  [("noise"%string, (1 # 10)%Q); ("pressure"%string, (2 # 10)%Q);
   ("volume"%string, (3 # 10)%Q)].

Definition readings_C_swapped : list (string * Q) :=
  [("pressure"%string, (2 # 10)%Q); ("noise"%string, (1 # 10)%Q);
   ("volume"%string, (3 # 10)%Q)].

Definition env_C_noisy : gmap string Q :=
  {[ "volume"%string := (29 # 100)%Q; "noise"%string := (12 # 100)%Q;
     "pressure"%string := (151 # 1000)%Q ]}.

(** A SuperNoiseSensor as [__init__] leaves it: [window = 100],
    [base_threshold = 2.0], [learning_rate = 0.1]. *)
Definition new_super_noise : SuperSensor.Sensor :=
  SuperSensor.mkSensor 100 2 2 (1 # 10) [] [] 0 0 0 false [].

(** A stand-in for the analysis of a valid tick; the reads below never
    reach it. *)
Definition unused_analysis (k : SuperSensor.Kind) (s : SuperSensor.Sensor)
    (d : gmap string Q) : SuperSensor.Reading * SuperSensor.Sensor :=
  (SuperSensor.no_tick_result k s, s).

(** A SuperAggressiveSensor as [__init__] leaves it with its defaults,
    [window = 100] and [hunger = 1.0], and a stand-in for [_analyze_tick]. *)
Definition new_aggressive : SuperAggressiveSensor.Sensor :=
  SuperAggressiveSensor.mkSensor 100 1 [] 0 0 0.

Definition unused_analyze_tick (s : SuperAggressiveSensor.Sensor)
    (d : gmap string Q) : unit * SuperAggressiveSensor.Sensor :=
  (tt, s).

(** A GieMind over two engines as [__init__] leaves it, and a ledger with
    one entry of 3 trials. *)
Definition two_engine_mind : GieMindCycle.Mind :=
  GieMindCycle.new ["A"%string; "B"%string].

Definition ledger_2_3 : MetaReflection.Knowledge := [(key_A, mkStat 2 3)].

(** One record of history: engine A succeeded in the environment C. *)
Definition history_A_won : list MetaReflection.Record_ :=
  [MetaReflection.mkRecord env_C (Some "A"%string) true].

(** A BaseSensor with its default sensitivity and learning rate and a
    memory of 2 entries, already full. *)
Definition full_memory_sensor : BaseSensorCore.Sensor :=
  BaseSensorCore.mkSensor 1 2 [(0, 1); (1, 1)]%Q (Some 1%Q) (1 # 10).

(** Three ticks: one with all three fields, no tick, and one with pressure
    only. *)
Definition ticks_mixed : list Tick :=
  [Some env_C; None; Some {[ "pressure"%string := 1%Q ]}].

(** A system that has lost 20 % of its capital. *)
Definition system_in_drawdown : MetaGuardian.GieSystem :=
  MetaGuardian.mkGieSystem 100000 80000 0 [] 5000.

(** Three engines and their stats: A won 1 of 4, B 3 of 4, C 2 of 4. *)
Definition engines_ABC : list (string * unit) :=
  [("A"%string, tt); ("B"%string, tt); ("C"%string, tt)].

Definition stats_ABC : StrategyEvolverCore.Stats :=
  [("A"%string, mkStat 1 4); ("B"%string, mkStat 3 4);
   ("C"%string, mkStat 2 4)].


(** * Properties *)

(** ** The stats table of GieMind *)

Section GieMindFacts.
Import GieMind.

Lemma inject_Z_div_pos (a : Z) (p : positive) :
  (inject_Z a / inject_Z (Zpos p) == a # p)%Q.
Proof. symmetry. apply Qmake_Qdiv. Qed.

Lemma get_effectiveness_lookup (stats : gmap string Stat) (name : string)
    (stat : Stat) :
  stats !! name = Some stat ->
  get_effectiveness stats name
  = Ok (if trials stat =? 0 then 0
        else inject_Z (win stat) / inject_Z (trials stat))%Q.
Proof.
  intros Hlook. unfold get_effectiveness, truthy, py_truediv.
  rewrite Hlook. destruct (trials stat =? 0); reflexivity.
Qed.

(** C10: for every engine name present in the stats table,
    [get_effectiveness] returns a value, [win / trials] when [trials] is not
    zero and 0.0 when it is; it never raises [ZeroDivisionError], and for
    an entry [{'win': 0, 'trials': 0}] registered by the evolver it returns
    0.0. *)
Theorem get_effectiveness_total (stats : gmap string Stat)
    (name new_key : string) (stat : Stat) :
  stats !! name = Some stat ->
  get_effectiveness stats name
  = Ok (if trials stat =? 0 then 0
        else inject_Z (win stat) / inject_Z (trials stat))%Q
  /\ get_effectiveness stats name <> Raise ZeroDivisionError
  /\ get_effectiveness (StrategyEvolver.register stats new_key) new_key
     = Ok 0%Q.
Proof.
  intros Hlook. pose proof (get_effectiveness_lookup _ _ _ Hlook) as Heq.
  split; [exact Heq|]. split.
  - rewrite Heq. discriminate.
  - unfold StrategyEvolver.register.
    rewrite (get_effectiveness_lookup _ _ (mkStat 0 0)); [reflexivity|].
    apply lookup_insert_eq.
Qed.

Lemma get_effectiveness_total_witness :
  let stats := StrategyEvolver.register (init_stats ["RyzykantEngine"%string])
                                        "RyzykantEngine_1000" in
  stats !! "RyzykantEngine_1000"%string = Some (mkStat 0 0)
  /\ get_effectiveness stats "RyzykantEngine_1000" = Ok 0%Q.
Proof.
  intros stats.
  assert (Hlook : stats !! "RyzykantEngine_1000"%string = Some (mkStat 0 0))
    by (vm_compute; reflexivity).
  split; [exact Hlook|].
  exact (proj1 (get_effectiveness_total stats "RyzykantEngine_1000"
                  "RyzykantEngine_1001" (mkStat 0 0) Hlook)).
Defined.

(** *** Repeated successful feedback *)

Lemma receive_feedback_lookup (stats : gmap string Stat) (name : string)
    (stat : Stat) (success : bool) :
  stats !! name = Some stat ->
  fst (receive_feedback stats name success) !! name
  = Some (mkStat (win stat + (if success then 1 else 0)) (trials stat + 1)).
Proof.
  intros Hlook. unfold receive_feedback. rewrite Hlook. simpl.
  apply lookup_insert_eq.
Qed.

Lemma record_n_lookup (n : nat) :
  forall (stats : gmap string Stat) (name : string) (stat : Stat),
    stats !! name = Some stat ->
    record_n n stats name true !! name
    = Some (mkStat (win stat + Z.of_nat n) (trials stat + Z.of_nat n)).
Proof.
  induction n as [|n IH]; intros stats name stat Hlook.
  - simpl. rewrite Hlook. destruct stat as [w t]. simpl.
    f_equal. f_equal; lia.
  - cbn [record_n].
    rewrite (IH _ _ _ (receive_feedback_lookup _ _ _ true Hlook)).
    simpl. f_equal. f_equal; lia.
Qed.

(** The ratio stored after [n] successes on an entry [(w, t)]. *)
Lemma ratio_after (stats : gmap string Stat) (name : string) (stat : Stat)
    (n : nat) :
  stats !! name = Some stat ->
  get_effectiveness (record_n n stats name true) name
  = Ok (if trials stat + Z.of_nat n =? 0 then 0
        else inject_Z (win stat + Z.of_nat n)
             / inject_Z (trials stat + Z.of_nat n))%Q.
Proof.
  intros Hlook.
  rewrite (get_effectiveness_lookup _ _ _ (record_n_lookup n _ _ _ Hlook)).
  reflexivity.
Qed.

Lemma ratio_pos (w : Z) (p : positive) : (ratio w (Zpos p) == w # p)%Q.
Proof. unfold ratio. simpl. apply inject_Z_div_pos. Qed.

Lemma ratio_bounds (w t : Z) : 0 <= w <= t -> (0 <= ratio w t <= 1)%Q.
Proof.
  intros [Hw Hwt]. destruct t as [|p|p]; try lia.
  - unfold ratio. simpl. split; apply Qle_refl || discriminate.
  - rewrite ratio_pos. unfold Qle. simpl. lia.
Qed.

Lemma ratio_step (w t : Z) :
  0 <= w <= t -> (ratio w t <= ratio (w + 1) (t + 1))%Q.
Proof.
  intros [Hw Hwt]. destruct t as [|p|p]; try lia.
  - assert (w = 0) by lia. subst w. unfold ratio. simpl. discriminate.
  - replace (Zpos p + 1) with (Zpos (p + 1)) by lia.
    rewrite !ratio_pos. unfold Qle. simpl. nia.
Qed.

Lemma ratio_step_strict (w t : Z) :
  0 <= w < t -> (ratio w t < ratio (w + 1) (t + 1))%Q.
Proof.
  intros [Hw Hwt]. destruct t as [|p|p]; try lia.
  replace (Zpos p + 1) with (Zpos (p + 1)) by lia.
  rewrite !ratio_pos. unfold Qlt. simpl. nia.
Qed.

Lemma ratio_close (w t : Z) (eps : Q) (n : nat) :
  0 <= w <= t -> (0 < eps)%Q ->
  (Z.to_nat ((t - w) * Zpos (Qden eps)) < n)%nat ->
  (1 - eps < ratio (w + Z.of_nat n) (t + Z.of_nat n))%Q.
Proof.
  intros [Hw Hwt] Heps Hn.
  destruct (t + Z.of_nat n) as [|p|p] eqn:Hp; try lia.
  rewrite ratio_pos. destruct eps as [en ed].
  unfold Qlt in *. simpl in *.
  assert (1 <= en) by lia.
  assert (Hgap : (t - w) * Zpos ed < Z.of_nat n) by lia.
  assert (Hnum : w + Z.of_nat n = Zpos p - (t - w)) by lia.
  rewrite Hnum.
  assert (Z.of_nat n <= Zpos p) by lia.
  nia.
Qed.



End GieMindFacts.

(** ** The population of the hive *)

Section GieHiveFacts.
Import GieHive.

Variable clone : Agent -> Agent.
Variable act : Agent -> Agent.
Variable fresh : nat -> Agent.

Lemma Qle_bool_refl (x : Q) : Qle_bool x x = true.
Proof. apply Qle_bool_iff. apply Qle_refl. Qed.

Lemma Qeq_bool_refl' (x : Q) : Qeq_bool x x = true.
Proof. apply Qeq_bool_iff. reflexivity. Qed.

(** A fold that keeps one of its two arguments ends on an element of the
    list it went through. *)
Lemma fold_select_In (f : Q -> Q -> Q) (xs : list Q) :
  (forall b y, f b y = b \/ f b y = y) ->
  forall x, In (fold_left f xs x) (x :: xs).
Proof.
  intros Hf. induction xs as [|y xs IH]; intros x.
  - left. reflexivity.
  - cbn [fold_left]. destruct (IH (f x y)) as [Heq|Hin].
    + destruct (Hf x y) as [Hb|Hy].
      * left. congruence.
      * right. left. congruence.
    + right. right. exact Hin.
Qed.

Lemma py_index_found (x : Q) (xs : list Q) :
  In x xs -> exists i, py_index x xs = Ok i /\ (i < length xs)%nat.
Proof.
  induction xs as [|y xs IH]; intros Hin; [destruct Hin|].
  cbn [py_index]. destruct (Qeq_bool y x) eqn:Heq.
  - exists O. split; [reflexivity|simpl; lia].
  - destruct Hin as [->|Hin].
    + rewrite Qeq_bool_refl' in Heq. discriminate.
    + destruct (IH Hin) as (i & Hi & Hlt). exists (S i).
      rewrite Hi. split; [reflexivity|simpl; lia].
Qed.

Lemma py_max_index (xs : list Q) :
  xs <> [] ->
  exists hi i, py_max xs = Ok hi /\ py_index hi xs = Ok i
               /\ (i < length xs)%nat.
Proof.
  destruct xs as [|x xs]; [congruence|]. intros _.
  assert (Hsel : forall b y : Q,
             (if Qle_bool y b then b else y) = b
             \/ (if Qle_bool y b then b else y) = y)
    by (intros b y; destruct (Qle_bool y b); [left|right]; reflexivity).
  destruct (py_index_found _ (x :: xs) (fold_select_In _ xs Hsel x))
    as (i & Hi & Hlt).
  eexists. exists i. cbn [py_max]. split; [reflexivity|]. split; assumption.
Qed.

Lemma py_min_index (xs : list Q) :
  xs <> [] ->
  exists lo i, py_min xs = Ok lo /\ py_index lo xs = Ok i
               /\ (i < length xs)%nat.
Proof.
  destruct xs as [|x xs]; [congruence|]. intros _.
  assert (Hsel : forall b y : Q,
             (if Qle_bool b y then b else y) = b
             \/ (if Qle_bool b y then b else y) = y)
    by (intros b y; destruct (Qle_bool b y); [left|right]; reflexivity).
  destruct (py_index_found _ (x :: xs) (fold_select_In _ xs Hsel x))
    as (i & Hi & Hlt).
  eexists. exists i. cbn [py_min]. split; [reflexivity|]. split; assumption.
Qed.

Lemma share_knowledge_length (agents : list Agent) :
  agents <> [] ->
  exists agents', share_knowledge agents = Ok agents'
                  /\ length agents' = length agents.
Proof.
  intros Hne. destruct agents as [|a agents]; [congruence|].
  unfold share_knowledge, average. cbn [map bind].
  eexists. split; [reflexivity|]. cbn [map length].
  rewrite length_map. reflexivity.
Qed.

Lemma remove_agent_length (agents : list Agent) (idx : nat) :
  (idx < length agents)%nat ->
  length (remove_agent agents idx) = (length agents - 1)%nat.
Proof.
  intros Hlt. unfold remove_agent.
  destruct (Nat.ltb_spec idx (length agents)); [|lia].
  apply length_delete. apply lookup_lt_is_Some. exact Hlt.
Qed.

(** One cycle of [meta_reflection] on a non-empty population: it does not
    raise, and the sizes after each statement are determined by the size
    before. *)
Lemma meta_reflection_stages_sizes (agents : list Agent) :
  agents <> [] ->
  exists st,
    meta_reflection_stages clone agents = Ok st
    /\ length (after_clone st)
       = (if (length agents <? 20)%nat then S (length agents)
          else length agents)
    /\ length (after_remove st)
       = (if (5 <? length (after_clone st))%nat
          then length (after_clone st) - 1 else length (after_clone st))%nat
    /\ length (after_share st) = length (after_remove st)
    /\ ((20 <= length agents)%nat -> after_clone st = agents)
    /\ ((length (after_clone st) <= 5)%nat -> after_remove st = after_clone st).
Proof.
  intros Hne.
  assert (Hperf : map performance agents <> [])
    by (destruct agents; [congruence|discriminate]).
  destruct (py_max_index _ Hperf) as (hi & bi & Hmax & Hbi & Hblt).
  destruct (py_min_index _ Hperf) as (lo & wi & Hmin & Hwi & Hwlt).
  rewrite length_map in Hblt, Hwlt.
  unfold meta_reflection_stages.
  rewrite Hmax; cbn [bind]. rewrite Hbi; cbn [bind].
  rewrite Hmin; cbn [bind]. rewrite Hwi; cbn [bind].
  set (r1 := if (length agents <? 20)%nat then clone_agent clone agents bi
             else Ok agents).
  assert (H1 : exists agents1, r1 = Ok agents1
             /\ length agents1
                = (if (length agents <? 20)%nat then S (length agents)
                   else length agents)
             /\ ((20 <= length agents)%nat -> agents1 = agents)).
  { subst r1. destruct (Nat.ltb_spec (length agents) 20) as [Hlt|Hge].
    - unfold clone_agent.
      destruct (lookup_lt_is_Some_2 agents bi Hblt) as [a Ha]. rewrite Ha.
      eexists. split; [reflexivity|]. split; [|lia].
      rewrite length_app. simpl. lia.
    - exists agents. split; [reflexivity|]. split; [reflexivity|]. auto. }
  destruct H1 as (agents1 & -> & Hlen1 & Hkeep1). cbn [bind].
  set (agents2 := if (5 <? length agents1)%nat then remove_agent agents1 wi
                  else agents1).
  assert (Hlen2 : length agents2
                  = (if (5 <? length agents1)%nat then length agents1 - 1
                     else length agents1)%nat).
  { subst agents2. destruct (Nat.ltb_spec 5 (length agents1)); [|reflexivity].
    apply remove_agent_length.
    destruct (length agents <? 20)%nat; lia. }
  assert (Hne2 : agents2 <> []).
  { intros Heq. rewrite Heq in Hlen2. simpl in Hlen2.
    destruct agents as [|a0 agents0]; [congruence|]. simpl in Hlen1.
    destruct (Nat.ltb_spec 5 (length agents1)); 
      destruct (S (length agents0) <? 20)%nat; lia. }
  destruct (share_knowledge_length _ Hne2) as (agents3 & -> & Hlen3).
  cbn [bind]. eexists. split; [reflexivity|]. cbn.
  split; [exact Hlen1|]. split; [exact Hlen2|]. split; [exact Hlen3|].
  split; [exact Hkeep1|].
  intros Hle. subst agents2.
  destruct (Nat.ltb_spec 5 (length agents1)); [lia|reflexivity].
Qed.


End GieHiveFacts.



(** ** Dispatch and the guardian *)

Section MainLoopFacts.
Import MainLoop.

Variable State : Type.
Variable step : State -> State * option exn.

Lemma inner_loop_count (i : nat) :
  forall (s : State) (d : nat),
    (d <= snd (fst (inner_loop step i s d)) <= d + i)%nat
    /\ ((1 <= i)%nat -> (d + 1 <= snd (fst (inner_loop step i s d)))%nat)
    /\ ((forall s0, snd (step s0) = None) ->
        snd (fst (inner_loop step i s d)) = (d + i)%nat
        /\ snd (inner_loop step i s d) = None).
Proof.
  induction i as [|i IH]; intros s d.
  - simpl. repeat split; lia.
  - cbn [inner_loop]. destruct (step s) as [s' [e|]] eqn:Hstep.
    + simpl. split; [lia|]. split; [lia|].
      intros Hnone. specialize (Hnone s). rewrite Hstep in Hnone. discriminate.
    + destruct (IH s' (S d)) as (Hb & _ & Hall).
      split; [lia|]. split; [lia|].
      intros Hnone. destruct (Hall Hnone) as [-> ->]. split; [lia|reflexivity].
Qed.

Lemma outer_loop_count (r self_steps : nat) :
  forall (s : State) (d : nat),
    (d <= snd (fst (outer_loop step r self_steps s d))
     <= d + r * self_steps)%nat
    /\ ((1 <= r)%nat -> (1 <= self_steps)%nat ->
        (d + 1 <= snd (fst (outer_loop step r self_steps s d)))%nat)
    /\ ((forall s0, snd (step s0) = None) ->
        snd (fst (outer_loop step r self_steps s d)) = (d + r * self_steps)%nat
        /\ snd (outer_loop step r self_steps s d) = None).
Proof.
  induction r as [|r IH]; intros s d.
  - simpl. repeat split; lia.
  - cbn [outer_loop].
    destruct (inner_loop_count self_steps s d) as (Hb & Hpos & Hall).
    destruct (inner_loop step self_steps s d) as [[s' d'] [e|]] eqn:Hin;
      simpl in Hb, Hpos, Hall.
    + simpl. split; [lia|]. split; [intros _ Hs; specialize (Hpos Hs); lia|].
      intros Hnone. destruct (Hall Hnone) as [_ Habs]. discriminate.
    + destruct (IH s' d') as (Hb' & _ & Hall').
      split; [lia|]. split; [intros _ Hs; specialize (Hpos Hs); lia|].
      intros Hnone. destruct (Hall Hnone) as [-> _].
      destruct (Hall' Hnone) as [-> ->]. split; [lia|reflexivity].
Qed.

Lemma main_iteration_dispatches (w : World State) :
  dispatched (fst (main_iteration step w))
  = (dispatched w + snd (fst (run step 10 (mind w))))%nat
  /\ ((forall s, snd (step s) = None) ->
      snd (fst (run step 10 (mind w))) = 30%nat
      /\ snd (main_iteration step w) = None).
Proof.
  unfold main_iteration, run.
  destruct (outer_loop_count 3 10 (mind w) 0) as (_ & _ & Hall).
  destruct (outer_loop step 3 10 (mind w) 0) as [[s' d] [e|]] eqn:Hrun;
    simpl in Hall.
  - simpl. split; [reflexivity|].
    intros Hnone. destruct (Hall Hnone) as [_ Habs]. discriminate.
  - destruct (MetaGuardian.monitor_all _ _) as [cfg' actions]. simpl.
    split; [reflexivity|].
    intros Hnone. destruct (Hall Hnone) as [-> _]. split; reflexivity.
Qed.

Lemma main_loop_dispatches (turns : nat) :
  (forall s, snd (step s) = None) ->
  forall w : World State,
    dispatched (fst (main_loop step turns w))
    = (dispatched w + 30 * turns)%nat.
Proof.
  intros Hnone. induction turns as [|t IH]; intros w.
  - simpl. lia.
  - cbn [main_loop].
    destruct (main_iteration_dispatches w) as (Hd & Hq).
    destruct (Hq Hnone) as (H30 & Hok).
    destruct (main_iteration step w) as [w' [e|]]; simpl in Hd, Hok;
      [discriminate|].
    rewrite IH, Hd, H30. lia.
Qed.


End MainLoopFacts.


(** ** The ledger of MetaReflection *)

Section LedgerFacts.
Import MetaReflection.

Context {K V : Type} `{EqDecision K}.

Lemma dict_get_set_eq (k : K) (v : V) (d : list (K * V)) :
  dict_get k (dict_set k v d) = Some v.
Proof.
  induction d as [|[k' v'] d IH]; simpl.
  - destruct (decide (k = k)); congruence.
  - destruct (decide (k = k')) as [->|Hne]; simpl.
    + destruct (decide (k' = k')); congruence.
    + destruct (decide (k = k')); [contradiction|exact IH].
Qed.

Lemma dict_get_set_ne (k k' : K) (v : V) (d : list (K * V)) :
  k <> k' -> dict_get k (dict_set k' v d) = dict_get k d.
Proof.
  intros Hne. induction d as [|[k0 v0] d IH]; simpl.
  - destruct (decide (k = k')); [contradiction|reflexivity].
  - destruct (decide (k' = k0)) as [->|Hne0]; simpl.
    + destruct (decide (k = k0)); [contradiction|reflexivity].
    + destruct (decide (k = k0)); [reflexivity|exact IH].
Qed.

Lemma dict_get_absent (k : K) (d : list (K * V)) :
  ~ In k (map fst d) -> dict_get k d = None.
Proof.
  induction d as [|[k' v'] d IH]; simpl; intros Hnot; [reflexivity|].
  destruct (decide (k = k')) as [->|Hne]; [tauto|]. apply IH. tauto.
Qed.

End LedgerFacts.

Section MergeFacts.
Import MetaReflection.

(** [int(x * 0.5 + y * 0.5)] on two ints. *)
Lemma py_int_half_sum (x y : Z) :
  py_int (inject_Z x * (1 # 2) + inject_Z y * (1 # 2))%Q = Z.quot (x + y) 2.
Proof.
  unfold py_int. cbn [Qnum Qden Qplus Qmult inject_Z].
  change (Z.pos (1 * 2 * (1 * 2))) with (2 * 2).
  replace (x * 1 * Z.pos (1 * 2) + y * 1 * Z.pos (1 * 2))
    with (2 * (x + y)) by lia.
  apply Z.quot_mul_cancel_l; lia.
Qed.

Lemma merge_entry_lookup (knowledge : Knowledge) (k k' : Key) (v : Stat) :
  dict_get k (merge_entry knowledge (k', v))
  = if decide (k = k')
    then Some (match dict_get k knowledge with
               | Some prev => merged prev v
               | None => v
               end)
    else dict_get k knowledge.
Proof.
  unfold merge_entry.
  destruct (decide (k = k')) as [->|Hne].
  - destruct (dict_get k' knowledge) as [prev|] eqn:Hprev.
    + rewrite dict_get_set_eq. rewrite !py_int_half_sum. unfold merged.
      do 3 f_equal; lia.
    + apply dict_get_set_eq.
  - destruct (dict_get k' knowledge) as [prev|];
      apply dict_get_set_ne; exact Hne.
Qed.

Lemma merge_knowledge_lookup (remote : Knowledge) :
  NoDup (map fst remote) ->
  forall (knowledge : Knowledge) (k : Key),
    dict_get k (merge_knowledge knowledge remote)
    = match dict_get k remote with
      | None => dict_get k knowledge
      | Some v => Some (match dict_get k knowledge with
                        | Some prev => merged prev v
                        | None => v
                        end)
      end.
Proof.
  unfold merge_knowledge.
  induction remote as [|[k' v] remote IH]; intros Hnd knowledge k.
  - reflexivity.
  - apply NoDup_cons in Hnd as [Hnotin Hnd].
    cbn [fold_left]. rewrite (IH Hnd). cbn [dict_get].
    rewrite merge_entry_lookup.
    destruct (decide (k = k')) as [->|Hne].
    + rewrite (dict_get_absent k' remote); [reflexivity|].
      intros Hin. apply Hnotin. apply list_elem_of_In. exact Hin.
    + reflexivity.
Qed.

(** C3, as the code has it: for a key both ledgers hold, a merge stores the
    local count plus half the remote count, truncated, for wins and for
    trials alike, so the local entry weighs twice the remote one; merging
    [L1] into [L2] and [L2] into [L1] give the two mirrored values, which
    coincide when the two ledgers hold the same entry for the key. *)
Theorem merge_shared_key (L1 L2 : Knowledge) (k : Key) (a b : Stat) :
  NoDup (map fst L1) -> NoDup (map fst L2) ->
  dict_get k L1 = Some a -> dict_get k L2 = Some b ->
  dict_get k (merge_knowledge L2 L1)
  = Some (mkStat (Z.quot (2 * win b + win a) 2)
                 (Z.quot (2 * trials b + trials a) 2))
  /\ dict_get k (merge_knowledge L1 L2)
     = Some (mkStat (Z.quot (2 * win a + win b) 2)
                    (Z.quot (2 * trials a + trials b) 2))
  /\ (a = b ->
      dict_get k (merge_knowledge L2 L1) = dict_get k (merge_knowledge L1 L2)).
Proof.
  intros Hnd1 Hnd2 Ha Hb.
  rewrite (merge_knowledge_lookup L1 Hnd1 L2 k), Ha, Hb.
  rewrite (merge_knowledge_lookup L2 Hnd2 L1 k), Ha, Hb.
  unfold merged. split; [reflexivity|]. split; [reflexivity|].
  intros ->. reflexivity.
Qed.

(** C9, as the code has it: [merge_knowledge] takes the remote ledger and
    nothing else, and keeps no record of earlier merges; merging the same
    remote ledger again blends every key of the remote ledger again, and a
    non-negative local trial count grows strictly each time the remote
    count is 2 or more. *)
Theorem merge_repeated_blends_again (L R : Knowledge) (k : Key) (v e : Stat) :
  NoDup (map fst R) ->
  dict_get k R = Some v ->
  dict_get k (merge_knowledge L R) = Some e ->
  dict_get k (merge_knowledge (merge_knowledge L R) R)
  = Some (mkStat (Z.quot (2 * win e + win v) 2)
                 (Z.quot (2 * trials e + trials v) 2))
  /\ (0 <= trials e -> 2 <= trials v ->
      trials e < Z.quot (2 * trials e + trials v) 2).
Proof.
  intros Hnd Hv He.
  rewrite (merge_knowledge_lookup R Hnd (merge_knowledge L R) k), Hv, He.
  split; [reflexivity|].
  intros He0 Hv2.
  assert (trials e + 1 <= Z.quot (2 * trials e + trials v) 2)
    by (apply Z.quot_le_lower_bound; lia).
  lia.
Qed.

End MergeFacts.

Lemma merge_shared_key_witness :
  NoDup (map fst ledger_8_10) /\ NoDup (map fst ledger_2_10)
  /\ MetaReflection.dict_get key_A ledger_8_10 = Some (mkStat 8 10)
  /\ MetaReflection.dict_get key_A ledger_2_10 = Some (mkStat 2 10)
  /\ MetaReflection.dict_get key_A
       (MetaReflection.merge_knowledge ledger_2_10 ledger_8_10)
     = Some (mkStat 6 15).
Proof.
  assert (H1 : NoDup (map fst ledger_8_10))
    by (apply NoDup_singleton).
  assert (H2 : NoDup (map fst ledger_2_10))
    by (apply NoDup_singleton).
  assert (Ha : MetaReflection.dict_get key_A ledger_8_10 = Some (mkStat 8 10))
    by reflexivity.
  assert (Hb : MetaReflection.dict_get key_A ledger_2_10 = Some (mkStat 2 10))
    by reflexivity.
  split; [exact H1|]. split; [exact H2|]. split; [exact Ha|].
  split; [exact Hb|].
  exact (proj1 (merge_shared_key ledger_8_10 ledger_2_10 key_A
                  (mkStat 8 10) (mkStat 2 10) H1 H2 Ha Hb)).
Defined.

(** C3 as stated fails: with (8, 10) in one ledger and (2, 10) in the
    other, one order of merging stores (9, 15) and the other (6, 15), and
    neither is the even blend (5, 10) of the two pairs. *)
Lemma merge_not_commutative :
  MetaReflection.dict_get key_A
    (MetaReflection.merge_knowledge ledger_8_10 ledger_2_10)
  = Some (mkStat 9 15)
  /\ MetaReflection.dict_get key_A
       (MetaReflection.merge_knowledge ledger_2_10 ledger_8_10)
     = Some (mkStat 6 15)
  /\ MetaReflection.dict_get key_A
       (MetaReflection.merge_knowledge ledger_8_10 ledger_2_10)
     <> MetaReflection.dict_get key_A
          (MetaReflection.merge_knowledge ledger_2_10 ledger_8_10).
Proof.
  split; [reflexivity|]. split; [reflexivity|]. discriminate.
Qed.

Lemma merge_repeated_blends_again_witness :
  NoDup (map fst ledger_2_10)
  /\ MetaReflection.dict_get key_A ledger_2_10 = Some (mkStat 2 10)
  /\ MetaReflection.dict_get key_A
       (MetaReflection.merge_knowledge ledger_8_10 ledger_2_10)
     = Some (mkStat 9 15)
  /\ MetaReflection.dict_get key_A
       (MetaReflection.merge_knowledge
          (MetaReflection.merge_knowledge ledger_8_10 ledger_2_10)
          ledger_2_10)
     = Some (mkStat 10 20).
Proof.
  assert (H1 : NoDup (map fst ledger_2_10)) by (apply NoDup_singleton).
  assert (Hv : MetaReflection.dict_get key_A ledger_2_10 = Some (mkStat 2 10))
    by reflexivity.
  assert (He : MetaReflection.dict_get key_A
                 (MetaReflection.merge_knowledge ledger_8_10 ledger_2_10)
               = Some (mkStat 9 15)) by reflexivity.
  split; [exact H1|]. split; [exact Hv|]. split; [exact He|].
  exact (proj1 (merge_repeated_blends_again ledger_8_10 ledger_2_10 key_A
                  (mkStat 2 10) (mkStat 9 15) H1 Hv He)).
Defined.

(** C9 as stated fails: the second merge of the same remote ledger changes
    the entry from (9, 15) to (10, 20). *)
Lemma merge_replay_changes_entries :
  MetaReflection.merge_knowledge
    (MetaReflection.merge_knowledge ledger_8_10 ledger_2_10) ledger_2_10
  <> MetaReflection.merge_knowledge ledger_8_10 ledger_2_10.
Proof. vm_compute. discriminate. Qed.

(** ** Exploitation in [suggest] *)

Section SuggestFacts.
Import MetaReflection.

Variable within_tolerance : Z -> Z -> bool.

(** [max(candidates, key=...)] returns the first candidate of maximal
    effectiveness: every earlier candidate is strictly worse, no later one
    is better. *)
Lemma max_by_eff_first_max (rest : list (Q * Engine)) :
  forall best : Q * Engine,
  exists pre post,
    best :: rest = pre ++ max_by_eff best rest :: post
    /\ Forall (fun c => (fst c < fst (max_by_eff best rest))%Q) pre
    /\ Forall (fun c => (fst c <= fst (max_by_eff best rest))%Q) post.
Proof.
  induction rest as [|c rest IH]; intros best.
  - exists [], []. repeat split; constructor.
  - cbn [max_by_eff]. destruct (Qle_bool (fst c) (fst best)) eqn:Hle.
    + apply Qle_bool_iff in Hle.
      destruct (IH best) as (pre & post & Heq & Hpre & Hpost).
      destruct pre as [|p pre].
      * simpl in Heq. injection Heq as Hbest Hrest.
        subst post.
        exists [], (c :: rest). split; [simpl; congruence|].
        split; [constructor|].
        constructor; [rewrite <- Hbest; exact Hle|exact Hpost].
      * simpl in Heq. injection Heq as Hp Hrest. subst p.
        exists (best :: c :: pre), post.
        split; [simpl; congruence|]. split; [|exact Hpost].
        apply Forall_cons in Hpre as [Hb Hpre].
        constructor; [exact Hb|]. constructor; [|exact Hpre].
        eapply Qle_lt_trans; eassumption.
    + assert (Hlt : (fst best < fst c)%Q).
      { apply Qnot_le_lt. intros Hle'. apply Qle_bool_iff in Hle'. congruence. }
      destruct (IH c) as (pre & post & Heq & Hpre & Hpost).
      exists (best :: pre), post.
      split; [simpl; congruence|]. split; [|exact Hpost].
      constructor; [|exact Hpre].
      destruct pre as [|p pre].
      * simpl in Heq. injection Heq as Hc _. rewrite <- Hc. exact Hlt.
      * simpl in Heq. injection Heq as Hp _. subst p.
        apply Forall_cons in Hpre as [Hc _].
        eapply Qlt_trans; eassumption.
Qed.

Lemma suggest_exploit (knowledge : Knowledge) (env : gmap string Q) (u : Q)
    (pick : nat) (c : Q * Engine) (cs : list (Q * Engine)) :
  (0 <= u)%Q ->
  candidates within_tolerance knowledge (fingerprint env) = c :: cs ->
  suggest within_tolerance knowledge 0 env u pick = snd (max_by_eff c cs).
Proof.
  intros Hu Hc. unfold suggest. rewrite Hc.
  apply Qle_bool_iff in Hu. rewrite Hu. reflexivity.
Qed.

Lemma qualifies_same_context (ctx : Context) (e : Engine) (stats : Stat) :
  (forall a, within_tolerance a a = true) ->
  qualifies within_tolerance ctx ((e, ctx), stats) = (3 <? trials stats).
Proof.
  intros Hrefl. destruct ctx as [[n p] v]. unfold qualifies.
  rewrite !Hrefl. reflexivity.
Qed.

(** C5, as the code has it: on the ledger holding (A, C) with 8 wins in 10
    trials and (B, C) with 2 wins in 10 trials, in either order of
    insertion, [suggest] with curiosity 0 returns A for an environment
    whose fingerprint is C; in general, with curiosity 0 it returns the
    engine of the first qualifying entry, in the ledger's order, whose
    wins/trials ratio no qualifying entry exceeds, and [None] when no entry
    qualifies. *)
Theorem suggest_without_exploration (knowledge : Knowledge)
    (env : gmap string Q) (u : Q) (pick : nat) (A B : string) :
  (forall a, within_tolerance a a = true) ->
  (0 <= u)%Q ->
  suggest within_tolerance
    [((Some A, fingerprint env), mkStat 8 10);
     ((Some B, fingerprint env), mkStat 2 10)] 0 env u pick = Some A
  /\ suggest within_tolerance
       [((Some B, fingerprint env), mkStat 2 10);
        ((Some A, fingerprint env), mkStat 8 10)] 0 env u pick = Some A
  /\ (candidates within_tolerance knowledge (fingerprint env) = [] ->
      suggest within_tolerance knowledge 0 env u pick = None)
  /\ (forall c cs,
        candidates within_tolerance knowledge (fingerprint env) = c :: cs ->
        exists pre m post,
          c :: cs = pre ++ m :: post
          /\ suggest within_tolerance knowledge 0 env u pick = snd m
          /\ Forall (fun x => (fst x < fst m)%Q) pre
          /\ Forall (fun x => (fst x <= fst m)%Q) post).
Proof.
  intros Hrefl Hu.
  assert (Hcand : forall e1 s1 e2 s2,
             (3 <? trials s1) = true -> (3 <? trials s2) = true ->
             candidates within_tolerance
               [((e1, fingerprint env), s1); ((e2, fingerprint env), s2)]
               (fingerprint env)
             = [(eff s1, e1); (eff s2, e2)]).
  { intros e1 s1 e2 s2 H1 H2. unfold candidates, Knowledge.
    rewrite filter_cons, decide_True
      by (rewrite qualifies_same_context; assumption).
    rewrite filter_cons, decide_True
      by (rewrite qualifies_same_context; assumption).
    rewrite filter_nil. reflexivity. }
  split; [|split; [|split]].
  - rewrite (suggest_exploit _ _ _ _ _ _ Hu
               (Hcand (Some A) (mkStat 8 10) (Some B) (mkStat 2 10)
                      eq_refl eq_refl)).
    reflexivity.
  - rewrite (suggest_exploit _ _ _ _ _ _ Hu
               (Hcand (Some B) (mkStat 2 10) (Some A) (mkStat 8 10)
                      eq_refl eq_refl)).
    reflexivity.
  - intros Hnil. unfold suggest. rewrite Hnil. reflexivity.
  - intros c cs Hc.
    destruct (max_by_eff_first_max cs c) as (pre & post & Heq & Hpre & Hpost).
    exists pre, (max_by_eff c cs), post.
    split; [exact Heq|]. split; [|split; assumption].
    apply suggest_exploit; assumption.
Qed.

End SuggestFacts.

Lemma suggest_without_exploration_witness :
  (forall a, tolerance_in_tenths a a = true)
  /\ (0 <= 0)%Q
  /\ MetaReflection.suggest tolerance_in_tenths
       [((Some "A"%string, MetaReflection.fingerprint env_C), mkStat 8 10);
        ((Some "B"%string, MetaReflection.fingerprint env_C), mkStat 2 10)]
       0 env_C 0 0 = Some "A"%string.
Proof.
  assert (Hrefl : forall a, tolerance_in_tenths a a = true).
  { intros a. unfold tolerance_in_tenths. apply Z.leb_le. lia. }
  assert (Hu : (0 <= 0)%Q) by (vm_compute; discriminate).
  split; [exact Hrefl|]. split; [exact Hu|].
  exact (proj1 (suggest_without_exploration tolerance_in_tenths [] env_C 0 0
                  "A" "B" Hrefl Hu)).
Defined.

(** C5 as stated fails on the tie rule: A with 2 wins in 4 trials and B with
    5 wins in 10 trials have the same ratio; the spec's rule prefers B, which
    has more trials, and [suggest] returns A, the entry it met first. *)
Lemma suggest_tie_not_broken_by_trials :
  MetaReflection.fingerprint env_C = ctx_C
  /\ MetaReflection.better_spec (mkStat 2 4) (mkStat 5 10) = true
  /\ MetaReflection.suggest tolerance_in_tenths ledger_tie 0 env_C 0 0
     = Some "A"%string.
Proof. vm_compute. repeat split; reflexivity. Qed.

(** ** The context fingerprint *)

Section FingerprintFacts.
Import MetaReflection.

(** Every reading strictly inside the cell of half a tenth around [k / 10]
    is quantised to [k]: noise that stays inside the cell does not show. *)
Lemma round1_cell (x : Q) (k : Z) :
  (inject_Z k - (1 # 2) < 10 * x)%Q -> (10 * x < inject_Z k + (1 # 2))%Q ->
  round1 x = k.
Proof.
  destruct x as [n d]. unfold Qlt, round1, round_half_even. simpl.
  intros Hlo Hhi.
  pose proof (Z.div_mod (10 * n) (Zpos d) ltac:(lia)) as Hdm.
  pose proof (Z.mod_pos_bound (10 * n) (Zpos d) ltac:(lia)) as Hr.
  set (f := 10 * n / Zpos d) in *.
  set (r := (10 * n) mod Zpos d) in *.
  assert (Hn : 10 * n = Zpos d * f + r) by exact Hdm.
  assert (Hlo' : (2 * k - 1) * Zpos d < 2 * (Zpos d * f + r)) by lia.
  assert (Hhi' : 2 * (Zpos d * f + r) < (2 * k + 1) * Zpos d) by lia.
  destruct (Z.ltb_spec (2 * r) (Zpos d)) as [Hlt|Hge].
  - assert (k <= f) by nia. assert (f <= k) by nia. lia.
  - destruct (Z.ltb_spec (Zpos d) (2 * r)) as [Hgt|Hle].
    + assert (k <= f + 1) by nia. assert (f + 1 <= k) by nia. lia.
    + assert (Heq : 2 * r = Zpos d) by lia.
      assert (f < k) by nia. assert (k < f + 1) by nia. lia.
Qed.


End FingerprintFacts.


(** ** Sensors *)

Section SensorFacts.

(** On an anomaly the hunger of a base sensor drops by the decrement, but
    not below zero; on a quiet read it rises by the increment of the kind. *)
Lemma read_hunger_rule (k : BaseSensor.Kind) (s s' : BaseSensor.Sensor)
    (tick_data : Tick) (r : BaseSensor.Reading) :
  BaseSensor.read k s tick_data = (Some r, s') ->
  BaseSensor.hunger s'
  = (if BaseSensor.anomaly r
     then BaseSensor.max0 (BaseSensor.hunger s - BaseSensor.anomaly_decrement)
     else BaseSensor.hunger s + BaseSensor.quiet_increment k)%Q
  /\ (BaseSensor.anomaly r = true -> (0 <= BaseSensor.hunger s')%Q).
Proof.
  unfold BaseSensor.read.
  destruct (tick_lacks tick_data (BaseSensor.field k)); [discriminate|].
  destruct tick_data as [d|]; [|discriminate].
  intros Heq. injection Heq as <- <-. cbn.
  split; [reflexivity|]. intros ->. unfold BaseSensor.max0.
  destruct (Qle_bool _ 0) eqn:Hle; [apply Qle_refl|].
  apply Qlt_le_weak. apply Qnot_le_lt. intros Hle'.
  apply Qle_bool_iff in Hle'. congruence.
Qed.

(** C7, as the code has it: a NoiseSensor with [window = 5] and the default
    [base_level] and [learning_rate], fed 1, 1, 1, 1, 1, flags none of them
    and has hunger 0.5; the read of 9 that follows is flagged as an anomaly,
    and the hunger after it is [max(0, 0.5 - 1)], that is 0. *)
Theorem noise_scenario_sixth_read :
  let '(first_five, s5) :=
    BaseSensor.feed BaseSensor.NoiseSensor (BaseSensor.new 5)
                    [1; 1; 1; 1; 1]%Q in
  let '(r6, s6) :=
    BaseSensor.read BaseSensor.NoiseSensor s5
                    (Some {[ "noise"%string := 9%Q ]}) in
  map (option_map BaseSensor.anomaly) first_five
  = [Some false; Some false; Some false; Some false; Some false]
  /\ option_map BaseSensor.anomaly r6 = Some true
  /\ (BaseSensor.hunger s5 == 1 # 2)%Q
  /\ BaseSensor.hunger s6
     = BaseSensor.max0 (BaseSensor.hunger s5 - BaseSensor.anomaly_decrement)
  /\ (BaseSensor.hunger s6 == 0)%Q.
Proof. vm_compute. repeat split; reflexivity. Qed.

(** C7 as stated fails on the amount: the hunger before the sixth read is
    0.5, so the hunger after it, 0, is not 0.5 minus the decrement 1. *)
Lemma noise_scenario_decrease_is_clamped :
  let s5 :=
    snd (BaseSensor.feed BaseSensor.NoiseSensor (BaseSensor.new 5)
                         [1; 1; 1; 1; 1]%Q) in
  let s6 :=
    snd (BaseSensor.read BaseSensor.NoiseSensor s5
                         (Some {[ "noise"%string := 9%Q ]})) in
  ~ (BaseSensor.hunger s6
     == BaseSensor.hunger s5 - BaseSensor.anomaly_decrement)%Q.
Proof. vm_compute. discriminate. Qed.

Variable analyse :
  SuperSensor.Kind -> SuperSensor.Sensor -> gmap string Q
  -> SuperSensor.Reading * SuperSensor.Sensor.
Variable Analysis : Type.
Variable sag_analyse :
  SuperAggressiveSensor.Sensor -> gmap string Q
  -> Analysis * SuperAggressiveSensor.Sensor.

(** C8, as the code has it: a [read] whose input is missing, empty or lacks
    the field the sensor looks for leaves the sensor exactly as it was.  The
    three sensors of base_sensor.py return [None]; SuperNoiseSensor,
    SuperPressureSensor and SuperVolumeSensor return the placeholder reading
    built by [_result] (zeros, no anomaly, "Brak tick_data", level "low",
    the current hunger and growth signal); SuperAggressiveSensor, given a
    dict without a price, returns the empty dict. *)
Theorem read_without_observation (tick_data : Tick) :
  (forall k s, tick_lacks tick_data (BaseSensor.field k) = true ->
               BaseSensor.read k s tick_data = (None, s))
  /\ (forall k s, tick_lacks tick_data (SuperSensor.field k) = true ->
                  SuperSensor.read analyse k s tick_data
                  = (Some (SuperSensor.no_tick_result k s), s))
  /\ (forall s d, tick_data = Some d -> d !! "price"%string = None ->
                  SuperAggressiveSensor.read sag_analyse s tick_data
                  = (Ok None, s)).
Proof.
  split; [|split].
  - intros k s Hlacks. unfold BaseSensor.read. rewrite Hlacks. reflexivity.
  - intros k s Hlacks. unfold SuperSensor.read. rewrite Hlacks. reflexivity.
  - intros s d -> Hprice. unfold SuperAggressiveSensor.read.
    rewrite Hprice. reflexivity.
Qed.

End SensorFacts.

(** C8 as stated fails on the returned value and on one kind: SuperNoiseSensor
    answers an empty tick, and a missing one, with a populated reading, not
    with a null one; SuperAggressiveSensor raises on a missing tick. *)
Lemma super_noise_read_of_empty_tick_is_not_null :
  fst (SuperSensor.read unused_analysis SuperSensor.SuperNoiseSensor
         new_super_noise (Some ∅))
  = Some (SuperSensor.mkReading [0; 0; 0; 0; 0]%Q false "Brak tick_data"
                                0 false "low")
  /\ fst (SuperSensor.read unused_analysis SuperSensor.SuperNoiseSensor
            new_super_noise None) <> None
  /\ SuperAggressiveSensor.read unused_analyze_tick new_aggressive None
     = (Raise AttributeError, new_aggressive).
Proof. split; [reflexivity|]. split; [discriminate|reflexivity]. Qed.

(** * Further properties of the code *)

(** ** gie_hive.py: one cycle of [meta_reflection] *)

Section HiveCycleFacts.
Import GieHive.

Variable clone : Agent -> Agent.

Lemma fold_max_upper (xs : list Q) :
  forall x,
    (x <= fold_left (fun b y => if Qle_bool y b then b else y) xs x)%Q
    /\ Forall (fun y =>
                 (y <= fold_left (fun b y => if Qle_bool y b then b else y)
                                 xs x)%Q) xs.
Proof.
  induction xs as [|y xs IH]; intros x; cbn [fold_left].
  - split; [apply Qle_refl|constructor].
  - destruct (IH (if Qle_bool y x then x else y)) as [Hm Hall].
    destruct (Qle_bool y x) eqn:Hle.
    + apply Qle_bool_iff in Hle. split; [exact Hm|].
      constructor; [eapply Qle_trans; eassumption|exact Hall].
    + assert (Hlt : (x < y)%Q).
      { apply Qnot_le_lt. intros H. apply Qle_bool_iff in H. congruence. }
      split; [eapply Qle_trans; [apply Qlt_le_weak; exact Hlt|exact Hm]|].
      constructor; [exact Hm|exact Hall].
Qed.

Lemma fold_min_lower (xs : list Q) :
  forall x,
    (fold_left (fun b y => if Qle_bool b y then b else y) xs x <= x)%Q
    /\ Forall (fun y =>
                 (fold_left (fun b y => if Qle_bool b y then b else y)
                            xs x <= y)%Q) xs.
Proof.
  induction xs as [|y xs IH]; intros x; cbn [fold_left].
  - split; [apply Qle_refl|constructor].
  - destruct (IH (if Qle_bool x y then x else y)) as [Hm Hall].
    destruct (Qle_bool x y) eqn:Hle.
    + apply Qle_bool_iff in Hle. split; [exact Hm|].
      constructor; [eapply Qle_trans; eassumption|exact Hall].
    + assert (Hlt : (y < x)%Q).
      { apply Qnot_le_lt. intros H. apply Qle_bool_iff in H. congruence. }
      split; [eapply Qle_trans; [exact Hm|apply Qlt_le_weak; exact Hlt]|].
      constructor; [exact Hm|exact Hall].
Qed.

(** [xs.index(x)] is the position of the first element equal to [x]. *)
Lemma py_index_first (x : Q) (xs : list Q) :
  forall i, py_index x xs = Ok i ->
    (exists y, xs !! i = Some y /\ (y == x)%Q)
    /\ (forall j z, (j < i)%nat -> xs !! j = Some z -> ~ (z == x)%Q).
Proof.
  induction xs as [|y xs IH]; intros i Hi; [discriminate|].
  cbn [py_index] in Hi. destruct (Qeq_bool y x) eqn:Heq.
  - injection Hi as <-. split.
    + exists y. split; [reflexivity|]. apply Qeq_bool_iff. exact Heq.
    + intros j z Hj. lia.
  - destruct (py_index x xs) as [i'|e] eqn:Hrec; [|discriminate].
    cbn [bind] in Hi. injection Hi as <-.
    destruct (IH i' eq_refl) as [Hfound Hfirst]. split; [exact Hfound|].
    intros [|j] z Hj Hz.
    + cbn in Hz. injection Hz as <-. intros Hyx.
      apply Qeq_bool_iff in Hyx. congruence.
    + cbn in Hz. apply (Hfirst j z); [lia|exact Hz].
Qed.

Lemma delete_app_l (A : Type) (l k : list A) (i : nat) :
  (i < length l)%nat -> delete i (l ++ k) = delete i l ++ k.
Proof.
  revert i. induction l as [|a l IH]; intros i Hi; [simpl in Hi; lia|].
  destruct i as [|i]; [reflexivity|].
  cbn. f_equal. apply IH. simpl in Hi. lia.
Qed.

Lemma bind_Ok_r (A : Type) (r : result A) : bind r (fun a => Ok a) = r.
Proof. destruct r; reflexivity. Qed.

(** The best and the worst performer as [meta_reflection] picks them: the
    first agent of maximal performance and the first of minimal
    performance. *)
Lemma best_and_worst (agents : list Agent) :
  agents <> [] ->
  exists hi bi lo wi best worst,
    py_max (map performance agents) = Ok hi
    /\ py_index hi (map performance agents) = Ok bi
    /\ py_min (map performance agents) = Ok lo
    /\ py_index lo (map performance agents) = Ok wi
    /\ agents !! bi = Some best /\ agents !! wi = Some worst
    /\ Forall (fun a => (performance a <= performance best)%Q
                        /\ (performance worst <= performance a)%Q) agents
    /\ (forall j a, (j < bi)%nat -> agents !! j = Some a ->
                    (performance a < performance best)%Q)
    /\ (forall j a, (j < wi)%nat -> agents !! j = Some a ->
                    (performance worst < performance a)%Q).
Proof.
  intros Hne.
  assert (Hperf : map performance agents <> [])
    by (destruct agents; [congruence|discriminate]).
  destruct (py_max_index _ Hperf) as (hi & bi & Hmax & Hbi & _).
  destruct (py_min_index _ Hperf) as (lo & wi & Hmin & Hwi & _).
  destruct (py_index_first _ _ _ Hbi) as [(y & Hy & Hyhi) Hbfirst].
  destruct (py_index_first _ _ _ Hwi) as [(z & Hz & Hzlo) Hwfirst].
  change (map performance agents) with (performance <$> agents) in Hy, Hz.
  rewrite list_lookup_fmap in Hy, Hz.
  destruct (agents !! bi) as [best|] eqn:Hbest; [|discriminate].
  destruct (agents !! wi) as [worst|] eqn:Hworst; [|discriminate].
  cbn in Hy, Hz. injection Hy as <-. injection Hz as <-.
  assert (Hupper : Forall (fun q => (q <= hi)%Q) (map performance agents)).
  { destruct agents as [|a0 agents0]; [congruence|].
    cbn [map py_max] in Hmax |- *. injection Hmax as <-.
    destruct (fold_max_upper (map performance agents0) (performance a0))
      as [H0 Hall].
    constructor; assumption. }
  assert (Hlower : Forall (fun q => (lo <= q)%Q) (map performance agents)).
  { destruct agents as [|a0 agents0]; [congruence|].
    cbn [map py_min] in Hmin |- *. injection Hmin as <-.
    destruct (fold_min_lower (map performance agents0) (performance a0))
      as [H0 Hall].
    constructor; assumption. }
  exists hi, bi, lo, wi, best, worst.
  repeat (split; [assumption|]).
  rewrite Forall_forall in Hupper, Hlower.
  split; [|split].
  - apply Forall_forall. intros a Ha.
    assert (Hin : performance a ∈ map performance agents)
      by (apply list_elem_of_fmap; exists a; auto).
    split.
    + rewrite Hyhi. apply Hupper. exact Hin.
    + rewrite Hzlo. apply Hlower. exact Hin.
  - intros j a Hj Ha.
    assert (Hle : (performance a <= hi)%Q).
    { apply Hupper. apply list_elem_of_fmap. exists a. split; [reflexivity|].
      eapply list_elem_of_lookup_2. exact Ha. }
    assert (Hneq : ~ (performance a == hi)%Q).
    { apply (Hbfirst j); [exact Hj|].
      change (map performance agents) with (performance <$> agents).
      rewrite list_lookup_fmap, Ha. reflexivity. }
    rewrite Hyhi. apply Qle_lteq in Hle.
    destruct Hle as [Hlt|Heq]; [exact Hlt|contradiction].
  - intros j a Hj Ha.
    assert (Hle : (lo <= performance a)%Q).
    { apply Hlower. apply list_elem_of_fmap. exists a. split; [reflexivity|].
      eapply list_elem_of_lookup_2. exact Ha. }
    assert (Hneq : ~ (performance a == lo)%Q).
    { apply (Hwfirst j); [exact Hj|].
      change (map performance agents) with (performance <$> agents).
      rewrite list_lookup_fmap, Ha. reflexivity. }
    rewrite Hzlo. apply Qle_lteq in Hle.
    destruct Hle as [Hlt|Heq]; [exact Hlt|]. exfalso. apply Hneq.
    symmetry. exact Heq.
Qed.


End HiveCycleFacts.


Section HiveSizeFacts.
Import GieHive.

Variable clone : Agent -> Agent.
Variable act : Agent -> Agent.

Lemma meta_reflection_size (agents : list Agent) :
  agents <> [] ->
  exists agents',
    meta_reflection clone agents = Ok agents'
    /\ length agents' = size_after_cycle (length agents).
Proof.
  intros Hne.
  destruct (meta_reflection_stages_sizes clone agents Hne)
    as (st & Hst & H1 & H2 & H3 & _ & _).
  exists (after_share st). unfold meta_reflection. rewrite Hst. cbn [bind].
  split; [reflexivity|].
  rewrite H3, H2, H1. unfold size_after_cycle.
  destruct (Nat.ltb_spec (length agents) 20);
    destruct (Nat.ltb_spec (length agents) 5);
    destruct (Nat.ltb_spec 5 (S (length agents)));
    destruct (Nat.ltb_spec 5 (length agents)); lia.
Qed.

Lemma size_after_cycle_pos (n : nat) :
  (1 <= n)%nat -> (1 <= size_after_cycle n)%nat.
Proof.
  unfold size_after_cycle. intros Hn.
  destruct (Nat.ltb_spec n 5); [lia|].
  destruct (Nat.ltb_spec n 20); lia.
Qed.


End HiveSizeFacts.

(** ** gie_hive.py: [share_knowledge] *)

Section ShareKnowledgeFacts.
Import GieHive.

Lemma fold_Qplus_acc (xs : list Q) :
  forall a, (fold_left Qplus xs a == a + Qsum xs)%Q.
Proof.
  unfold Qsum. induction xs as [|x xs IH]; intros a; cbn [fold_left].
  - ring.
  - rewrite (IH (a + x)%Q), (IH (0 + x)%Q). ring.
Qed.

Lemma Qsum_cons (x : Q) (xs : list Q) : (Qsum (x :: xs) == x + Qsum xs)%Q.
Proof.
  unfold Qsum at 1. cbn [fold_left]. rewrite fold_Qplus_acc. ring.
Qed.

Lemma inject_Z_succ (n : nat) :
  (inject_Z (Z.of_nat (S n)) == inject_Z (Z.of_nat n) + 1)%Q.
Proof.
  rewrite Nat2Z.inj_succ. unfold Z.succ. rewrite inject_Z_plus. reflexivity.
Qed.

Lemma Qsum_halfway (b : Q) (xs : list Q) :
  (Qsum (map (fun x => (x + b) / 2) xs)
   == (Qsum xs + inject_Z (Z.of_nat (length xs)) * b) / 2)%Q.
Proof.
  induction xs as [|x xs IH].
  - cbn. field.
  - cbn [map length]. rewrite !Qsum_cons, IH, inject_Z_succ. field.
Qed.

Lemma shared_performance (b bs : Q) (agents : list Agent) :
  map performance
      (map (fun a => mkAgent ((hunger a + b) / 2)%Q
                             (option_map (fun s => ((s + bs) / 2)%Q)
                                         (satisfaction a))
                             (performance a)) agents)
  = map performance agents.
Proof. rewrite map_map. apply map_ext. reflexivity. Qed.

Lemma shared_hunger (b bs : Q) (agents : list Agent) :
  map hunger
      (map (fun a => mkAgent ((hunger a + b) / 2)%Q
                             (option_map (fun s => ((s + bs) / 2)%Q)
                                         (satisfaction a))
                             (performance a)) agents)
  = map (fun q => ((q + b) / 2)%Q) (map hunger agents).
Proof. rewrite !map_map. apply map_ext. reflexivity. Qed.

(** X3: [share_knowledge] raises [ZeroDivisionError] on an empty population
    and on no other; on a non-empty one it keeps the number of agents, their
    order and their performance, moves every hunger halfway to the mean
    hunger, and so leaves the total (and the mean) hunger of the population
    unchanged. *)
Theorem share_knowledge_keeps_mean_hunger (agents : list Agent) :
  match agents with
  | [] => share_knowledge agents = Raise ZeroDivisionError
  | _ :: _ =>
      exists agents' mean,
        share_knowledge agents = Ok agents'
        /\ (mean * inject_Z (Z.of_nat (length agents))
            == Qsum (map hunger agents))%Q
        /\ map performance agents' = map performance agents
        /\ Forall2 (fun a a' => (hunger a' == (hunger a + mean) / 2)%Q)
                   agents agents'
        /\ (Qsum (map hunger agents') == Qsum (map hunger agents))%Q
  end.
Proof.
  destruct agents as [|a0 agents0]; [reflexivity|].
  remember (a0 :: agents0) as agents eqn:Hagents.
  set (n := inject_Z (Z.of_nat (length agents))).
  assert (Hn : ~ (n == 0)%Q).
  { subst n agents. cbn [length]. rewrite inject_Z_succ.
    intros H. unfold Qeq in H. cbn in H. lia. }
  set (mean := (Qsum (map hunger agents) / n)%Q).
  set (bs := (Qsum (map (fun a => default 0%Q (satisfaction a)) agents)
              / n)%Q).
  exists (map (fun a => mkAgent ((hunger a + mean) / 2)%Q
                                (option_map (fun s => ((s + bs) / 2)%Q)
                                            (satisfaction a))
                                (performance a)) agents), mean.
  split; [|split; [|split; [|split]]].
  - subst mean bs n. rewrite Hagents.
    unfold share_knowledge, average. cbn [map bind length].
    rewrite !length_map. reflexivity.
  - subst mean. field. exact Hn.
  - apply shared_performance.
  - apply Forall2_fmap_r. apply Forall_Forall2_diag.
    apply Forall_forall. intros a _. cbn. reflexivity.
  - rewrite shared_hunger, Qsum_halfway, length_map. fold n.
    subst mean. field. exact Hn.
Qed.

End ShareKnowledgeFacts.

(** ** gie_mind.py: mood, engine choice and the loop of [run] *)

Section MindFacts.
Import GieMindCycle.

Lemma Qle_bool_false_lt (a b : Q) : Qle_bool a b = false -> (b < a)%Q.
Proof.
  intros H. apply Qnot_le_lt. intros Hle. apply Qle_bool_iff in Hle.
  congruence.
Qed.

Lemma py_min2_spec (a b : Q) :
  (py_min2 a b <= a)%Q /\ (py_min2 a b <= b)%Q
  /\ (py_min2 a b == a \/ py_min2 a b == b)%Q.
Proof.
  unfold py_min2. destruct (Qle_bool a b) eqn:H.
  - apply Qle_bool_iff in H. repeat split; try lra.
  - apply Qle_bool_false_lt in H. repeat split; try lra.
Qed.

Lemma py_max2_spec (a b : Q) :
  (a <= py_max2 a b)%Q /\ (b <= py_max2 a b)%Q
  /\ (py_max2 a b == a \/ py_max2 a b == b)%Q.
Proof.
  unfold py_max2. destruct (Qle_bool b a) eqn:H.
  - apply Qle_bool_iff in H. repeat split; try lra.
  - apply Qle_bool_false_lt in H. repeat split; try lra.
Qed.

(** X4: [update_internal_state] keeps [hunger], [satisfaction] and
    [curiosity] between 0 and 1 whatever the reward, as long as the three
    increments are not negative, and touches neither the stats table nor
    the engines. *)
Theorem update_internal_state_keeps_mood_bounded (m : Mind) (reward : Q) :
  (0 <= hunger_increment m)%Q -> (0 <= curiosity_increment m)%Q ->
  (0 <= satisfaction_increment m)%Q ->
  (0 <= hunger m <= 1)%Q -> (0 <= satisfaction m <= 1)%Q ->
  (0 <= curiosity m <= 1)%Q ->
  let m' := fst (update_internal_state m reward) in
  (0 <= hunger m' <= 1)%Q /\ (0 <= satisfaction m' <= 1)%Q
  /\ (0 <= curiosity m' <= 1)%Q
  /\ stats m' = stats m /\ engines m' = engines m.
Proof.
  intros Hhi Hci Hsi Hh Hs Hc. unfold update_internal_state.
  pose proof (py_max2_spec 0 (hunger m - hunger_increment m)) as Hmaxh.
  pose proof (py_min2_spec 1 (satisfaction m + satisfaction_increment m))
    as Hmins.
  pose proof (py_min2_spec 1 (hunger m + (2 # 100))) as Hminh.
  pose proof (py_min2_spec 1 (curiosity m + curiosity_increment m)) as Hminc.
  pose proof (py_max2_spec 0 (satisfaction m - satisfaction_increment m))
    as Hmaxs.
  pose proof (py_min2_spec 1 (curiosity m + (1 # 100))) as Hminc'.
  destruct (negb (Qle_bool reward (1 # 2)));
    [|destruct (negb (Qle_bool (2 # 10) reward))];
    cbn [fst with_mood hunger satisfaction curiosity stats engines];
    repeat split; try reflexivity;
    try tauto;
    match goal with
    | |- (_ <= _)%Q =>
        repeat match goal with
               | H : _ /\ _ |- _ => destruct H
               | H : _ \/ _ |- _ => destruct H
               end; lra
    end.
Qed.

End MindFacts.

Section RaisingStepFacts.
Import MainLoop.

Variable State : Type.
Variable step : State -> State * option exn.
Hypothesis step_raises : forall s, snd (step s) <> None.

Lemma run_stops_at_first_step (self_steps : nat) (s : State) :
  (1 <= self_steps)%nat ->
  run step self_steps s = (fst (step s), 1%nat, snd (step s)).
Proof.
  intros Hpos. destruct self_steps as [|n]; [lia|].
  unfold run. cbn [outer_loop inner_loop].
  pose proof (step_raises s) as Hr.
  destruct (step s) as [s' [e|]]; [reflexivity|contradiction].
Qed.

Lemma main_loop_never_monitors (turns : nat) (w : World State) :
  passes (fst (main_loop step turns w)) = passes w
  /\ config (fst (main_loop step turns w)) = config w
  /\ ((1 <= turns)%nat ->
      dispatched (fst (main_loop step turns w)) = (dispatched w + 1)%nat
      /\ snd (main_loop step turns w) = snd (step (mind w))).
Proof.
  destruct turns as [|t].
  - cbn. split; [reflexivity|]. split; [reflexivity|].
    intros H. exfalso. lia.
  - cbn [main_loop]. unfold main_iteration.
    rewrite (run_stops_at_first_step 10 (mind w)) by lia.
    pose proof (step_raises (mind w)) as Hr.
    destruct (step (mind w)) as [s' [e|]]; [|contradiction].
    cbn. repeat split; reflexivity.
Qed.

End RaisingStepFacts.

Section MindStepFacts.
Import GieMindCycle.

Variable within_tolerance : Z -> Z -> bool.
Variable knowledge : MetaReflection.Knowledge.
Variable mr_curiosity : Q.
Variable draw : Draw.

Lemma receive_feedback_raises (m : Mind) (engine : option string)
    (success : bool) :
  snd (receive_feedback m engine success) <> None.
Proof.
  unfold receive_feedback.
  destruct (stats m !! class_name engine); cbn; discriminate.
Qed.

Lemma step_raises (m : Mind) :
  snd (step within_tolerance knowledge mr_curiosity draw m) <> None.
Proof.
  unfold step.
  destruct (choose_engine m _) as [engine|e]; [|cbn; discriminate].
  destruct (GieMind.get_effectiveness _ _) as [q|e]; [|cbn; discriminate].
  apply receive_feedback_raises.
Qed.

(** What a pass through the body of the loop can change in the stats
    table: nothing, or one more trial (and at most one more win) for one
    engine. *)
Lemma step_stats (m : Mind) :
  let m' := fst (step within_tolerance knowledge mr_curiosity draw m) in
  stats m' = stats m
  \/ exists name st,
       stats m !! name = Some st
       /\ (stats m' = <[name := mkStat (win st) (trials st + 1)]> (stats m)
           \/ stats m'
              = <[name := mkStat (win st + 1) (trials st + 1)]> (stats m)).
Proof.
  unfold step.
  destruct (choose_engine m _) as [engine|e]; [|left; reflexivity].
  destruct (GieMind.get_effectiveness _ _) as [q|e]; [|left; reflexivity].
  unfold receive_feedback.
  destruct (stats m !! class_name engine) as [st|] eqn:Hst;
    [|left; reflexivity].
  right. exists (class_name engine), st. split; [exact Hst|].
  unfold GieMind.receive_feedback. rewrite Hst.
  destruct (negb (Qle_bool q (u_success draw))); cbn.
  - right. reflexivity.
  - left. rewrite Z.add_0_r. reflexivity.
Qed.

(** X5: [GieMind.run] with [self_steps >= 1] never gets past its first
    step: the body of the loop raises on every path (in [choose_engine], in
    [get_effectiveness], or at the end of [receive_feedback]), nothing in
    [run] catches it, so exactly one dispatch is made and the stats table
    gains at most one trial. *)
Theorem run_stops_in_first_step (self_steps : nat) (m : Mind) :
  (1 <= self_steps)%nat ->
  exists m' e,
    MainLoop.run (step within_tolerance knowledge mr_curiosity draw)
                 self_steps m = (m', 1%nat, Some e)
    /\ (stats m' = stats m
        \/ exists name st,
             stats m !! name = Some st
             /\ (stats m'
                 = <[name := mkStat (win st) (trials st + 1)]> (stats m)
                 \/ stats m'
                    = <[name := mkStat (win st + 1) (trials st + 1)]>
                        (stats m))).
Proof.
  intros Hpos.
  rewrite (run_stops_at_first_step Mind _ step_raises self_steps m Hpos).
  pose proof (step_raises m) as Hr. pose proof (step_stats m) as Hs.
  destruct (step within_tolerance knowledge mr_curiosity draw m)
    as [m' [e|]]; [|contradiction].
  exists m', e. split; [reflexivity|exact Hs].
Qed.

(** X6: in the loop under [__main__], [meta_guardian.monitor_all()] is
    never reached: the first call of [gie_mind.run] raises, so after any
    number of turns no monitoring pass has run and the guardian's
    configuration is as it was. *)
Theorem main_loop_never_reaches_guardian (turns : nat)
    (w : MainLoop.World Mind) :
  MainLoop.passes
    (fst (MainLoop.main_loop
            (step within_tolerance knowledge mr_curiosity draw) turns w))
  = MainLoop.passes w
  /\ MainLoop.config
       (fst (MainLoop.main_loop
               (step within_tolerance knowledge mr_curiosity draw) turns w))
     = MainLoop.config w
  /\ (MainLoop.dispatched
        (fst (MainLoop.main_loop
                (step within_tolerance knowledge mr_curiosity draw) turns w))
      <= MainLoop.dispatched w + 1)%nat.
Proof.
  destruct (main_loop_never_monitors Mind _ step_raises turns w)
    as (Hp & Hc & Hd).
  split; [exact Hp|]. split; [exact Hc|].
  destruct turns as [|t]; [cbn; lia|].
  destruct (Hd ltac:(lia)) as [-> _]. lia.
Qed.

End MindStepFacts.

Lemma run_stops_in_first_step_witness :
  (1 <= 10)%nat
  /\ exists m' e,
       MainLoop.run
         (GieMindCycle.step tolerance_in_tenths ledger_tie (1 # 2)
            (GieMindCycle.mkDraw env_C 0 0 0))
         10 (GieMindCycle.new ["A"%string; "B"%string])
       = (m', 1%nat, Some e).
Proof.
  assert (Hpos : (1 <= 10)%nat) by lia.
  split; [exact Hpos|].
  destruct (run_stops_in_first_step tolerance_in_tenths ledger_tie (1 # 2)
              (GieMindCycle.mkDraw env_C 0 0 0) 10
              (GieMindCycle.new ["A"%string; "B"%string]) Hpos)
    as (m' & e & Hrun & _).
  exists m', e. exact Hrun.
Defined.

(** ** meta_reflection.py: what [suggest] can return *)

Section SuggestSoundFacts.
Import MetaReflection.

Variable within_tolerance : Z -> Z -> bool.

Lemma max_by_eff_In (rest : list (Q * Engine)) (best : Q * Engine) :
  In (max_by_eff best rest) (best :: rest).
Proof.
  destruct (max_by_eff_first_max rest best) as (pre & post & Heq & _ & _).
  rewrite Heq. apply in_or_app. right. left. reflexivity.
Qed.

Lemma candidates_from_ledger (knowledge : Knowledge) (ctx : Context)
    (c : Q * Engine) :
  In c (candidates within_tolerance knowledge ctx) ->
  exists key stat,
    (key, stat) ∈ knowledge
    /\ qualifies within_tolerance ctx (key, stat) = true
    /\ c = (eff stat, fst key).
Proof.
  unfold candidates. intros Hin. apply in_map_iff in Hin.
  destruct Hin as ([key stat] & Hc & Hin).
  apply list_elem_of_In in Hin. unfold Knowledge in Hin.
  apply list_elem_of_filter in Hin as [Hq Hin].
  exists key, stat. split; [exact Hin|]. split; [exact Hq|].
  symmetry. exact Hc.
Qed.

Lemma qualifies_trials (ctx : Context) (entry : Key * Stat) :
  qualifies within_tolerance ctx entry = true -> 3 < trials (snd entry).
Proof.
  destruct entry as [[e [[n p] v]] stat]. destruct ctx as [[a b] c].
  unfold qualifies. intros H.
  apply andb_true_iff in H as [_ H]. apply Z.ltb_lt in H. exact H.
Qed.

Lemma suggest_none_unqualified (knowledge : Knowledge) (curiosity : Q)
    (env : gmap string Q) (u : Q) (pick : nat) :
  (forall entry, entry ∈ knowledge ->
     qualifies within_tolerance (fingerprint env) entry = false) ->
  suggest within_tolerance knowledge curiosity env u pick = None.
Proof.
  intros Hnone. unfold suggest.
  destruct (candidates within_tolerance knowledge (fingerprint env))
    as [|c cs] eqn:Hc; [reflexivity|].
  exfalso.
  destruct (candidates_from_ledger knowledge (fingerprint env) c)
    as (key & stat & Hin & Hq & _); [rewrite Hc; left; reflexivity|].
  rewrite (Hnone _ Hin) in Hq. discriminate.
Qed.

(** X7: whatever the curiosity and the random draws, [suggest] returns
    [None] when no entry of the ledger qualifies for the environment, and
    otherwise the engine of an entry that does qualify: one whose context
    is within tolerance of the fingerprint and whose trials exceed 3.  It
    never suggests an engine on fewer trials. *)
Theorem suggest_only_qualified (knowledge : Knowledge) (curiosity : Q)
    (env : gmap string Q) (u : Q) (pick : nat) :
  ((forall entry, entry ∈ knowledge ->
      qualifies within_tolerance (fingerprint env) entry = false) ->
   suggest within_tolerance knowledge curiosity env u pick = None)
  /\ ((exists entry, entry ∈ knowledge
        /\ qualifies within_tolerance (fingerprint env) entry = true) ->
      exists key stat,
        (key, stat) ∈ knowledge
        /\ qualifies within_tolerance (fingerprint env) (key, stat) = true
        /\ 3 < trials stat
        /\ suggest within_tolerance knowledge curiosity env u pick = fst key).
Proof.
  split.
  - apply suggest_none_unqualified.
  - intros (entry & Hin & Hq). unfold suggest.
    destruct (candidates within_tolerance knowledge (fingerprint env))
      as [|c cs] eqn:Hc.
    + exfalso. unfold candidates, Knowledge in Hc.
      apply map_eq_nil in Hc.
      assert (Hmem : entry ∈ filter
                (fun e => qualifies within_tolerance (fingerprint env) e
                          = true) knowledge)
        by (apply list_elem_of_filter; split; assumption).
      unfold Knowledge in Hmem. rewrite Hc in Hmem.
      apply elem_of_nil in Hmem. exact Hmem.
    + assert (Hsel : forall x, In x (c :: cs) ->
                exists key stat,
                  (key, stat) ∈ knowledge
                  /\ qualifies within_tolerance (fingerprint env) (key, stat)
                     = true
                  /\ 3 < trials stat /\ snd x = fst key).
      { intros x Hx. rewrite <- Hc in Hx.
        destruct (candidates_from_ledger _ _ _ Hx)
          as (key & stat & Hk & Hqk & ->).
        exists key, stat. repeat split; try assumption.
        apply (qualifies_trials _ _ Hqk). }
      destruct (negb (Qle_bool curiosity u)).
      * apply Hsel.
        destruct (Nat.lt_ge_cases pick (length (c :: cs))) as [Hlt|Hge].
        -- apply nth_In. exact Hlt.
        -- rewrite nth_overflow by exact Hge. left. reflexivity.
      * apply Hsel. apply max_by_eff_In.
Qed.

End SuggestSoundFacts.

(** ** gie_mind.py: [choose_engine] and the first step of a new GieMind *)

Section ChooseEngineFacts.
Import GieMindCycle.

Lemma max_scan_spec (stats : gmap string Stat) (rest : list string) :
  forall (best : string) (best_key : Q),
    GieMind.get_effectiveness stats best = Ok best_key ->
    Forall (fun e => is_Some (stats !! e)) rest ->
    exists winner winner_key,
      max_scan stats best best_key rest = Ok winner
      /\ In winner (best :: rest)
      /\ GieMind.get_effectiveness stats winner = Ok winner_key
      /\ (best_key <= winner_key)%Q
      /\ Forall (fun e => exists k, GieMind.get_effectiveness stats e = Ok k
                                    /\ (k <= winner_key)%Q) rest.
Proof.
  induction rest as [|e rest IH]; intros best best_key Hbest Hall.
  - exists best, best_key. cbn. repeat split; auto using Qle_refl.
  - apply Forall_cons in Hall as [[st Hst] Hall].
    cbn [max_scan].
    rewrite (get_effectiveness_lookup _ _ _ Hst). cbn [bind].
    set (k := (if trials st =? 0 then 0
               else inject_Z (win st) / inject_Z (trials st))%Q).
    assert (Hk : GieMind.get_effectiveness stats e = Ok k)
      by apply (get_effectiveness_lookup _ _ _ Hst).
    destruct (Qle_bool k best_key) eqn:Hle.
    + apply Qle_bool_iff in Hle.
      destruct (IH best best_key Hbest Hall)
        as (w & wk & Hrun & Hin & Hw & Hbw & Hrest).
      exists w, wk. split; [exact Hrun|]. split.
      { destruct Hin as [<-|Hin]; [left; reflexivity|right; right; exact Hin]. }
      split; [exact Hw|]. split; [exact Hbw|].
      constructor; [|exact Hrest].
      exists k. split; [exact Hk|]. eapply Qle_trans; eassumption.
    + apply Qle_bool_false_lt in Hle.
      destruct (IH e k Hk Hall) as (w & wk & Hrun & Hin & Hw & Hbw & Hrest).
      exists w, wk. split; [exact Hrun|]. split; [right; exact Hin|].
      split; [exact Hw|]. split; [lra|].
      constructor; [|exact Hrest].
      exists k. split; [exact Hk|exact Hbw].
Qed.


Variable within_tolerance : Z -> Z -> bool.
Variable mr_curiosity : Q.
Variable draw : Draw.

(** X9: a GieMind whose ledger holds no entry with more than 3 trials (a
    new one has an empty ledger, and [run] never adds to it) gets [None]
    from [choose_engine], looks up the stats of ["NoneType"] and raises
    [KeyError]: [run] ends in its first step and leaves the object as it
    was. *)
Theorem run_on_unlearned_ledger_raises_KeyError
    (knowledge : MetaReflection.Knowledge) (self_steps : nat) (m : Mind) :
  Forall (fun entry : MetaReflection.Key * Stat => trials (snd entry) <= 3)
         knowledge ->
  stats m !! "NoneType"%string = None ->
  (1 <= self_steps)%nat ->
  MainLoop.run (step within_tolerance knowledge mr_curiosity draw)
               self_steps m
  = (m, 1%nat, Some KeyError).
Proof.
  intros Hfew Hnone Hpos.
  rewrite (run_stops_at_first_step Mind _
             (step_raises within_tolerance knowledge mr_curiosity draw)
             self_steps m Hpos).
  assert (Hsug : MetaReflection.suggest within_tolerance knowledge
                   mr_curiosity (environment draw) (u_suggest draw)
                   (pick draw) = None).
  { apply suggest_none_unqualified. intros entry Hin.
    rewrite Forall_forall in Hfew. specialize (Hfew _ Hin).
    destruct (MetaReflection.qualifies within_tolerance _ entry) eqn:Hq;
      [|reflexivity].
    apply qualifies_trials in Hq. lia. }
  unfold step. rewrite Hsug. cbn [choose_engine class_name].
  unfold GieMind.get_effectiveness. rewrite Hnone. reflexivity.
Qed.

End ChooseEngineFacts.

(** ** meta_reflection.py: [update] *)

Section UpdateFacts.
Import MetaReflection.

Lemma tally_app (key : Key) (xs ys : list Record_) :
  tally key (xs ++ ys)
  = mkStat (win (tally key xs) + win (tally key ys))
           (trials (tally key xs) + trials (tally key ys)).
Proof.
  induction xs as [|r xs IH]; cbn [app tally].
  - destruct (tally key ys). cbn. f_equal; lia.
  - rewrite IH. destruct (decide (key_of r = key)); cbn; [|reflexivity].
    f_equal; lia.
Qed.

Lemma tally_nonneg (key : Key) (records : list Record_) :
  0 <= win (tally key records) <= trials (tally key records).
Proof.
  induction records as [|r records IH]; cbn [tally]; [cbn; lia|].
  destruct (decide (key_of r = key)); [|exact IH].
  cbn. destruct (rec_score r); lia.
Qed.

(** The first loop of [update]: the table built from [records] on top of
    [acc]. *)
Lemma correlate_lookup (records : list Record_) :
  forall (acc : Knowledge) (key : Key),
    dict_get key (fold_left correlate records acc)
    = if trials (tally key records) =? 0 then dict_get key acc
      else Some (mkStat
                   (win (default (mkStat 0 0) (dict_get key acc))
                    + win (tally key records))
                   (trials (default (mkStat 0 0) (dict_get key acc))
                    + trials (tally key records))).
Proof.
  induction records as [|r records IH]; intros acc key.
  - reflexivity.
  - cbn [fold_left]. rewrite IH. cbn [tally].
    pose proof (tally_nonneg key records) as Hnn.
    unfold correlate. fold (key_of r).
    destruct (decide (key_of r = key)) as [Heq|Hne].
    + rewrite <- Heq. rewrite dict_get_set_eq.
      cbn [default from_option id win trials]. unfold id.
      rewrite <- Heq in Hnn.
      destruct (Z.eqb_spec (trials (tally (key_of r) records)) 0) as [H0|H0];
        destruct (Z.eqb_spec (trials (tally (key_of r) records) + 1) 0);
        try lia.
      * assert (win (tally (key_of r) records) = 0) by lia.
        f_equal. f_equal; lia.
      * f_equal. f_equal; lia.
    + rewrite dict_get_set_ne by congruence. reflexivity.
Qed.

Lemma dict_set_keys_NoDup (K V : Type) `{EqDecision K} (k : K) (v : V)
    (d : list (K * V)) :
  NoDup (map fst d) -> NoDup (map fst (dict_set k v d)).
Proof.
  induction d as [|[k' v'] d IH]; cbn; intros Hnd.
  - apply NoDup_singleton.
  - apply NoDup_cons in Hnd as [Hnotin Hnd].
    destruct (decide (k = k')) as [->|Hne]; cbn.
    + apply NoDup_cons. split; assumption.
    + apply NoDup_cons. split; [|apply IH; exact Hnd].
      intros Hin. apply Hnotin.
      apply list_elem_of_In in Hin. apply in_map_iff in Hin.
      destruct Hin as ([k0 v0] & Hk0 & Hin0). cbn in Hk0. subst k0.
      apply list_elem_of_In. apply in_map_iff.
      assert (Hget : dict_get k' (dict_set k v d) = dict_get k' d)
        by (apply dict_get_set_ne; congruence).
      destruct (dict_get k' d) as [v1|] eqn:Hd.
      * clear - Hd. induction d as [|[k1 v2] d IHd]; [discriminate|].
        cbn in Hd. destruct (decide (k' = k1)) as [->|Hne1].
        -- exists (k1, v2). split; [reflexivity|left; reflexivity].
        -- destruct (IHd Hd) as (x & Hx & Hinx).
           exists x. split; [exact Hx|right; exact Hinx].
      * exfalso. clear - Hget Hin0.
        assert (Hsome : dict_get k' (dict_set k v d) <> None).
        { clear Hget. induction (dict_set k v d) as [|[k1 v2] d' IHd'];
            [destruct Hin0|].
          cbn. destruct (decide (k' = k1)); [discriminate|].
          apply IHd'. destruct Hin0 as [Heq|Hin0]; [congruence|exact Hin0]. }
        congruence.
Qed.

Lemma correlate_keys_NoDup (records : list Record_) :
  forall acc : Knowledge,
    NoDup (map fst acc) ->
    NoDup (map fst (fold_left correlate records acc)).
Proof.
  induction records as [|r records IH]; intros acc Hnd; [exact Hnd|].
  cbn [fold_left]. apply IH. unfold correlate.
  apply dict_set_keys_NoDup. exact Hnd.
Qed.

Lemma blend_entry_lookup (adaptivity : Q) (knowledge : Knowledge)
    (k k' : Key) (v : Stat) :
  dict_get k (blend_entry adaptivity knowledge (k', v))
  = if decide (k = k')
    then Some (match dict_get k knowledge with
               | Some prev => update_blend adaptivity prev v
               | None => v
               end)
    else dict_get k knowledge.
Proof.
  unfold blend_entry.
  destruct (decide (k = k')) as [->|Hne].
  - destruct (dict_get k' knowledge) as [prev|] eqn:Hprev;
      rewrite dict_get_set_eq; reflexivity.
  - destruct (dict_get k' knowledge) as [prev|];
      apply dict_get_set_ne; exact Hne.
Qed.

Lemma blend_fold_lookup (adaptivity : Q) (correlations : Knowledge) :
  NoDup (map fst correlations) ->
  forall (knowledge : Knowledge) (k : Key),
    dict_get k (fold_left (blend_entry adaptivity) correlations knowledge)
    = match dict_get k correlations with
      | None => dict_get k knowledge
      | Some v => Some (match dict_get k knowledge with
                        | Some prev => update_blend adaptivity prev v
                        | None => v
                        end)
      end.
Proof.
  induction correlations as [|[k' v] correlations IH];
    intros Hnd knowledge k.
  - reflexivity.
  - apply NoDup_cons in Hnd as [Hnotin Hnd].
    cbn [fold_left]. rewrite (IH Hnd). cbn [dict_get].
    rewrite blend_entry_lookup.
    destruct (decide (k = k')) as [->|Hne].
    + rewrite (dict_get_absent k' correlations); [reflexivity|].
      intros Hin. apply Hnotin. apply list_elem_of_In. exact Hin.
    + reflexivity.
Qed.

(** X10: what [update] leaves under a key is decided by the records of
    that key among the last 100 of the history: with none, the entry is
    untouched; for a key the ledger lacks, the number of those records and
    of the ones that scored is stored; for a key it has, the stored counts
    and these are blended with the adaptivity factor. *)
Theorem update_lookup (adaptivity : Q) (knowledge : Knowledge)
    (history : list Record_) (key : Key) :
  dict_get key (update adaptivity knowledge history)
  = let t := tally key (last100 history) in
    if trials t =? 0 then dict_get key knowledge
    else Some (match dict_get key knowledge with
               | Some prev => update_blend adaptivity prev t
               | None => t
               end).
Proof.
  unfold update.
  rewrite blend_fold_lookup
    by (apply correlate_keys_NoDup; cbn; apply NoDup_nil; exact I).
  rewrite correlate_lookup. cbn [dict_get default win trials].
  destruct (Z.eqb_spec (trials (tally key (last100 history))) 0);
    [reflexivity|].
  cbn zeta. destruct (tally key (last100 history)) as [w t].
  cbn [win trials]. rewrite !Z.add_0_l. reflexivity.
Qed.

End UpdateFacts.

(** ** meta_reflection.py: the counts of the ledger *)

Section LedgerInvariantFacts.
Import MetaReflection.

Lemma py_int_floor (x : Q) : (0 <= x)%Q -> py_int x = Qfloor x.
Proof.
  destruct x as [n d]. unfold Qle, py_int, Qfloor. cbn. intros Hn.
  apply Z.quot_div_nonneg; lia.
Qed.

Lemma py_int_mono (x y : Q) :
  (0 <= x)%Q -> (x <= y)%Q -> 0 <= py_int x <= py_int y.
Proof.
  intros Hx Hxy.
  rewrite (py_int_floor x Hx), (py_int_floor y) by lra.
  split; [|apply Qfloor_resp_le; exact Hxy].
  change 0 with (Qfloor 0). apply Qfloor_resp_le. exact Hx.
Qed.

Lemma inject_Z_le (a b : Z) : a <= b -> (inject_Z a <= inject_Z b)%Q.
Proof. intros H. rewrite <- Zle_Qle. exact H. Qed.

Lemma update_blend_sane (adaptivity : Q) (prev v : Stat) :
  (0 <= adaptivity <= 1)%Q -> sane prev -> sane v ->
  sane (update_blend adaptivity prev v).
Proof.
  unfold sane, update_blend. cbn [win trials]. intros Ha Hp Hv.
  apply py_int_mono.
  - pose proof (inject_Z_le 0 (win prev + win v) ltac:(lia)) as H1.
    pose proof (inject_Z_le 0 (win v) ltac:(lia)) as H2.
    change (inject_Z 0) with 0%Q in H1, H2. nra.
  - pose proof (inject_Z_le (win prev + win v) (trials prev + trials v)
                  ltac:(lia)) as H1.
    pose proof (inject_Z_le (win v) (trials v) ltac:(lia)) as H2.
    nra.
Qed.

Lemma merged_sane (prev v : Stat) : sane prev -> sane v -> sane (merged prev v).
Proof.
  unfold sane, merged. cbn [win trials]. intros Hp Hv. split.
  - apply Z.quot_pos; lia.
  - apply Z.quot_le_mono; lia.
Qed.

Lemma dict_get_value (K V : Type) `{EqDecision K} (k : K) (v : V)
    (d : list (K * V)) :
  dict_get k d = Some v -> In v (map snd d).
Proof.
  induction d as [|[k' v'] d IH]; cbn; [discriminate|].
  destruct (decide (k = k')); intros H.
  - injection H as <-. left. reflexivity.
  - right. apply IH. exact H.
Qed.

Lemma dict_set_values (K V : Type) `{EqDecision K} (P : V -> Prop) (k : K)
    (v : V) (d : list (K * V)) :
  Forall P (map snd d) -> P v -> Forall P (map snd (dict_set k v d)).
Proof.
  intros Hall Hv. induction d as [|[k' v'] d IH]; cbn.
  - constructor; [exact Hv|constructor].
  - cbn in Hall. apply Forall_cons in Hall as [Hv' Hall].
    destruct (decide (k = k')); cbn.
    + constructor; assumption.
    + constructor; [exact Hv'|apply IH; exact Hall].
Qed.

Lemma values_sane_lookup (d : Knowledge) (k : Key) (v : Stat) :
  Forall sane (map snd d) -> dict_get k d = Some v -> sane v.
Proof.
  intros Hall Hget. rewrite Forall_forall in Hall. apply Hall.
  apply list_elem_of_In. eapply dict_get_value. exact Hget.
Qed.

Lemma correlate_sane (records : list Record_) :
  forall acc : Knowledge,
    Forall sane (map snd acc) ->
    Forall sane (map snd (fold_left correlate records acc)).
Proof.
  induction records as [|r records IH]; intros acc Hacc; [exact Hacc|].
  cbn [fold_left]. apply IH. unfold correlate.
  apply dict_set_values; [exact Hacc|].
  unfold Key in *.
  destruct (dict_get (rec_engine r, fingerprint (rec_env r)) acc)
    as [cur|] eqn:Hget.
  - pose proof (values_sane_lookup acc _ cur Hacc Hget) as Hcur.
    unfold sane in *. cbn. destruct (rec_score r); lia.
  - unfold sane. cbn. destruct (rec_score r); lia.
Qed.

Lemma blend_fold_sane (adaptivity : Q) (correlations : Knowledge) :
  (0 <= adaptivity <= 1)%Q ->
  Forall sane (map snd correlations) ->
  forall knowledge : Knowledge,
    Forall sane (map snd knowledge) ->
    Forall sane
      (map snd (fold_left (blend_entry adaptivity) correlations knowledge)).
Proof.
  intros Ha. induction correlations as [|[k v] correlations IH];
    intros Hcor knowledge Hkn; [exact Hkn|].
  cbn in Hcor. apply Forall_cons in Hcor as [Hv Hcor].
  cbn [fold_left]. apply (IH Hcor). unfold blend_entry.
  destruct (dict_get k knowledge) as [prev|] eqn:Hget.
  - apply dict_set_values; [exact Hkn|].
    apply (update_blend_sane adaptivity prev v Ha); [|exact Hv].
    eapply values_sane_lookup; [exact Hkn|exact Hget].
  - apply dict_set_values; assumption.
Qed.

Lemma merge_fold_sane (remote : Knowledge) :
  Forall sane (map snd remote) ->
  forall knowledge : Knowledge,
    Forall sane (map snd knowledge) ->
    Forall sane (map snd (merge_knowledge knowledge remote)).
Proof.
  unfold merge_knowledge.
  induction remote as [|[k v] remote IH]; intros Hrem knowledge Hkn;
    [exact Hkn|].
  cbn in Hrem. apply Forall_cons in Hrem as [Hv Hrem].
  cbn [fold_left]. apply (IH Hrem). unfold merge_entry.
  destruct (dict_get k knowledge) as [prev|] eqn:Hget.
  - apply dict_set_values; [exact Hkn|].
    rewrite !py_int_half_sum.
    replace (win prev + win v + win prev) with (2 * win prev + win v) by lia.
    replace (trials prev + trials v + trials prev)
      with (2 * trials prev + trials v) by lia.
    apply (merged_sane prev v); [|exact Hv].
    eapply values_sane_lookup; [exact Hkn|exact Hget].
  - apply dict_set_values; assumption.
Qed.

(** X11: a ledger in which every entry has [0 <= win <= trials] stays so
    under [update] with an adaptivity between 0 and 1 and under
    [merge_knowledge] with a remote ledger of the same kind, so the
    effectiveness [suggest] computes from an entry always lies between 0 and
    1. *)
Theorem ledger_counts_stay_sane (adaptivity : Q)
    (knowledge remote : Knowledge) (history : list Record_) :
  (0 <= adaptivity <= 1)%Q ->
  Forall sane (map snd knowledge) ->
  Forall sane (map snd remote) ->
  Forall sane (map snd (update adaptivity knowledge history))
  /\ Forall sane (map snd (merge_knowledge knowledge remote))
  /\ Forall (fun s => (0 <= eff s <= 1)%Q)
            (map snd (merge_knowledge
                        (update adaptivity knowledge history) remote)).
Proof.
  intros Ha Hkn Hrem.
  assert (Hup : Forall sane (map snd (update adaptivity knowledge history))).
  { unfold update. apply blend_fold_sane; [exact Ha| |exact Hkn].
    apply correlate_sane. constructor. }
  split; [exact Hup|]. split; [apply merge_fold_sane; assumption|].
  pose proof (merge_fold_sane remote Hrem _ Hup) as Hall.
  eapply Forall_impl; [exact Hall|].
  intros [w t] [Hw Hwt]. unfold eff. cbn [win trials] in *.
  destruct (Z.max 1 t) as [|p|p] eqn:Hmax; try lia.
  rewrite inject_Z_div_pos. unfold Qle. cbn. lia.
Qed.

End LedgerInvariantFacts.

(** ** meta_reflection.py: [reflect] and [calculate_success_rate] *)

Section ReflectionFacts.
Import Reflection.

Lemma last_slice_length (A : Type) (last_n : Z) (l : list A) :
  0 < last_n <= Z.of_nat (length l) ->
  Z.of_nat (length (last_slice last_n l)) = last_n.
Proof.
  intros Hn. unfold last_slice.
  destruct (Z.ltb_spec 0 last_n); [|lia].
  rewrite length_skipn. lia.
Qed.

Lemma ratio_in_unit (s n : Z) :
  0 <= s <= n -> 0 < n ->
  (0 <= inject_Z s / inject_Z n <= 1)%Q
  /\ (inject_Z s / inject_Z n + inject_Z (n - s) / inject_Z n == 1)%Q.
Proof.
  intros Hs Hn. destruct n as [|p|p]; try lia.
  rewrite !inject_Z_div_pos. unfold Qle, Qeq, Qplus. cbn. split; nia.
Qed.

(** X12: [reflect(last_n)] returns [None] and changes nothing while the
    memory holds fewer than [last_n] events, raises [ZeroDivisionError] for
    [last_n = 0], and otherwise reports a success rate between 0 and 1
    whose sum with the fail rate is 1, sets the meta reward to success rate
    plus average greed, keeps the memory, and keeps curiosity and hunger
    between 0.1 and 1 when they were. *)
Theorem reflect_report (m : Mood) (last_n : Z) :
  (Z.of_nat (length (memory m)) < last_n -> reflect m last_n = (Ok None, m))
  /\ (last_n = 0 -> reflect m last_n = (Raise ZeroDivisionError, m))
  /\ (0 < last_n <= Z.of_nat (length (memory m)) ->
      exists r m',
        reflect m last_n = (Ok (Some r), m')
        /\ memory m' = memory m
        /\ (0 <= success_rate r <= 1)%Q
        /\ (success_rate r + fail_rate r == 1)%Q
        /\ (r_meta_reward r == success_rate r + avg_greed r)%Q
        /\ meta_reward m' = r_meta_reward r
        /\ curiosity m' = r_curiosity r /\ hunger m' = r_hunger r
        /\ ((1 # 10 <= curiosity m <= 1)%Q ->
            (1 # 10 <= curiosity m' <= 1)%Q)
        /\ ((1 # 10 <= hunger m <= 1)%Q -> (1 # 10 <= hunger m' <= 1)%Q)).
Proof.
  split; [|split].
  - intros Hshort. unfold reflect.
    destruct (Z.ltb_spec (Z.of_nat (length (memory m))) last_n); [|lia].
    reflexivity.
  - intros ->. unfold reflect.
    destruct (Z.ltb_spec (Z.of_nat (length (memory m))) 0); [lia|].
    reflexivity.
  - intros Hn. unfold reflect.
    destruct (Z.ltb_spec (Z.of_nat (length (memory m))) last_n); [lia|].
    destruct (Z.eqb_spec last_n 0); [lia|].
    eexists. eexists. split; [reflexivity|].
    cbn [memory success_rate fail_rate avg_greed r_curiosity r_hunger
         r_meta_reward meta_reward curiosity hunger].
    set (recent := last_slice last_n (memory m)).
    set (s := Z.of_nat (length (filter (fun e => ev_result e = true) recent))).
    assert (Hs : 0 <= s <= last_n).
    { subst s. split; [lia|].
      rewrite <- (last_slice_length Event last_n (memory m) Hn).
      apply inj_le. apply length_filter. }
    destruct (ratio_in_unit s last_n Hs ltac:(lia)) as [Hrate Hsum].
    split; [reflexivity|]. split; [exact Hrate|]. split; [exact Hsum|].
    split; [reflexivity|]. split; [reflexivity|].
    split; [reflexivity|]. split; [reflexivity|].
    pose proof (py_min2_spec 1 (curiosity m + (5 # 100))) as Hc1.
    pose proof (py_max2_spec (1 # 10) (curiosity m - (5 # 100))) as Hc2.
    pose proof (py_min2_spec 1 (hunger m + (5 # 100))) as Hh1.
    pose proof (py_max2_spec (1 # 10) (hunger m - (5 # 100))) as Hh2.
    split; intros Hb;
      destruct (negb (Qle_bool (1 # 2) (inject_Z s / inject_Z last_n)));
      repeat match goal with
             | H : _ /\ _ |- _ => destruct H
             | H : _ \/ _ |- _ => destruct H
             end; split; lra.
Qed.

Lemma Qsum_nonneg (xs : list Q) :
  Forall (fun x => (0 <= x)%Q) xs -> (0 <= GieHive.Qsum xs)%Q.
Proof.
  induction xs as [|x xs IH]; intros Hall.
  - unfold GieHive.Qsum. cbn. lra.
  - apply Forall_cons in Hall as [Hx Hall]. rewrite Qsum_cons.
    specialize (IH Hall). lra.
Qed.

(** X13: [calculate_success_rate] returns 1.0 whenever no trade of the
    history lost money, also when there is no trade at all; with a losing
    trade it returns a number that is not below -1 (and may exceed 1), and
    its denominator is never zero. *)
Theorem calculate_success_rate_range (pnls : list Q) :
  match List.filter (fun x => negb (Qle_bool 0 x)) pnls with
  | [] => calculate_success_rate pnls = Ok 1%Q
  | _ :: _ =>
      exists q, calculate_success_rate pnls = Ok q /\ (-1 <= q)%Q
  end.
Proof.
  unfold calculate_success_rate.
  set (gains := List.filter (fun x => negb (Qle_bool x 0)) pnls).
  assert (Hgains : (0 <= GieHive.Qsum gains)%Q).
  { apply Qsum_nonneg. apply Forall_forall. intros x Hx.
    apply list_elem_of_In in Hx. subst gains.
    apply filter_In in Hx as [_ Hx]. apply negb_true_iff in Hx.
    apply Qle_bool_false_lt in Hx. lra. }
  assert (Hneg : Forall (fun x => (x < 0)%Q)
                   (List.filter (fun x => negb (Qle_bool 0 x)) pnls)).
  { apply Forall_forall. intros x Hx. apply list_elem_of_In in Hx.
    apply filter_In in Hx as [_ Hx]. apply negb_true_iff in Hx.
    apply Qle_bool_false_lt in Hx. exact Hx. }
  destruct (List.filter (fun x => negb (Qle_bool 0 x)) pnls)
    as [|x losers]; [reflexivity|].
  cbn [map].
  set (losses := Qabs x :: map Qabs losers).
  assert (Hlosses : (0 <= GieHive.Qsum losses)%Q).
  { apply Qsum_nonneg. subst losses. constructor; [apply Qabs_nonneg|].
    apply Forall_forall. intros y Hy. apply list_elem_of_In in Hy.
    apply in_map_iff in Hy as (z & <- & _). apply Qabs_nonneg. }
  destruct (Qeq_bool (GieHive.Qsum losses + (1 # 1000000)) 0) eqn:Hz.
  - apply Qeq_bool_iff in Hz. lra.
  - eexists. split; [reflexivity|].
    apply Qle_shift_div_l; lra.
Qed.

End ReflectionFacts.

(** ** base_sensor.py: sensitivity and detection memory; sensors:
       [self_tune] *)

Section SensorCoreFacts.
Import BaseSensorCore.

(** X14: [adjust_sensitivity] keeps a sensitivity that lies between 0.01
    and 10 in that range for every feedback, given a learning rate that is
    not negative; a false positive never raises it, a missed event never
    lowers it, and any other feedback leaves the sensor as it is. *)
Theorem adjust_sensitivity_range (s : Sensor) (feedback : string) :
  (0 <= learning_rate s)%Q ->
  (1 # 100 <= sensitivity s <= 10)%Q ->
  (1 # 100 <= sensitivity (adjust_sensitivity s feedback) <= 10)%Q
  /\ (feedback = "false_positive"%string ->
      (sensitivity (adjust_sensitivity s feedback) <= sensitivity s)%Q)
  /\ (feedback = "missed_event"%string ->
      (sensitivity s <= sensitivity (adjust_sensitivity s feedback))%Q)
  /\ (feedback <> "false_positive"%string ->
      feedback <> "missed_event"%string ->
      adjust_sensitivity s feedback = s).
Proof.
  intros Hlr Hs. unfold adjust_sensitivity.
  pose proof (py_max2_spec (1 # 100) (sensitivity s - learning_rate s))
    as (Hm1 & Hm2 & Hm3).
  pose proof (py_min2_spec 10 (sensitivity s + learning_rate s))
    as (Hn1 & Hn2 & Hn3).
  destruct (String.eqb_spec feedback "false_positive") as [->|Hfp].
  - cbn [sensitivity]. repeat split; try discriminate; try congruence;
      destruct Hm3; lra.
  - destruct (String.eqb_spec feedback "missed_event") as [->|Hme].
    + cbn [sensitivity]. repeat split; try discriminate; try congruence;
        destruct Hn3; lra.
    + cbn [sensitivity]. repeat split; try lra; try congruence.
      intros _ _. destruct s; reflexivity.
Qed.

(** X15: [detect] never lets the memory outgrow [memory_size]: a memory
    within the limit stays within it, the oldest entry going first; the
    detection is recorded as [last_value] and, for a limit of at least 1,
    as the newest entry of the memory. *)
Theorem detect_keeps_memory_bounded (s : Sensor) (now : Q) (data : list Q) :
  (length (memory s) <= memory_size s)%nat ->
  let detection := fst (detect s now data) in
  let s' := snd (detect s now data) in
  (length (memory s') <= memory_size s')%nat
  /\ last_value s' = Some detection
  /\ ((1 <= memory_size s)%nat -> last (memory s') = Some (now, detection))
  /\ ((length (memory s) < memory_size s)%nat ->
      memory s' = memory s ++ [(now, detection)])
  /\ ((length (memory s) = memory_size s)%nat ->
      memory s' = tail (memory s ++ [(now, detection)])).
Proof.
  intros Hlen. unfold detect. cbn [fst snd memory memory_size last_value].
  set (d := (sensitivity s * BaseSensor.np_mean data)%Q).
  assert (Happ : length (memory s ++ [(now, d)]) = S (length (memory s)))
    by (rewrite length_app; cbn; lia).
  destruct (Nat.ltb_spec (memory_size s) (length (memory s ++ [(now, d)])))
    as [Hfull|Hroom].
  - split; [|split; [reflexivity|split; [|split]]].
    + destruct (memory s) as [|x l]; cbn in *; [lia|].
      rewrite length_app. cbn. lia.
    + intros Hpos. destruct (memory s) as [|x l]; cbn in *; [lia|].
      apply last_snoc.
    + intros Hlt. lia.
    + intros _. reflexivity.
  - split; [lia|]. split; [reflexivity|]. split; [|split].
    + intros _. apply last_snoc.
    + intros _. reflexivity.
    + intros Heq. lia.
Qed.

(** X16: [self_tune] always leaves the base threshold inside the clipping
    range of the sensor kind, whatever it was before, changes neither the
    hunger nor the buffer, and leaves a threshold that is inside the range
    as it is while the hunger lies between 1 and 6. *)
Theorem self_tune_clips_threshold (k : SuperSensor.Kind)
    (s : SuperSensor.Sensor) :
  (SelfTune.floor_of k
   <= SuperSensor.base_threshold (SelfTune.self_tune k s)
   <= SelfTune.ceiling_of k)%Q
  /\ SuperSensor.hunger (SelfTune.self_tune k s) = SuperSensor.hunger s
  /\ SuperSensor.buffer (SelfTune.self_tune k s) = SuperSensor.buffer s
  /\ ((1 <= SuperSensor.hunger s <= 6)%Q ->
      (SelfTune.floor_of k <= SuperSensor.base_threshold s
       <= SelfTune.ceiling_of k)%Q ->
      (SuperSensor.base_threshold (SelfTune.self_tune k s)
       == SuperSensor.base_threshold s)%Q).
Proof.
  unfold SelfTune.self_tune, SelfTune.np_clip.
  cbn [SuperSensor.base_threshold SuperSensor.hunger SuperSensor.buffer].
  assert (Hrange : (SelfTune.floor_of k <= SelfTune.ceiling_of k)%Q)
    by (destruct k; cbn; unfold Qle; cbn; lia).
  split; [|split; [reflexivity|split; [reflexivity|]]].
  - match goal with
    | |- (_ <= GieMindCycle.py_min2 (GieMindCycle.py_max2 ?x ?lo) ?hi <= _)%Q =>
        pose proof (py_max2_spec x lo) as (Hm1 & Hm2 & Hm3);
        pose proof (py_min2_spec (GieMindCycle.py_max2 x lo) hi)
          as (Hn1 & Hn2 & Hn3)
    end.
    destruct Hn3, Hm3; split; lra.
  - intros [Hh1 Hh6] Hb.
    apply Qle_bool_iff in Hh1, Hh6. rewrite Hh1, Hh6. cbn [negb].
    pose proof (py_max2_spec (SuperSensor.base_threshold s)
                  (SelfTune.floor_of k)) as (Hm1 & Hm2 & Hm3).
    pose proof (py_min2_spec
                  (GieMindCycle.py_max2 (SuperSensor.base_threshold s)
                     (SelfTune.floor_of k))
                  (SelfTune.ceiling_of k)) as (Hn1 & Hn2 & Hn3).
    destruct Hn3, Hm3; lra.
Qed.

End SensorCoreFacts.

(** ** base_sensor.py: what any sequence of reads preserves *)

Section ReadSequenceFacts.
Import BaseSensor.

Lemma max0_nonneg (h : Q) : (0 <= max0 h)%Q.
Proof.
  unfold max0. destruct (Qle_bool h 0) eqn:H; [lra|].
  apply Qle_bool_false_lt in H. lra.
Qed.

Lemma quiet_increment_pos (k : Kind) : (0 < quiet_increment k)%Q.
Proof. destruct k; reflexivity. Qed.

(** One [read]: either the tick lacks the field and nothing changes, or the
    buffer takes the value and stays within the window, the history gains
    the reading, and the hunger stays non-negative. *)
Lemma read_step (k : Kind) (s : Sensor) (t : Tick) :
  (length (buffer s) <= window s)%nat -> (0 <= hunger s)%Q ->
  let s' := snd (read k s t) in
  (length (buffer s') <= window s')%nat /\ (0 <= hunger s')%Q
  /\ window s' = window s /\ base_level s' = base_level s
  /\ learning_rate s' = learning_rate s
  /\ length (history s')
     = (length (history s)
        + (if tick_lacks t (field k) then 0 else 1))%nat.
Proof.
  intros Hbuf Hh. unfold read.
  destruct (tick_lacks t (field k)) eqn:Hlacks.
  - cbn. repeat split; try assumption; lia.
  - destruct t as [d|]; [|discriminate].
    cbn [snd buffer window hunger base_level learning_rate history].
    split; [|split; [|split; [|split; [|split]]]]; try reflexivity.
    + rewrite length_app. cbn [length].
      destruct (Nat.ltb_spec (window s) (length (buffer s) + 1)) as [Hf|Hr].
      * destruct (buffer s) as [|x l]; cbn in *; [lia|].
        rewrite length_app. cbn. lia.
      * rewrite length_app. cbn. lia.
    + match goal with
      | |- (0 <= if ?b then _ else _)%Q => destruct b
      end.
      * apply max0_nonneg.
      * pose proof (quiet_increment_pos k). lra.
    + rewrite length_app. cbn. lia.
Qed.

(** X17: over any sequence of ticks, valid or not, a base sensor never
    holds more values than its window, never has negative hunger, never
    changes its window, base level or learning rate, and adds to its
    history exactly one reading per tick that carries its field: the
    history is never trimmed. *)
Theorem read_all_invariants (k : Kind) (ticks : list Tick) :
  forall s : Sensor,
    (length (buffer s) <= window s)%nat -> (0 <= hunger s)%Q ->
    let s' := BaseSensorCore.read_all k s ticks in
    (length (buffer s') <= window s')%nat /\ (0 <= hunger s')%Q
    /\ window s' = window s /\ base_level s' = base_level s
    /\ learning_rate s' = learning_rate s
    /\ length (history s')
       = (length (history s)
          + length (BaseSensorCore.valid_ticks k ticks))%nat.
Proof.
  induction ticks as [|t ticks IH]; intros s Hbuf Hh.
  - cbn. repeat split; try assumption; lia.
  - destruct (read_step k s t Hbuf Hh) as (Hb1 & Hh1 & Hw1 & Hbl1 & Hlr1 & Hl1).
    destruct (IH _ Hb1 Hh1) as (Hb2 & Hh2 & Hw2 & Hbl2 & Hlr2 & Hl2).
    cbn [BaseSensorCore.read_all].
    split; [exact Hb2|]. split; [exact Hh2|].
    split; [congruence|]. split; [congruence|]. split; [congruence|].
    rewrite Hl2, Hl1. unfold BaseSensorCore.valid_ticks. cbn [List.filter].
    destruct (tick_lacks t (field k)); cbn; lia.
Qed.

End ReadSequenceFacts.

(** ** base_sensor.py: a constant signal *)

Section ConstantSignalFacts.
Import BaseSensor.

Lemma fold_Qplus_repeat (c : Q) (n : nat) :
  forall a, (fold_left Qplus (repeat c n) a
             == a + inject_Z (Z.of_nat n) * c)%Q.
Proof.
  induction n as [|n IH]; intros a.
  - cbn. ring.
  - cbn [repeat fold_left]. rewrite IH, inject_Z_succ. ring.
Qed.

Lemma np_mean_repeat (c : Q) (n : nat) :
  (1 <= n)%nat -> (np_mean (repeat c n) == c)%Q.
Proof.
  intros Hn. unfold np_mean. rewrite fold_Qplus_repeat, repeat_length.
  assert (Hnz : ~ (inject_Z (Z.of_nat n) == 0)%Q).
  { unfold Qeq. cbn. lia. }
  field. exact Hnz.
Qed.

Lemma fold_Qplus_zero (xs : list Q) :
  Forall (fun x => (x == 0)%Q) xs ->
  forall a, (fold_left Qplus xs a == a)%Q.
Proof.
  induction xs as [|x xs IH]; intros Hall a; [reflexivity|].
  apply Forall_cons in Hall as [Hx Hall].
  cbn [fold_left]. rewrite (IH Hall), Hx. ring.
Qed.

Lemma Qsqrt_zero (q : Q) : (q == 0)%Q -> (Qsqrt q == 0)%Q.
Proof.
  destruct q as [n d]. unfold Qeq, Qsqrt. cbn. intros Hn.
  assert (n = 0) by lia. subst n. reflexivity.
Qed.

Lemma np_std_repeat (c : Q) (n : nat) :
  (1 <= n)%nat -> (np_std (repeat c n) == 0)%Q.
Proof.
  intros Hn. unfold np_std. apply Qsqrt_zero.
  unfold np_mean at 1. rewrite fold_Qplus_zero.
  - unfold Qdiv. ring.
  - apply Forall_forall. intros y Hy. apply list_elem_of_In in Hy.
    apply in_map_iff in Hy as (x & <- & Hx).
    apply repeat_spec in Hx. subst x.
    rewrite (np_mean_repeat c n Hn). ring.
Qed.

Lemma repeat_snoc (A : Type) (c : A) (n : nat) :
  repeat c n ++ [c] = repeat c (S n).
Proof. induction n as [|n IH]; cbn; [reflexivity|]. f_equal. exact IH. Qed.

(** A read of the value [c] by a sensor whose buffer holds only [c]. *)
Lemma read_constant (k : Kind) (s : Sensor) (c : Q) (j : nat) :
  k <> SuperVolumeSensor ->
  buffer s = repeat c j -> (j <= window s)%nat -> (1 <= window s)%nat ->
  (0 <= base_level s)%Q -> (0 <= learning_rate s)%Q -> (0 <= hunger s)%Q ->
  exists r s',
    read k s (Some {[ field k := c ]}) = (Some r, s')
    /\ anomaly r = false
    /\ hunger s' = (hunger s + quiet_increment k)%Q
    /\ buffer s' = repeat c (Nat.min (S j) (window s))
    /\ window s' = window s /\ base_level s' = base_level s
    /\ learning_rate s' = learning_rate s.
Proof.
  intros Hk Hbuf Hj Hw Hb Hlr Hh. unfold read.
  assert (Hlacks : tick_lacks (Some {[ field k := c ]}) (field k) = false).
  { unfold tick_lacks. rewrite map_size_singleton, lookup_singleton_eq.
    reflexivity. }
  rewrite Hlacks. rewrite lookup_singleton_eq. cbn [default from_option id].
  unfold id. rewrite Hbuf, repeat_snoc, repeat_length.
  set (buf := if (window s <? S j)%nat then tail (repeat c (S j))
              else repeat c (S j)).
  assert (Hbuf' : buf = repeat c (Nat.min (S j) (window s))).
  { subst buf. destruct (Nat.ltb_spec (window s) (S j)).
    - cbn [repeat tail]. f_equal. lia.
    - f_equal. lia. }
  assert (Hpos : (1 <= Nat.min (S j) (window s))%nat) by lia.
  rewrite Hbuf'.
  set (m := Nat.min (S j) (window s)) in *.
  pose proof (np_mean_repeat c m Hpos) as Hmean.
  pose proof (np_std_repeat c m Hpos) as Hstd.
  set (mean := np_mean (repeat c m)) in *.
  set (std := np_std (repeat c m)) in *.
  assert (Hquiet : is_anomaly k c mean
                     (base_level s + learning_rate s * (std + hunger s))
                   = false).
  { assert (Habs : (Qabs (c - mean) == 0)%Q).
    { assert (Hz : (c - mean == 0)%Q) by (rewrite Hmean; ring).
      rewrite Hz. reflexivity. }
    assert (Hprod : (0 <= learning_rate s * (std + hunger s))%Q).
    { apply Qmult_le_0_compat; [exact Hlr|]. rewrite Hstd. lra. }
    assert (Hle : Qle_bool (Qabs (c - mean))
                    ((base_level s + learning_rate s * (std + hunger s)) * 2)
                  = true).
    { apply Qle_bool_iff. rewrite Habs. lra. }
    destruct k; try contradiction; unfold is_anomaly, Qgt_bool;
      rewrite Hle; reflexivity. }
  rewrite Hquiet. eexists. eexists. split; [reflexivity|].
  cbn. repeat split; reflexivity.
Qed.

(** X18: a NoiseSensor or PressureSensor with a window of at least 1, an
    empty buffer and non-negative base level, learning rate and hunger,
    fed the same value [n] times, flags none of the reads; its hunger
    rises by the increment of its kind at each read, and its buffer ends
    with [min(n, window)] copies of the value. *)
Theorem constant_signal_is_quiet (k : Kind) (c : Q) (n : nat) :
  forall s : Sensor,
    k <> SuperVolumeSensor ->
    buffer s = [] -> (1 <= window s)%nat ->
    (0 <= base_level s)%Q -> (0 <= learning_rate s)%Q -> (0 <= hunger s)%Q ->
    Forall (fun r => exists x, r = Some x /\ anomaly x = false)
           (fst (feed k s (repeat c n)))
    /\ (hunger (snd (feed k s (repeat c n)))
        == hunger s + inject_Z (Z.of_nat n) * quiet_increment k)%Q
    /\ buffer (snd (feed k s (repeat c n)))
       = repeat c (Nat.min n (window s)).
Proof.
  intros s Hk Hbuf Hw Hb Hlr Hh.
  assert (Hgen : forall (n : nat) (s : Sensor) (j : nat),
             buffer s = repeat c j -> (j <= window s)%nat ->
             (1 <= window s)%nat ->
             (0 <= base_level s)%Q -> (0 <= learning_rate s)%Q ->
             (0 <= hunger s)%Q ->
             Forall (fun r => exists x, r = Some x /\ anomaly x = false)
                    (fst (feed k s (repeat c n)))
             /\ (hunger (snd (feed k s (repeat c n)))
                 == hunger s + inject_Z (Z.of_nat n) * quiet_increment k)%Q
             /\ buffer (snd (feed k s (repeat c n)))
                = repeat c (Nat.min (j + n) (window s))).
  { clear s Hbuf Hw Hb Hlr Hh n.
    intros n. induction n as [|n IH]; intros s j Hbuf Hj Hw Hb Hlr Hh.
    - cbn [repeat feed fst snd]. split; [constructor|]. split.
      + cbn. ring.
      + rewrite Hbuf. f_equal. lia.
    - cbn [repeat feed].
      destruct (read_constant k s c j Hk Hbuf Hj Hw Hb Hlr Hh)
        as (r & s1 & Hread & Hquiet & Hh1 & Hb1 & Hw1 & Hbl1 & Hlr1).
      rewrite Hread.
      assert (Hh1' : (0 <= hunger s1)%Q).
      { rewrite Hh1. pose proof (quiet_increment_pos k). lra. }
      destruct (IH s1 (Nat.min (S j) (window s)) Hb1
                  ltac:(rewrite Hw1; lia) ltac:(rewrite Hw1; exact Hw)
                  ltac:(rewrite Hbl1; exact Hb) ltac:(rewrite Hlr1; exact Hlr)
                  Hh1') as (IHall & IHh & IHb).
      destruct (feed k s1 (repeat c n)) as [rs s2]. cbn [fst snd] in *.
      split; [constructor; [exists r; split; [reflexivity|exact Hquiet]
                           |exact IHall]|].
      split.
      + rewrite IHh, Hh1, inject_Z_succ. ring.
      + rewrite IHb, Hw1. f_equal. lia. }
  destruct (Hgen n s O Hbuf ltac:(lia) Hw Hb Hlr Hh) as (H1 & H2 & H3).
  split; [exact H1|]. split; [exact H2|]. rewrite H3. reflexivity.
Qed.

End ConstantSignalFacts.

(** ** base_sensor.py: [Hive.share_knowledge] *)

Section SensorHiveFacts.
Import BaseSensorCore.
#[local] Set Warnings "-clear-no-such-hyp".

Lemma share_with_bank (h : Hive) (sensor i : nat) :
  banks (share_with h sensor) !!! i
  = if decide (sensor = i) then banks h !!! sensor ∪ knowledge_bank h
    else banks h !!! i.
Proof.
  unfold share_with. cbn [banks].
  destruct (decide (sensor = i)) as [->|Hne].
  - apply lookup_total_insert_eq.
  - apply lookup_total_insert_ne. exact Hne.
Qed.

Lemma share_fold (ms : list nat) :
  forall h : Hive,
    members (fold_left share_with ms h) = members h
    /\ (forall x, x ∈ knowledge_bank (fold_left share_with ms h) <->
                  x ∈ knowledge_bank h
                  \/ exists i, i ∈ ms /\ x ∈ banks h !!! i)
    /\ (forall i, i ∈ ms ->
          knowledge_bank h ∪ banks h !!! i
          ⊆ banks (fold_left share_with ms h) !!! i)
    /\ (forall i, banks h !!! i ⊆ banks (fold_left share_with ms h) !!! i)
    /\ (forall i, banks (fold_left share_with ms h) !!! i
                  ⊆ knowledge_bank (fold_left share_with ms h)
                    ∪ banks h !!! i)
    /\ (forall i, i ∉ ms ->
          banks (fold_left share_with ms h) !!! i = banks h !!! i).
Proof.
  induction ms as [|m ms IH]; intros h.
  - cbn. repeat split; try set_solver.
  - cbn [fold_left].
    destruct (IH (share_with h m)) as (Hmem & Hkb & Hin & Hmono & Hup & Hout).
    assert (Hkb1 : knowledge_bank (share_with h m)
                   = knowledge_bank h ∪ banks h !!! m)
      by (unfold share_with; cbn; set_solver).
    split; [rewrite Hmem; reflexivity|].
    split; [|split; [|split; [|split]]].
    + intros x. rewrite Hkb, Hkb1. split.
      * intros [Hx|(i & Hi & Hx)].
        -- set_solver.
        -- rewrite share_with_bank in Hx.
           destruct (decide (m = i)) as [->|Hne]; set_solver.
      * intros [Hx|(i & Hi & Hx)]; [set_solver|].
        apply elem_of_cons in Hi as [->|Hi]; [set_solver|].
        right. exists i. split; [exact Hi|].
        rewrite share_with_bank. destruct (decide (m = i)); set_solver.
    + intros i Hi.
      assert (Hstep : knowledge_bank h ∪ banks h !!! i
                      ⊆ knowledge_bank (share_with h m)
                        ∪ banks (share_with h m) !!! i).
      { rewrite Hkb1, share_with_bank. destruct (decide (m = i)); set_solver. }
      apply elem_of_cons in Hi as [->|Hi].
      * specialize (Hmono m). rewrite share_with_bank in Hmono.
        destruct (decide (m = m)); [|congruence]. set_solver.
      * specialize (Hin i Hi). specialize (Hmono i).
        rewrite share_with_bank in Hin, Hmono.
        destruct (decide (m = i)); set_solver.
    + intros i. specialize (Hmono i). rewrite share_with_bank in Hmono.
      destruct (decide (m = i)) as [->|]; set_solver.
    + intros i. specialize (Hup i). rewrite share_with_bank in Hup.
      assert (Hsub : knowledge_bank (share_with h m)
                     ⊆ knowledge_bank (fold_left share_with ms
                                         (share_with h m))).
      { intros x Hx. apply Hkb. left. exact Hx. }
      rewrite Hkb1 in Hsub.
      destruct (decide (m = i)) as [->|]; set_solver.
    + intros i Hi. apply not_elem_of_cons in Hi as [Hne Hi].
      rewrite (Hout i Hi), share_with_bank.
      destruct (decide (m = i)); [congruence|reflexivity].
Qed.

(** X19: one pass of [Hive.share_knowledge] makes the hive's bank the
    union of its own bank and the banks of all members; each member keeps
    what it had, gains what the hive held before the pass, and ends with a
    part of the hive's bank; sensors outside the hive are untouched.  A
    second pass brings every member's bank to the hive's bank, which no
    longer changes. *)
Theorem share_knowledge_two_passes (h : Hive) :
  let h1 := share_knowledge h in
  let h2 := share_knowledge h1 in
  (forall x, x ∈ knowledge_bank h1 <->
             x ∈ knowledge_bank h
             \/ exists i, i ∈ members h /\ x ∈ banks h !!! i)
  /\ (forall i, i ∈ members h ->
        knowledge_bank h ∪ banks h !!! i ⊆ banks h1 !!! i
        /\ banks h1 !!! i ⊆ knowledge_bank h1)
  /\ (forall i, i ∉ members h -> banks h1 !!! i = banks h !!! i)
  /\ knowledge_bank h2 = knowledge_bank h1
  /\ (forall i, i ∈ members h -> banks h2 !!! i = knowledge_bank h1).
Proof.
  intros h1 h2. subst h2 h1. unfold share_knowledge.
  destruct (share_fold (members h) h)
    as (Hmem & Hkb & Hin & Hmono & Hup & Hout).
  set (h1 := fold_left share_with (members h) h) in *.
  assert (Hsub1 : forall i, i ∈ members h -> banks h1 !!! i ⊆ knowledge_bank h1).
  { intros i Hi x Hx. apply (Hup i) in Hx.
    apply elem_of_union in Hx as [Hx|Hx]; [exact Hx|].
    apply Hkb. right. exists i. split; assumption. }
  rewrite Hmem.
  destruct (share_fold (members h) h1)
    as (_ & Hkb2 & Hin2 & _ & Hup2 & _).
  assert (Hkb21 : knowledge_bank (fold_left share_with (members h) h1)
                  = knowledge_bank h1).
  { apply set_eq. intros x. rewrite Hkb2. split.
    - intros [Hx|(i & Hi & Hx)]; [exact Hx|]. apply (Hsub1 i Hi). exact Hx.
    - intros Hx. left. exact Hx. }
  split; [exact Hkb|]. split; [|split; [exact Hout|split; [exact Hkb21|]]].
  - intros i Hi. split; [apply Hin; exact Hi|apply Hsub1; exact Hi].
  - intros i Hi. apply set_eq. intros x. split.
    + intros Hx. apply (Hup2 i) in Hx. rewrite Hkb21 in Hx.
      apply elem_of_union in Hx as [Hx|Hx]; [exact Hx|].
      apply (Hsub1 i Hi). exact Hx.
    + intros Hx. apply (Hin2 i Hi). apply elem_of_union. left. exact Hx.
Qed.

End SensorHiveFacts.

(** ** meta_guardian.py: one pass and many *)

Section GuardianFacts.
Import MetaGuardian.

Lemma filter_flat_map_none (A : Type) (f : A -> list Action)
    (p : Action -> bool) (l : list A) :
  (forall a x, In x (f a) -> p x = false) ->
  List.filter p (flat_map f l) = [].
Proof.
  intros Hf. induction l as [|a l IH]; [reflexivity|].
  cbn [flat_map]. rewrite List.filter_app, IH, app_nil_r.
  assert (Hnone : forall xs, (forall x, In x xs -> p x = false) ->
                             List.filter p xs = []).
  { induction xs as [|x xs IHx]; intros Hx; [reflexivity|].
    cbn. rewrite (Hx x (or_introl eq_refl)). apply IHx.
    intros y Hy. apply Hx. right. exact Hy. }
  apply Hnone. intros x Hx. apply (Hf a x Hx).
Qed.

(** X20: in a monitoring pass [handle_overtrading] is called exactly once
    when the number of open trades exceeds [max_open_trades] and not at all
    otherwise, as long as the total capital is not zero; with a total
    capital of zero the first check raises, the pass ends there, and no
    corrective call is made and no parameter tuned, whatever the other
    readings are. *)
Theorem monitor_all_overtrading_once (sys : GieSystem) (cfg : Config) :
  if Qeq_bool (get_total_capital sys) 0
  then monitor_all sys cfg = (cfg, [])
  else overtrading_calls (snd (monitor_all sys cfg))
       = if Z.of_nat (get_open_trades sys) >? max_open_trades cfg
         then 1%nat else 0%nat.
Proof.
  unfold monitor_all, drawdown.
  destruct (Qeq_bool (get_total_capital sys) 0); [reflexivity|].
  cbn [snd]. unfold overtrading_calls.
  rewrite !List.filter_app, !length_app.
  rewrite !(filter_flat_map_none Grid).
  - destruct (Qgt_bool _ (max_drawdown cfg));
      destruct (Z.of_nat (get_open_trades sys) >? max_open_trades cfg);
      destruct (Qgt_bool (min_equity_margin cfg) _); reflexivity.
  - intros g x Hx. destruct (risk_of_runaway g); [|destruct Hx].
    destruct Hx as [<-|[]]. reflexivity.
  - intros g x Hx.
    destruct (Z.of_nat (positions g) >? max_grid_size cfg); [|destruct Hx].
    destruct Hx as [<-|[]]. reflexivity.
Qed.

Lemma monitor_all_tunes (sys : GieSystem) (cfg : Config) (dd : Q) :
  drawdown sys = Ok dd ->
  Qgt_bool dd (max_drawdown cfg * (8 # 10)) = true ->
  meta_tune cfg = true ->
  fst (monitor_all sys cfg)
  = mkConfig (max_drawdown cfg) (max_open_trades cfg)
             (Z.max 3 (max_grid_size cfg - 1))
             (min_equity_margin cfg) true.
Proof.
  intros Hdd Hhigh Htune. unfold monitor_all. rewrite Hdd. cbn [fst].
  rewrite Htune. unfold auto_tune_parameters. rewrite Hhigh, Htune.
  reflexivity.
Qed.

(** X21: while the drawdown stays above 80 % of [max_drawdown] and
    [meta_tune] is on, every monitoring pass lowers [max_grid_size] by one
    but not below 3, and raises a value below 3 to 3: after [n >= 1] passes
    it is [max(3, old - n)], and no other parameter has changed. *)
Theorem auto_tune_converges (sys : GieSystem) (cfg : Config) (dd : Q)
    (n : nat) :
  drawdown sys = Ok dd ->
  Qgt_bool dd (max_drawdown cfg * (8 # 10)) = true ->
  meta_tune cfg = true ->
  (1 <= n)%nat ->
  monitor_passes n sys cfg
  = mkConfig (max_drawdown cfg) (max_open_trades cfg)
             (Z.max 3 (max_grid_size cfg - Z.of_nat n))
             (min_equity_margin cfg) true.
Proof.
  intros Hdd Hhigh Htune Hn. unfold monitor_passes.
  destruct n as [|n]; [lia|]. clear Hn.
  induction n as [|n IH].
  - cbn [Nat.iter]. apply (monitor_all_tunes sys cfg dd Hdd Hhigh Htune).
  - change (Nat.iter (S (S n)) (fun c => fst (monitor_all sys c)) cfg)
      with (fst (monitor_all sys
                   (Nat.iter (S n) (fun c => fst (monitor_all sys c)) cfg))).
    rewrite IH.
    rewrite (monitor_all_tunes sys _ dd Hdd); [|exact Hhigh|reflexivity].
    cbn [max_drawdown max_open_trades max_grid_size min_equity_margin].
    f_equal. lia.
Qed.

End GuardianFacts.

(** ** strategy_evolver.py: [get_weakest] and [cleanup] *)

Section SortFacts.
Import StrategyEvolverCore.

Context {A : Type}.
Variable key : A -> Q.

Lemma insert_by_perm (x : A) (l : list A) :
  Permutation (insert_by key x l) (x :: l).
Proof.
  induction l as [|y l IH]; cbn; [reflexivity|].
  destruct (Qle_bool (key x) (key y)); [reflexivity|].
  rewrite IH. apply perm_swap.
Qed.

Lemma sorted_by_perm (l : list A) : Permutation (sorted_by key l) l.
Proof.
  induction l as [|x l IH]; cbn; [reflexivity|].
  rewrite insert_by_perm, IH. reflexivity.
Qed.

Lemma insert_by_sorted (x : A) (l : list A) :
  StronglySorted (fun a b => (key a <= key b)%Q) l ->
  StronglySorted (fun a b => (key a <= key b)%Q) (insert_by key x l).
Proof.
  induction l as [|y l IH]; cbn; intros Hs.
  - apply StronglySorted_cons. split; constructor.
  - apply StronglySorted_cons in Hs as [Hy Hs].
    destruct (Qle_bool (key x) (key y)) eqn:Hle.
    + apply Qle_bool_iff in Hle. apply StronglySorted_cons. split.
      * constructor; [exact Hle|].
        eapply Forall_impl; [exact Hy|]. cbn. intros z Hz. lra.
      * apply StronglySorted_cons. split; [exact Hy|exact Hs].
    + apply Qle_bool_false_lt in Hle. apply StronglySorted_cons.
      split; [|apply IH; exact Hs].
      apply Forall_forall. intros z Hz.
      rewrite insert_by_perm in Hz. apply elem_of_cons in Hz as [->|Hz].
      * lra.
      * rewrite Forall_forall in Hy. apply Hy. exact Hz.
Qed.

Lemma sorted_by_sorted (l : list A) :
  StronglySorted (fun a b => (key a <= key b)%Q) (sorted_by key l).
Proof.
  induction l as [|x l IH]; cbn; [constructor|].
  apply insert_by_sorted. exact IH.
Qed.

Lemma sorted_by_ext (key' : A -> Q) (l : list A) :
  (forall a b, Qle_bool (key a) (key b) = Qle_bool (key' a) (key' b)) ->
  sorted_by key l = sorted_by key' l.
Proof.
  intros Hext. induction l as [|x l IH]; cbn; [reflexivity|].
  rewrite IH. generalize (sorted_by key' l). intros s.
  induction s as [|y s IHs]; cbn; [reflexivity|].
  rewrite Hext, IHs. reflexivity.
Qed.

End SortFacts.

Section GetWeakestFacts.
Import StrategyEvolverCore.

Lemma score_order (h h' : Q) (a b : string * Stat) :
  Qle_bool (score h a) (score h b) = Qle_bool (score h' a) (score h' b).
Proof.
  unfold score.
  destruct (Qle_bool (MetaReflection.eff (snd a) - (1 # 10) * h')
                     (MetaReflection.eff (snd b) - (1 # 10) * h')) eqn:H.
  - apply Qle_bool_iff in H. apply Qle_bool_iff. lra.
  - apply Qle_bool_false_lt in H.
    destruct (Qle_bool (MetaReflection.eff (snd a) - (1 # 10) * h)
                       (MetaReflection.eff (snd b) - (1 # 10) * h)) eqn:H';
      [|reflexivity].
    apply Qle_bool_iff in H'. lra.
Qed.

(** X22: [get_weakest(n)] returns [min(n, number of engines)] keys of the
    stats table, each once, and no engine it leaves out has a lower
    [win / max(1, trials)] than one it returns; the hunger, which is
    subtracted from every score alike, has no influence on the answer. *)
Theorem get_weakest_takes_lowest (stats : Stats) (hunger : Q) (n : nat) :
  (exists chosen rest,
     get_weakest stats hunger n = map fst chosen
     /\ Permutation stats (chosen ++ rest)
     /\ length chosen = Nat.min n (length stats)
     /\ (forall c r, c ∈ chosen -> r ∈ rest ->
           (MetaReflection.eff (snd c) <= MetaReflection.eff (snd r))%Q))
  /\ (forall hunger',
        get_weakest stats hunger' n = get_weakest stats hunger n).
Proof.
  split.
  - exists (take n (sorted_by (score hunger) stats)),
           (drop n (sorted_by (score hunger) stats)).
    split; [|split; [|split]].
    + unfold get_weakest.
      change (map fst) with (fmap (M := list) (@fst string Stat)).
      rewrite fmap_take. reflexivity.
    + rewrite take_drop. symmetry. apply sorted_by_perm.
    + rewrite length_take. f_equal.
      apply Permutation_length. apply sorted_by_perm.
    + intros c r Hc Hr.
      pose proof (sorted_by_sorted (score hunger) stats) as Hs.
      rewrite <- (take_drop n (sorted_by (score hunger) stats)) in Hs.
      pose proof (StronglySorted_app_1_elem_of _ _ _ c r Hs Hc Hr) as Hle.
      cbn in Hle. unfold score in Hle. lra.
  - intros hunger'. unfold get_weakest. f_equal. f_equal.
    apply sorted_by_ext. intros a b. apply score_order.
Qed.

End GetWeakestFacts.

Section CleanupFacts.
Import StrategyEvolverCore.

Lemma filter_all (B : Type) (P : B -> Prop) `{forall x, Decision (P x)}
    (l : list B) :
  Forall P l -> filter P l = l.
Proof.
  induction l as [|x l IH]; intros Hall; [reflexivity|].
  apply Forall_cons in Hall as [Hx Hall].
  rewrite filter_cons_True by exact Hx. f_equal. apply IH. exact Hall.
Qed.

Lemma dict_del_present (V : Type) (k : string) (d : list (string * V)) :
  NoDup (map fst d) -> k ∈ map fst d ->
  dict_del k d = Ok (filter (fun e => fst e <> k) d).
Proof.
  induction d as [|[k' v] d IH]; cbn [map fst]; intros Hnd Hin.
  - apply elem_of_nil in Hin. destruct Hin.
  - apply NoDup_cons in Hnd as [Hnotin Hnd]. cbn [dict_del].
    rewrite filter_cons. cbn [fst].
    destruct (decide (k = k')) as [->|Hne].
    + rewrite decide_False by (intros H; apply H; reflexivity).
      f_equal. symmetry. apply filter_all.
      apply Forall_forall. intros [k0 v0] H0 Heq. cbn in Heq. subst k0.
      apply Hnotin. apply list_elem_of_fmap. exists (k', v0). auto.
    + apply elem_of_cons in Hin as [Heq|Hin]; [congruence|].
      rewrite (IH Hnd Hin). cbn [bind].
      rewrite decide_True by congruence. reflexivity.
Qed.

Lemma filter_keys_NoDup (V : Type) (P : string * V -> Prop)
    `{forall e, Decision (P e)} (d : list (string * V)) :
  NoDup (map fst d) -> NoDup (map fst (filter P d)).
Proof.
  induction d as [|e d IH]; cbn [map]; intros Hnd; [exact Hnd|].
  apply NoDup_cons in Hnd as [Hnotin Hnd]. rewrite filter_cons.
  destruct (decide (P e)); [|apply IH; exact Hnd].
  cbn [map]. apply NoDup_cons. split; [|apply IH; exact Hnd].
  intros Hin. apply Hnotin.
  apply list_elem_of_fmap in Hin as (x & Hx & Hin).
  apply list_elem_of_filter in Hin as [_ Hin].
  apply list_elem_of_fmap. exists x. auto.
Qed.

Lemma filter_keys_elem (V : Type) (P : string -> Prop)
    `{forall k, Decision (P k)} (d : list (string * V)) (k : string) :
  k ∈ map fst (filter (fun e => P (fst e)) d) <-> P k /\ k ∈ map fst d.
Proof.
  split.
  - intros Hin. apply list_elem_of_fmap in Hin as (x & -> & Hin).
    apply list_elem_of_filter in Hin as [HP Hin].
    split; [exact HP|]. apply list_elem_of_fmap. exists x. auto.
  - intros [HP Hin]. apply list_elem_of_fmap in Hin as (x & -> & Hin).
    apply list_elem_of_fmap. exists x. split; [reflexivity|].
    apply list_elem_of_filter. split; assumption.
Qed.

(** The loop of [cleanup] when every key to remove is in both dicts. *)
Lemma remove_all_filters (Engine : Type) (to_remove : list string) :
  forall (engines : list (string * Engine)) (stats : Stats),
    NoDup to_remove ->
    NoDup (map fst engines) -> NoDup (map fst stats) ->
    (forall k, k ∈ to_remove -> k ∈ map fst engines /\ k ∈ map fst stats) ->
    remove_all to_remove engines stats
    = (filter (fun e => fst e ∉ to_remove) engines,
       filter (fun e => fst e ∉ to_remove) stats, None).
Proof.
  unfold Stats.
  induction to_remove as [|k ks IH];
    intros engines stats Hnd Hne Hns Hin.
  - cbn [remove_all]. f_equal. f_equal;
      symmetry; apply filter_all; apply Forall_forall;
      intros e _; apply not_elem_of_nil.
  - apply NoDup_cons in Hnd as [Hk Hnd].
    destruct (Hin k ltac:(left)) as [Hke Hks].
    cbn [remove_all].
    rewrite (dict_del_present Engine k engines Hne Hke).
    rewrite (dict_del_present Stat k stats Hns Hks).
    rewrite IH.
    + rewrite !list_filter_filter. f_equal. f_equal;
        apply list_filter_iff; intros e; rewrite not_elem_of_cons; tauto.
    + exact Hnd.
    + apply filter_keys_NoDup. exact Hne.
    + apply filter_keys_NoDup. exact Hns.
    + intros k0 Hk0. destruct (Hin k0 ltac:(right; exact Hk0)) as [H1 H2].
      assert (Hne0 : k0 <> k) by (intros ->; contradiction).
      split.
      * apply list_elem_of_fmap in H1 as (x & Hx & Hxin).
        apply list_elem_of_fmap. exists x. split; [exact Hx|].
        apply list_elem_of_filter. split; [congruence|exact Hxin].
      * apply list_elem_of_fmap in H2 as (x & Hx & Hxin).
        apply list_elem_of_fmap. exists x. split; [exact Hx|].
        apply list_elem_of_filter. split; [congruence|exact Hxin].
Qed.

End CleanupFacts.

Section CleanupTheorem.
Import StrategyEvolverCore.

Variable Engine : Type.

Lemma keys_NoDup_unique (V : Type) (d : list (string * V)) :
  NoDup (map fst d) ->
  forall k v v', (k, v) ∈ d -> (k, v') ∈ d -> v = v'.
Proof.
  induction d as [|[k0 v0] d IH]; intros Hnd k v v' Hv Hv'.
  - inversion Hv.
  - cbn in Hnd. apply NoDup_cons in Hnd as [Hnot Hnd].
    apply elem_of_cons in Hv as [Hv|Hv];
      apply elem_of_cons in Hv' as [Hv'|Hv'].
    + congruence.
    + exfalso. apply Hnot. inversion Hv; subst.
      apply list_elem_of_fmap. exists (k0, v'). auto.
    + exfalso. apply Hnot. inversion Hv'; subst.
      apply list_elem_of_fmap. exists (k0, v). auto.
    + exact (IH Hnd k v v' Hv Hv').
Qed.

(** X23: when the engines and the stats table have their keys once each
    and every engine has a stats entry, [cleanup(keep_best_n)] raises
    nothing, keeps at most [keep_best_n] engines, all of them engines it
    started with, deletes the stats entries of exactly the engines it
    removes, and never removes an engine whose [win / max(1, trials)]
    exceeds that of an engine it keeps. *)
Theorem cleanup_keeps_the_best (engines : list (string * Engine))
    (stats : Stats) (keep_best_n : nat) :
  NoDup (map fst engines) -> NoDup (map fst stats) ->
  (forall k, k ∈ map fst engines -> k ∈ map fst stats) ->
  exists engines' stats',
    cleanup engines stats keep_best_n = (engines', stats', None)
    /\ (length engines' <= keep_best_n)%nat
    /\ (forall e, e ∈ engines' -> e ∈ engines)
    /\ (forall s, s ∈ stats' <->
                  s ∈ stats
                  /\ (fst s ∈ map fst engines -> fst s ∈ map fst engines'))
    /\ (forall k k' s s',
          k ∈ map fst engines' -> k' ∈ map fst engines ->
          k' ∉ map fst engines' ->
          (k, s) ∈ stats -> (k', s') ∈ stats ->
          (MetaReflection.eff s' <= MetaReflection.eff s)%Q).
Proof.
  unfold Stats in *. intros Hne Hns Hsub. unfold cleanup.
  set (sorted := sorted_by
                   (fun entry : string * Stat =>
                      (- MetaReflection.eff (snd entry))%Q) stats).
  set (best := take keep_best_n (map fst sorted)).
  set (to_remove := filter (fun k => k ∉ best) (map fst engines)).
  assert (Hrem : forall k, k ∈ to_remove <-> (k ∉ best) /\ (k ∈ map fst engines)).
  { intros k. subst to_remove. rewrite list_elem_of_filter. reflexivity. }
  rewrite remove_all_filters.
  2: { subst to_remove. apply NoDup_filter. exact Hne. }
  2: exact Hne.
  2: exact Hns.
  2: { intros k Hk. apply Hrem in Hk as [_ Hk]. split; [exact Hk|].
       apply Hsub. exact Hk. }
  assert (Hkept : forall k, k ∈ map fst (filter (fun e : string * Engine =>
                                                   fst e ∉ to_remove) engines)
                            <-> k ∈ best /\ k ∈ map fst engines).
  { intros k. split.
    - intros Hin. apply list_elem_of_fmap in Hin as (x & -> & Hin).
      apply list_elem_of_filter in Hin as [Hnot Hin].
      assert (Hxk : fst x ∈ map fst engines)
        by (apply list_elem_of_fmap; exists x; auto).
      split; [|exact Hxk].
      destruct (decide (fst x ∈ best)) as [Hb|Hb]; [exact Hb|].
      exfalso. apply Hnot. apply Hrem. split; assumption.
    - intros [Hb Hin]. apply list_elem_of_fmap in Hin as (x & -> & Hin).
      apply list_elem_of_fmap. exists x. split; [reflexivity|].
      apply list_elem_of_filter. split; [|exact Hin].
      intros Hr. apply Hrem in Hr as [Hnb _]. contradiction. }
  eexists. eexists. split; [reflexivity|].
  split; [|split; [|split]].
  - rewrite <- (length_map fst).
    transitivity (length best).
    + apply submseteq_length. apply NoDup_submseteq.
      * apply filter_keys_NoDup. exact Hne.
      * intros k Hk. apply Hkept in Hk as [Hb _]. exact Hb.
    + subst best. rewrite length_take. lia.
  - intros e He. apply list_elem_of_filter in He as [_ He]. exact He.
  - intros s. rewrite list_elem_of_filter. split.
    + intros [Hnot Hs]. split; [exact Hs|]. intros Hse.
      apply Hkept. split; [|exact Hse].
      destruct (decide (fst s ∈ best)) as [Hb|Hb]; [exact Hb|].
      exfalso. apply Hnot. apply Hrem. split; assumption.
    + intros [Hs Himp]. split; [|exact Hs].
      intros Hr. apply Hrem in Hr as [Hnb Hse].
      apply Himp in Hse. apply Hkept in Hse as [Hb _]. contradiction.
  - intros k k' s s' Hk Hk' Hnk' Hs Hs'.
    apply Hkept in Hk as [Hkb _].
    assert (Hk'b : k' ∉ best).
    { intros Hb. apply Hnk'. apply Hkept. split; assumption. }
    pose proof (sorted_by_sorted
                  (fun entry : string * Stat =>
                     (- MetaReflection.eff (snd entry))%Q) stats) as Hsorted.
    pose proof (sorted_by_perm
                  (fun entry : string * Stat =>
                     (- MetaReflection.eff (snd entry))%Q) stats) as Hperm.
    fold sorted in Hsorted, Hperm.
    rewrite <- (take_drop keep_best_n sorted) in Hsorted.
    assert (Hbest : best = map fst (take keep_best_n sorted)).
    { subst best.
      change (map fst) with (fmap (M := list) (@fst string Stat)).
      rewrite fmap_take. reflexivity. }
    assert (Hs_take : (k, s) ∈ take keep_best_n sorted).
    { rewrite Hbest in Hkb.
      apply list_elem_of_fmap in Hkb as ([k0 s0] & Hk0 & Hin0).
      cbn in Hk0. subst k0.
      assert (Hin_stats : (k, s0) ∈ stats).
      { rewrite <- Hperm. rewrite <- (take_drop keep_best_n sorted).
        apply elem_of_app. left. exact Hin0. }
      rewrite (keys_NoDup_unique _ stats Hns k s s0 Hs Hin_stats).
      exact Hin0. }
    assert (Hs_drop : (k', s') ∈ drop keep_best_n sorted).
    { assert (Hin_sorted : (k', s') ∈ sorted) by (rewrite Hperm; exact Hs').
      rewrite <- (take_drop keep_best_n sorted) in Hin_sorted.
      apply elem_of_app in Hin_sorted as [Ht|Hd]; [|exact Hd].
      exfalso. apply Hk'b. rewrite Hbest.
      apply list_elem_of_fmap. exists (k', s'). auto. }
    pose proof (StronglySorted_app_1_elem_of _ _ _ _ _ Hsorted
                  Hs_take Hs_drop) as Hle.
    cbn in Hle. lra.
Qed.

End CleanupTheorem.


(** ** Instances of the properties above *)

Lemma update_internal_state_keeps_mood_bounded_witness :
  (0 <= GieMindCycle.hunger_increment two_engine_mind)%Q
  /\ (0 <= GieMindCycle.curiosity_increment two_engine_mind)%Q
  /\ (0 <= GieMindCycle.satisfaction_increment two_engine_mind)%Q
  /\ (0 <= GieMindCycle.hunger two_engine_mind <= 1)%Q
  /\ (0 <= GieMindCycle.satisfaction two_engine_mind <= 1)%Q
  /\ (0 <= GieMindCycle.curiosity two_engine_mind <= 1)%Q
  /\ (0 <= GieMindCycle.hunger
             (fst (GieMindCycle.update_internal_state two_engine_mind 1))
      <= 1)%Q
  /\ GieMindCycle.stats
       (fst (GieMindCycle.update_internal_state two_engine_mind 1))
     = GieMindCycle.stats two_engine_mind.
Proof.
  assert (H1 : (0 <= GieMindCycle.hunger_increment two_engine_mind)%Q)
    by (vm_compute; discriminate).
  assert (H2 : (0 <= GieMindCycle.curiosity_increment two_engine_mind)%Q)
    by (vm_compute; discriminate).
  assert (H3 : (0 <= GieMindCycle.satisfaction_increment two_engine_mind)%Q)
    by (vm_compute; discriminate).
  assert (H4 : (0 <= GieMindCycle.hunger two_engine_mind <= 1)%Q)
    by (split; vm_compute; discriminate).
  assert (H5 : (0 <= GieMindCycle.satisfaction two_engine_mind <= 1)%Q)
    by (split; vm_compute; discriminate).
  assert (H6 : (0 <= GieMindCycle.curiosity two_engine_mind <= 1)%Q)
    by (split; vm_compute; discriminate).
  split; [exact H1|]. split; [exact H2|]. split; [exact H3|].
  split; [exact H4|]. split; [exact H5|]. split; [exact H6|].
  destruct (update_internal_state_keeps_mood_bounded two_engine_mind 1
              H1 H2 H3 H4 H5 H6) as (Hh & _ & _ & Hst & _).
  split; [exact Hh | exact Hst].
Defined.

Lemma run_on_unlearned_ledger_raises_KeyError_witness :
  Forall (fun entry : MetaReflection.Key * Stat => trials (snd entry) <= 3)
         ledger_2_3
  /\ GieMindCycle.stats two_engine_mind !! "NoneType"%string = None
  /\ (1 <= 10)%nat
  /\ MainLoop.run
       (GieMindCycle.step tolerance_in_tenths ledger_2_3 (1 # 2)
          (GieMindCycle.mkDraw env_C 0 0 0))
       10 two_engine_mind
     = (two_engine_mind, 1%nat, Some KeyError).
Proof.
  assert (H1 : Forall (fun entry : MetaReflection.Key * Stat =>
                         trials (snd entry) <= 3) ledger_2_3).
  { repeat constructor. simpl. lia. }
  assert (H2 : GieMindCycle.stats two_engine_mind !! "NoneType"%string = None)
    by (vm_compute; reflexivity).
  assert (H3 : (1 <= 10)%nat) by lia.
  split; [exact H1|]. split; [exact H2|]. split; [exact H3|].
  exact (run_on_unlearned_ledger_raises_KeyError tolerance_in_tenths (1 # 2)
           (GieMindCycle.mkDraw env_C 0 0 0) ledger_2_3 10 two_engine_mind
           H1 H2 H3).
Defined.

Lemma ledger_counts_stay_sane_witness :
  (0 <= 1 # 2 <= 1)%Q
  /\ Forall sane (map snd ledger_8_10)
  /\ Forall sane (map snd ledger_2_10)
  /\ Forall sane
       (map snd (MetaReflection.update (1 # 2) ledger_8_10 history_A_won))
  /\ Forall sane
       (map snd (MetaReflection.merge_knowledge ledger_8_10 ledger_2_10)).
Proof.
  assert (H1 : (0 <= 1 # 2 <= 1)%Q) by (split; vm_compute; discriminate).
  assert (H2 : Forall sane (map snd ledger_8_10)).
  { repeat constructor; simpl; lia. }
  assert (H3 : Forall sane (map snd ledger_2_10)).
  { repeat constructor; simpl; lia. }
  split; [exact H1|]. split; [exact H2|]. split; [exact H3|].
  destruct (ledger_counts_stay_sane (1 # 2) ledger_8_10 ledger_2_10
              history_A_won H1 H2 H3) as (Hu & Hm & _).
  split; [exact Hu | exact Hm].
Defined.

Lemma adjust_sensitivity_range_witness :
  (0 <= BaseSensorCore.learning_rate full_memory_sensor)%Q
  /\ (1 # 100 <= BaseSensorCore.sensitivity full_memory_sensor <= 10)%Q
  /\ (1 # 100
      <= BaseSensorCore.sensitivity
           (BaseSensorCore.adjust_sensitivity full_memory_sensor
              "false_positive")
      <= 10)%Q.
Proof.
  assert (H1 : (0 <= BaseSensorCore.learning_rate full_memory_sensor)%Q)
    by (vm_compute; discriminate).
  assert (H2 : (1 # 100 <= BaseSensorCore.sensitivity full_memory_sensor
                <= 10)%Q)
    by (split; vm_compute; discriminate).
  split; [exact H1|]. split; [exact H2|].
  exact (proj1 (adjust_sensitivity_range full_memory_sensor "false_positive"
                  H1 H2)).
Defined.

Lemma detect_keeps_memory_bounded_witness :
  (length (BaseSensorCore.memory full_memory_sensor)
   <= BaseSensorCore.memory_size full_memory_sensor)%nat
  /\ (length (BaseSensorCore.memory
                (snd (BaseSensorCore.detect full_memory_sensor 2 [3; 5]%Q)))
      <= BaseSensorCore.memory_size
           (snd (BaseSensorCore.detect full_memory_sensor 2 [3; 5]%Q)))%nat.
Proof.
  assert (H1 : (length (BaseSensorCore.memory full_memory_sensor)
                <= BaseSensorCore.memory_size full_memory_sensor)%nat)
    by (simpl; lia).
  split; [exact H1|].
  exact (proj1 (detect_keeps_memory_bounded full_memory_sensor 2 [3; 5]%Q
                  H1)).
Defined.

Lemma read_all_invariants_witness :
  (length (BaseSensor.buffer (BaseSensor.new 120))
   <= BaseSensor.window (BaseSensor.new 120))%nat
  /\ (0 <= BaseSensor.hunger (BaseSensor.new 120))%Q
  /\ (length (BaseSensor.buffer
                (BaseSensorCore.read_all BaseSensor.PressureSensor
                   (BaseSensor.new 120) ticks_mixed))
      <= BaseSensor.window
           (BaseSensorCore.read_all BaseSensor.PressureSensor
              (BaseSensor.new 120) ticks_mixed))%nat
  /\ (0 <= BaseSensor.hunger
             (BaseSensorCore.read_all BaseSensor.PressureSensor
                (BaseSensor.new 120) ticks_mixed))%Q.
Proof.
  assert (H1 : (length (BaseSensor.buffer (BaseSensor.new 120))
                <= BaseSensor.window (BaseSensor.new 120))%nat)
    by (simpl; lia).
  assert (H2 : (0 <= BaseSensor.hunger (BaseSensor.new 120))%Q)
    by (vm_compute; discriminate).
  split; [exact H1|]. split; [exact H2|].
  destruct (read_all_invariants BaseSensor.PressureSensor ticks_mixed
              (BaseSensor.new 120) H1 H2) as (Hb & Hh & _).
  split; [exact Hb | exact Hh].
Defined.

Lemma constant_signal_is_quiet_witness :
  BaseSensor.NoiseSensor <> BaseSensor.SuperVolumeSensor
  /\ BaseSensor.buffer (BaseSensor.new 120) = []
  /\ (1 <= BaseSensor.window (BaseSensor.new 120))%nat
  /\ (0 <= BaseSensor.base_level (BaseSensor.new 120))%Q
  /\ (0 <= BaseSensor.learning_rate (BaseSensor.new 120))%Q
  /\ (0 <= BaseSensor.hunger (BaseSensor.new 120))%Q
  /\ BaseSensor.buffer
       (snd (BaseSensor.feed BaseSensor.NoiseSensor (BaseSensor.new 120)
               (repeat (1 # 2)%Q 3)))
     = repeat (1 # 2)%Q (Nat.min 3 (BaseSensor.window (BaseSensor.new 120))).
Proof.
  assert (H0 : BaseSensor.NoiseSensor <> BaseSensor.SuperVolumeSensor)
    by discriminate.
  assert (H1 : BaseSensor.buffer (BaseSensor.new 120) = []) by reflexivity.
  assert (H2 : (1 <= BaseSensor.window (BaseSensor.new 120))%nat)
    by (simpl; lia).
  assert (H3 : (0 <= BaseSensor.base_level (BaseSensor.new 120))%Q)
    by (vm_compute; discriminate).
  assert (H4 : (0 <= BaseSensor.learning_rate (BaseSensor.new 120))%Q)
    by (vm_compute; discriminate).
  assert (H5 : (0 <= BaseSensor.hunger (BaseSensor.new 120))%Q)
    by (vm_compute; discriminate).
  split; [exact H0|]. split; [exact H1|]. split; [exact H2|].
  split; [exact H3|]. split; [exact H4|]. split; [exact H5|].
  destruct (constant_signal_is_quiet BaseSensor.NoiseSensor (1 # 2) 3
              (BaseSensor.new 120) H0 H1 H2 H3 H4 H5) as (_ & _ & Hbuf).
  exact Hbuf.
Defined.

Lemma auto_tune_converges_witness :
  MetaGuardian.drawdown system_in_drawdown
  = Ok ((100000 - 80000) / 100000)%Q
  /\ MetaGuardian.Qgt_bool ((100000 - 80000) / 100000)
       (MetaGuardian.max_drawdown MetaGuardian.default_config * (8 # 10))
     = true
  /\ MetaGuardian.meta_tune MetaGuardian.default_config = true
  /\ (1 <= 6)%nat
  /\ MetaGuardian.max_grid_size
       (monitor_passes 6 system_in_drawdown MetaGuardian.default_config)
     = 3.
Proof.
  assert (H1 : MetaGuardian.drawdown system_in_drawdown
               = Ok ((100000 - 80000) / 100000)%Q) by reflexivity.
  assert (H2 : MetaGuardian.Qgt_bool ((100000 - 80000) / 100000)
                 (MetaGuardian.max_drawdown MetaGuardian.default_config
                  * (8 # 10)) = true) by (vm_compute; reflexivity).
  assert (H3 : MetaGuardian.meta_tune MetaGuardian.default_config = true)
    by reflexivity.
  assert (H4 : (1 <= 6)%nat) by lia.
  split; [exact H1|]. split; [exact H2|]. split; [exact H3|].
  split; [exact H4|].
  rewrite (auto_tune_converges system_in_drawdown MetaGuardian.default_config
             _ 6 H1 H2 H3 H4).
  reflexivity.
Defined.

Lemma cleanup_keeps_the_best_witness :
  NoDup (map fst engines_ABC) /\ NoDup (map fst stats_ABC)
  /\ (forall k, k ∈ map fst engines_ABC -> k ∈ map fst stats_ABC)
  /\ exists engines' stats',
       StrategyEvolverCore.cleanup engines_ABC stats_ABC 2
       = (engines', stats', None)
       /\ (length engines' <= 2)%nat.
Proof.
  assert (H1 : NoDup (map fst engines_ABC))
    by (apply (bool_decide_unpack _); vm_compute; exact I).
  assert (H2 : NoDup (map fst stats_ABC))
    by (apply (bool_decide_unpack _); vm_compute; exact I).
  assert (H3 : forall k, k ∈ map fst engines_ABC -> k ∈ map fst stats_ABC).
  { intros k Hk. exact Hk. }
  split; [exact H1|]. split; [exact H2|]. split; [exact H3|].
  destruct (cleanup_keeps_the_best unit engines_ABC stats_ABC 2 H1 H2 H3)
    as (engines' & stats' & Hrun & Hlen & _).
  exists engines', stats'. split; [exact Hrun | exact Hlen].
Defined.
